(** * nanobot: configuration key conversion, migration and tool validation

    A shallow embedding of [nanobot/config/loader.py] together with the tool
    parameter validator and registry that [tests/test_tool_validation.py]
    exercises.

    Conventions.
    - A Python [str] is a [string]; characters are 8-bit [ascii] and the
      case predicates and mappings of [str] are the ones Python has on the
      ASCII range: only [A-Z] and [a-z] are cased. The statements that
      depend on the case of characters are made for strings of ASCII
      characters ([PyStr.isascii]); [Unicode] has [camel_to_snake] over
      code points, for any character database.
    - A JSON document is a [json]; a Python [dict] is an association list in
      insertion order whose assignment [d[k] = v] is [Dict.set].
    - A Python call that may raise returns a [result]. *)

From Stdlib Require Import String Ascii List ZArith QArith Bool Lia.
From Stdlib Require Import DecimalString.
From stdpp Require gmap strings.
Import ListNotations.

#[local] Arguments String.append : simpl nomatch.

Local Open Scope string_scope.
Local Open Scope list_scope.

(** ** Python [str] primitives *)

Module PyStr.

Definition code (c : ascii) : N := N_of_ascii c.

(** [c.isupper()], [c.islower()] and [c.isdigit()] of a one-character
    string. *)
Definition isupper (c : ascii) : bool :=
  (65 <=? code c)%N && (code c <=? 90)%N.

Definition islower (c : ascii) : bool :=
  (97 <=? code c)%N && (code c <=? 122)%N.

Definition isdigit (c : ascii) : bool :=
  (48 <=? code c)%N && (code c <=? 57)%N.

Definition iscased (c : ascii) : bool := isupper c || islower c.

(** [c.lower()] and [c.upper()]. *)
Definition lower (c : ascii) : ascii :=
  if isupper c then ascii_of_N (code c + 32) else c.

Definition upper (c : ascii) : ascii :=
  if islower c then ascii_of_N (code c - 32) else c.

(** [s.title()]: a cased character is upper-cased when the character
    before it is not cased and lower-cased otherwise. *)
Fixpoint title_from (previous_is_cased : bool) (s : string) : string :=
  match s with
  | EmptyString => EmptyString
  | String c rest =>
      String (if previous_is_cased then lower c else upper c)
             (title_from (iscased c) rest)
  end.

Definition title (s : string) : string := title_from false s.

(** [s.split(sep)] for a one-character separator: never the empty list. *)
Fixpoint split (sep : ascii) (s : string) : list string :=
  match s with
  | EmptyString => [EmptyString]
  | String c rest =>
      if Ascii.eqb c sep then EmptyString :: split sep rest
      else match split sep rest with
           | [] => [String c EmptyString]
           | w :: ws => String c w :: ws
           end
  end.

(** ["".join(parts)] and [sep.join(parts)]. *)
Definition join_empty (parts : list string) : string :=
  fold_right String.append EmptyString parts.

Fixpoint join (sep : string) (parts : list string) : string :=
  match parts with
  | [] => EmptyString
  | [p] => p
  | p :: rest => p ++ sep ++ join sep rest
  end.

(** [needle in haystack] on two strings. *)
Fixpoint contains (needle haystack : string) : bool :=
  String.prefix needle haystack
  || match haystack with
     | EmptyString => false
     | String _ rest => contains needle rest
     end.

Definition no_upper (s : string) : bool :=
  forallb (fun c => negb (isupper c)) (list_ascii_of_string s).

(** [s.isascii()]: every character is below U+0080. *)
Definition isascii (s : string) : bool :=
  forallb (fun c => (code c <? 128)%N) (list_ascii_of_string s).

(** The code points of a string. *)
Definition codes (s : string) : list N :=
  map code (list_ascii_of_string s).

End PyStr.

(** ** Key case conversion ([loader.py], lines 125-138) *)

(** The loop of [camel_to_snake], started at index [i] of the enumeration. *)
Fixpoint camel_to_snake_from (i : nat) (name : string) : string :=
  match name with
  | EmptyString => EmptyString
  | String char rest =>
      let tail := String (PyStr.lower char) (camel_to_snake_from (S i) rest) in
      if PyStr.isupper char && (0 <? i)%nat then String "_" tail else tail
  end.

Definition camel_to_snake (name : string) : string :=
  camel_to_snake_from 0 name.

Definition snake_to_camel (name : string) : string :=
  match PyStr.split "_" name with
  | [] => EmptyString
  | first :: components =>
      first ++ PyStr.join_empty (map PyStr.title components)
  end.

(** ** [camel_to_snake] on Unicode strings

    The strings above hold 8-bit characters and give a case to [A-Z] and
    [a-z] only, which is what Python does on a string of ASCII characters.
    On other characters [str.isupper] and [str.lower] read the Unicode
    character database of the interpreter; the same loop is written here
    over code points, for any such database. *)

Module Unicode.

(** A Python [str] as the sequence of its code points. *)
Definition str : Type := list N.

(** The character that [result.append] adds before an upper-case one. *)
Definition underscore : N := 95.

(** The ASCII rows of the database: [A-Z] are upper-case and [lower] adds
    32 to them and leaves the other characters as they are. *)
Definition ascii_isupper (c : N) : bool := ((65 <=? c) && (c <=? 90))%N.

Definition ascii_lower (c : N) : N :=
  if ascii_isupper c then (c + 32)%N else c.

Definition isascii (name : str) : bool :=
  forallb (fun c => (c <? 128)%N) name.

Section Database.
(** [c.isupper()] and [c.lower()] of a one-character string [c]; [lower]
    may return several characters. *)
Variable isupper : N -> bool.
Variable lower : N -> str.

(** The loop of [camel_to_snake] ([loader.py], lines 125-132), started at
    index [i] of the enumeration. *)
Fixpoint camel_to_snake_from (i : nat) (name : str) : str :=
  match name with
  | [] => []
  | char :: rest =>
      let tail := lower char ++ camel_to_snake_from (S i) rest in
      if isupper char && (0 <? i)%nat then underscore :: tail else tail
  end.

Definition camel_to_snake (name : str) : str := camel_to_snake_from 0 name.




End Database.

(** The rows of the database that the examples below use, as Python reads
    them: the ASCII range; U+2102, the double-struck capital C, which is
    upper-case and which [lower] leaves as it is; U+01C5, a title-case
    letter, which is not upper-case and which [lower] turns into U+01C6;
    U+0130, the capital I with a dot above, of which [lower] makes the two
    characters U+0069 and U+0307. A code point with no row here is given
    no case. *)
Definition sample_isupper (c : N) : bool :=
  ascii_isupper c || (c =? 8450)%N || (c =? 304)%N.

Definition sample_lower (c : N) : str :=
  if (c =? 453)%N then [454%N]
  else if (c =? 304)%N then [105%N; 775%N]
  else [ascii_lower c].

End Unicode.

(** ** JSON documents and Python dictionaries *)

#[warnings="-register-all"]
Inductive json : Type :=
| JNull
| JBool (b : bool)
| JInt (z : Z)
| JFloat (q : Q)
| JStr (s : string)
| JList (items : list json)
| JDict (items : list (string * json)).

(** Induction over documents with the hypotheses for the elements of a list
    and the values of a dictionary. *)
Definition json_nested_ind (P : json -> Prop)
  (HNull : P JNull)
  (HBool : forall b, P (JBool b))
  (HInt : forall z, P (JInt z))
  (HFloat : forall q, P (JFloat q))
  (HStr : forall s, P (JStr s))
  (HList : forall l, Forall P l -> P (JList l))
  (HDict : forall d, Forall (fun kv => P (snd kv)) d -> P (JDict d)) :
  forall j, P j :=
  fix go (j : json) : P j :=
    match j with
    | JNull => HNull
    | JBool b => HBool b
    | JInt z => HInt z
    | JFloat q => HFloat q
    | JStr s => HStr s
    | JList l =>
        HList l ((fix elems (l : list json) : Forall P l :=
                    match l with
                    | [] => Forall_nil _
                    | x :: r => @Forall_cons _ P x r (go x) (elems r)
                    end) l)
    | JDict d =>
        HDict d ((fix vals (d : list (string * json))
                    : Forall (fun kv => P (snd kv)) d :=
                    match d with
                    | [] => Forall_nil _
                    | kv :: r =>
                        @Forall_cons _ (fun kv => P (snd kv)) kv r
                          (go (snd kv)) (vals r)
                    end) d)
    end.

Module Dict.
Section Ops.
Context {A : Type}.

(** [k in d]. *)
Fixpoint mem (d : list (string * A)) (k : string) : bool :=
  match d with
  | [] => false
  | (k', _) :: rest => String.eqb k' k || mem rest k
  end.

(** [d.get(k)], [None] when the key is absent. *)
Fixpoint get (d : list (string * A)) (k : string) : option A :=
  match d with
  | [] => None
  | (k', v) :: rest => if String.eqb k' k then Some v else get rest k
  end.

(** [d[k] = v]: the value of an existing key is replaced where the key
    stands, a new key goes to the end. *)
Fixpoint set (d : list (string * A)) (k : string) (v : A)
  : list (string * A) :=
  match d with
  | [] => [(k, v)]
  | (k', v') :: rest =>
      if String.eqb k' k then (k', v) :: rest
      else (k', v') :: set rest k v
  end.

(** The dictionary left by [d.pop(k)]. *)
Fixpoint remove (d : list (string * A)) (k : string)
  : list (string * A) :=
  match d with
  | [] => []
  | (k', v') :: rest =>
      if String.eqb k' k then remove rest k
      else (k', v') :: remove rest k
  end.

Definition keys (d : list (string * A)) : list string := map fst d.
End Ops.
End Dict.

(** Pairwise distinct keys, as every Python [dict] has. *)
Fixpoint distinct (ks : list string) : bool :=
  match ks with
  | [] => true
  | k :: rest => negb (existsb (String.eqb k) rest) && distinct rest
  end.

(** A document all of whose dictionaries have pairwise distinct keys. *)
Fixpoint wf_json (j : json) : bool :=
  match j with
  | JList l =>
      (fix all (l : list json) : bool :=
         match l with
         | [] => true
         | x :: r => wf_json x && all r
         end) l
  | JDict d =>
      distinct (Dict.keys d)
      && (fix all (d : list (string * json)) : bool :=
            match d with
            | [] => true
            | (_, v) :: r => wf_json v && all r
            end) d
  | _ => true
  end.

(** Every key of every dictionary of a document satisfies [p]. *)
Fixpoint all_keys (p : string -> bool) (j : json) : bool :=
  match j with
  | JList l =>
      (fix all (l : list json) : bool :=
         match l with
         | [] => true
         | x :: r => all_keys p x && all r
         end) l
  | JDict d =>
      (fix all (d : list (string * json)) : bool :=
         match d with
         | [] => true
         | (k, v) :: r => p k && all_keys p v && all r
         end) d
  | _ => true
  end.

(** A document that holds no dictionary, at any depth. *)
Fixpoint mapping_free (j : json) : bool :=
  match j with
  | JList l =>
      (fix all (l : list json) : bool :=
         match l with
         | [] => true
         | x :: r => mapping_free x && all r
         end) l
  | JDict _ => false
  | _ => true
  end.

(** ** Structural paths ([loader.py], lines 75-82) *)

Definition _is_mcp_servers_path (path : list string) : bool :=
  match path with
  | [p0; p1] => String.eqb p0 "tools" && String.eqb p1 "mcp_servers"
  | _ => false
  end.

Definition _is_mcp_env_map_path (path : list string) : bool :=
  match path with
  | [p0; p1; _; p3] =>
      String.eqb p0 "tools" && String.eqb p1 "mcp_servers"
      && String.eqb p3 "env"
  | _ => false
  end.

(** ** Recursive key conversion ([loader.py], lines 85-122) *)

Fixpoint convert_keys (data : json) (path : list string) : json :=
  match data with
  | JDict items =>
      JDict
        ((fix loop (items : list (string * json))
                   (out : list (string * json)) : list (string * json) :=
            match items with
            | [] => out
            | (k, v) :: rest =>
                let key := camel_to_snake k in
                let next_path := path ++ [key] in
                if _is_mcp_env_map_path path
                then loop rest (Dict.set out k (convert_keys v (path ++ [k])))
                else loop rest (Dict.set out key (convert_keys v next_path))
            end) items [])
  | JList items => JList (map (fun item => convert_keys item path) items)
  | _ => data
  end.

Fixpoint convert_to_camel (data : json) (path : list string) : json :=
  match data with
  | JDict items =>
      JDict
        ((fix loop (items : list (string * json))
                   (out : list (string * json)) : list (string * json) :=
            match items with
            | [] => out
            | (k, v) :: rest =>
                let key := snake_to_camel k in
                let next_path := path ++ [k] in
                if _is_mcp_env_map_path path
                then loop rest (Dict.set out k (convert_to_camel v (path ++ [k])))
                else loop rest (Dict.set out key (convert_to_camel v next_path))
            end) items [])
  | JList items => JList (map (fun item => convert_to_camel item path) items)
  | _ => data
  end.

(** The documents of [tests/test_tool_validation.py]. *)
Definition mcp_env : list (string * json) :=
  [("OPENAI_API_KEY", JStr "test_key"); ("MyCustomToken", JStr "abc")].

Definition _build_mcp_env_data : json :=
  JDict [("tools", JDict [("mcpServers", JDict [("demo",
    JDict [("command", JStr "npx"); ("env", JDict mcp_env)])])])].

Definition mcp_env_data_snake : json :=
  JDict [("tools", JDict [("mcp_servers", JDict [("demo",
    JDict [("command", JStr "npx"); ("env", JDict mcp_env)])])])].

(** ** Snake case *)

(** A word of a snake-case identifier: one or more lower-case letters and
    digits. *)
Definition snake_word (w : string) : bool :=
  match w with
  | EmptyString => false
  | _ => forallb (fun c => PyStr.islower c || PyStr.isdigit c)
                 (list_ascii_of_string w)
  end.

(** Snake case as identifiers have it: words of lower-case letters and
    digits joined by single underscores, the first character a letter. *)
Definition is_snake_case (name : string) : bool :=
  match name with
  | EmptyString => false
  | String c _ => PyStr.islower c && forallb snake_word (PyStr.split "_" name)
  end.

Fixpoint all_digits (s : string) : bool :=
  match s with
  | EmptyString => true
  | String c rest => PyStr.isdigit c && all_digits rest
  end.

Fixpoint letters_then_digits (s : string) : bool :=
  match s with
  | EmptyString => true
  | String c rest =>
      (PyStr.islower c && letters_then_digits rest)
      || (PyStr.isdigit c && all_digits rest)
  end.

(** A word that starts with a letter and has no letter after a digit. *)
Definition plain_word (w : string) : bool :=
  match w with
  | EmptyString => false
  | String c rest => PyStr.islower c && letters_then_digits rest
  end.

(** Snake case that comes back from camel case: every word after the
    first starts with a letter and has no letter after a digit; the first
    word is any word of snake case. *)
Definition is_round_trip_snake_case (name : string) : bool :=
  is_snake_case name && forallb plain_word (tl (PyStr.split "_" name)).

(** The dictionaries found at [tools.<serverMap>.<name>.env] of a
    document. *)
Definition dict_items (j : json) : list (string * json) :=
  match j with
  | JDict d => d
  | _ => []
  end.

Definition env_submaps (x : json) : list json :=
  match Dict.get (dict_items x) "tools" with
  | Some tools =>
      flat_map (fun server_map =>
        flat_map (fun server =>
          match Dict.get (dict_items (snd server)) "env" with
          | Some (JDict env) => [JDict env]
          | _ => []
          end) (dict_items (snd server_map))) (dict_items tools)
  | None => []
  end.

Definition no_env_submap (x : json) : bool :=
  match env_submaps x with
  | [] => true
  | _ => false
  end.

(** Key conversion with no exemption at all: every key of every dictionary
    is converted. *)
Fixpoint convert_every_key (f : string -> string) (data : json) : json :=
  match data with
  | JDict items =>
      JDict
        ((fix loop (items : list (string * json))
                   (out : list (string * json)) : list (string * json) :=
            match items with
            | [] => out
            | (k, v) :: rest =>
                loop rest (Dict.set out (f k) (convert_every_key f v))
            end) items [])
  | JList items => JList (map (convert_every_key f) items)
  | _ => data
  end.

(** ** Exceptions *)

Inductive exn : Type :=
| JSONDecodeError
| ValueError
| AttributeError
| TypeError
| KeyError
| OSError
| RecursionError.

Inductive result (A : Type) : Type :=
| Ok (a : A)
| Raise (e : exn).
Arguments Ok {A} a.
Arguments Raise {A} e.

Definition bind {A B : Type} (r : result A) (k : A -> result B) : result B :=
  match r with
  | Ok a => k a
  | Raise e => Raise e
  end.

Declare Scope py_scope.
Delimit Scope py_scope with py.
Notation "x <- r ;; k" := (bind r (fun x => k))
  (at level 61, r at next level, right associativity) : py_scope.

(** ** Migration of old configuration files ([loader.py], lines 65-72) *)

Definition restrictToWorkspace : string := "restrictToWorkspace".

(** [obj.get(k, {})]: only a [dict] has the method. *)
Definition py_get_or_empty (obj : json) (k : string) : result json :=
  match obj with
  | JDict d =>
      Ok (match Dict.get d k with Some v => v | None => JDict [] end)
  | _ => Raise AttributeError
  end.

(** [k in obj] for a string [k]: key membership in a [dict], element
    membership in a [list], substring test in a [str]; the other values are
    not iterable. *)
Definition py_in (k : string) (obj : json) : result bool :=
  match obj with
  | JDict d => Ok (Dict.mem d k)
  | JList l =>
      Ok (existsb (fun x => match x with
                            | JStr s => String.eqb s k
                            | _ => false
                            end) l)
  | JStr s => Ok (PyStr.contains k s)
  | _ => Raise TypeError
  end.

(** [obj.pop(k)] for a string [k]: the value and what is left of [obj].
    A [list] wants an integer index; a [str] has no such method. *)
Definition py_pop (obj : json) (k : string) : result (json * json) :=
  match obj with
  | JDict d =>
      match Dict.get d k with
      | Some v => Ok (v, JDict (Dict.remove d k))
      | None => Raise KeyError
      end
  | JList _ => Raise TypeError
  | _ => Raise AttributeError
  end.

(** [tools] and [exec_cfg] are the objects stored in [data] whenever the
    branch that mutates them is taken (a missing key gives a fresh empty
    [dict], in which nothing is found), so the two mutations are written
    back where the objects stand. *)
Definition _migrate_config (data : json) : result json :=
  (tools <- py_get_or_empty data "tools" ;;
   exec_cfg <- py_get_or_empty tools "exec" ;;
   old_set <- py_in restrictToWorkspace exec_cfg ;;
   if old_set then
     new_set <- py_in restrictToWorkspace tools ;;
     if negb new_set then
       popped <- py_pop exec_cfg restrictToWorkspace ;;
       match data, tools with
       | JDict d, JDict t =>
           let t1 := Dict.set t "exec" (snd popped) in
           let t2 := Dict.set t1 restrictToWorkspace (fst popped) in
           Ok (JDict (Dict.set d "tools" (JDict t2)))
       | _, _ => Raise AttributeError
       end
     else Ok data
   else Ok data)%py.

(** ** Loading a configuration file ([loader.py], lines 21-43) *)

(** What [load_config] prints. *)
Inductive printed : Type :=
| WarningFailedToLoad (path : string) (e : exn)
| UsingDefaultConfiguration.

Section Loader.
(** [nanobot.config.schema.Config] is not part of the sources: the class,
    its default instance [Config()] and [Config.model_validate], whose
    validation error is a [ValueError]. [json_load] reads a document from
    the text of a file and raises [JSONDecodeError] on malformed text. *)
Variable Config : Type.
Variable Config_default : Config.
Variable model_validate : json -> result Config.
Variable json_load : string -> result json.

(** The exceptions named by [except (json.JSONDecodeError, ValueError)]. *)
Definition caught (e : exn) : bool :=
  match e with
  | JSONDecodeError | ValueError => true
  | _ => false
  end.

(** The body of the [try]. *)
Definition load_config_try (text : string) : result Config :=
  (data <- json_load text ;;
   data <- _migrate_config data ;;
   model_validate (convert_keys data []))%py.

(** [file] is the text at [path], [None] when [path] does not exist. The
    result pairs what was printed with what is returned or raised. Here
    a path that exists opens for reading and the document nests within the
    recursion limit of the interpreter; [load_config_io] below has the
    other cases. *)
Definition load_config (path : string) (file : option string)
  : list printed * result Config :=
  match file with
  | Some text =>
      match load_config_try text with
      | Ok cfg => ([], Ok cfg)
      | Raise e =>
          if caught e
          then ([WarningFailedToLoad path e; UsingDefaultConfiguration],
                Ok Config_default)
          else ([], Raise e)
      end
  | None => ([], Ok Config_default)
  end.
End Loader.

(** ** Tool parameter schemas *)

(** Modelled from the spec: the numeric bounds of the schema model of
    [nanobot/agent/tools/base.py], which is not part of the sources. A bound
    is an integer or a non-integral number. *)
Inductive number : Type :=
| NInt (z : Z)
| NFloat (q : Q).

Definition number_value (n : number) : Q :=
  match n with
  | NInt z => inject_Z z
  | NFloat q => q
  end.

(** Modelled from the spec: the schema nodes that the validator of
    [nanobot/agent/tools/base.py], which is not part of the sources, reads
    from the [parameters] of a tool. Properties are kept in the order they
    are declared. *)
#[warnings="-register-all"]
Inductive schema : Type :=
| SObject (properties : list (string * schema)) (required : list string)
| SArray (items : schema)
| SString (minLength maxLength : option nat) (enum : option (list string))
| SInteger (minimum maximum : option number)
| SNumber (minimum maximum : option number)
| SBoolean.

(** Modelled from the spec: a segment of the path accumulator of the
    validator, which is not part of the sources: a field name or an array
    index. *)
Inductive segment : Type :=
| Field (name : string)
| Index (i : nat).

Definition decimal_nat (n : nat) : string :=
  NilZero.string_of_uint (Nat.to_uint n).

Definition decimal_Z (z : Z) : string :=
  NilZero.string_of_int (Z.to_int z).

(** Modelled from the spec: the path rendering of the validator of
    [nanobot/agent/tools/base.py], which is not part of the sources. A root
    field has no prefix, a nested field appends [.<key>], an array element
    appends [[<index>]]. *)
Definition render_segment (prefix : string) (seg : segment) : string :=
  match seg with
  | Field name =>
      match prefix with
      | EmptyString => name
      | _ => prefix ++ "." ++ name
      end
  | Index i => prefix ++ "[" ++ decimal_nat i ++ "]"
  end.

Definition render_path (path : list segment) : string :=
  fold_left render_segment path EmptyString.

Section Validator.
(** How a non-integral bound is printed in a message. *)
Variable render_float : Q -> string.

Definition render_number (n : number) : string :=
  match n with
  | NInt z => decimal_Z z
  | NFloat q => render_float q
  end.

(** Modelled from the spec: the bounds checks that the validator, which is
    not part of the sources, makes at an integer or number node on the
    value [x], the minimum first. *)
Definition check_bounds (label : string) (minimum maximum : option number)
  (x : Q) : list string :=
  (match minimum with
   | Some lo =>
       if negb (Qle_bool (number_value lo) x)
       then [(label ++ " must be >= " ++ render_number lo)%string]
       else []
   | None => []
   end)
  ++
  (match maximum with
   | Some hi =>
       if negb (Qle_bool x (number_value hi))
       then [(label ++ " must be <= " ++ render_number hi)%string]
       else []
   | None => []
   end).

(** Modelled from the spec: the checks that the validator, which is not
    part of the sources, makes at a string node: minimum length, maximum
    length, membership in the enum. *)
Definition check_string (label : string) (minLength maxLength : option nat)
  (enum : option (list string)) (s : string) : list string :=
  (match minLength with
   | Some n =>
       if (String.length s <? n)%nat
       then [(label ++ " must be at least " ++ decimal_nat n ++ " chars")%string]
       else []
   | None => []
   end)
  ++
  (match maxLength with
   | Some n =>
       if (n <? String.length s)%nat
       then [(label ++ " must be at most " ++ decimal_nat n ++ " chars")%string]
       else []
   | None => []
   end)
  ++
  (match enum with
   | Some allowed =>
       if existsb (String.eqb s) allowed then []
       else [(label ++ " must be one of " ++ PyStr.join ", " allowed)%string]
   | None => []
   end).

(** Modelled from the spec: the validator of [nanobot/agent/tools/base.py],
    which is not part of the sources. A recursive descent over the schema
    with a path accumulator; the type check of a node comes first and is
    the only error of the node when it fails. *)
Fixpoint validate_at (node : schema) (path : list segment) (value : json)
  : list string :=
  match node with
  | SObject properties required =>
      match value with
      | JDict d =>
          flat_map (fun name =>
                      if Dict.mem d name then []
                      else [("missing required "
                               ++ render_path (path ++ [Field name]))%string])
                   required
          ++ (fix declared (props : list (string * schema)) : list string :=
                match props with
                | [] => []
                | (k, sub) :: rest =>
                    (match Dict.get d k with
                     | Some v => validate_at sub (path ++ [Field k]) v
                     | None => []
                     end) ++ declared rest
                end) properties
      | _ => [(render_path path ++ " should be object")%string]
      end
  | SArray items =>
      match value with
      | JList l =>
          (fix elements (l : list json) (i : nat) : list string :=
             match l with
             | [] => []
             | x :: rest =>
                 validate_at items (path ++ [Index i]) x
                 ++ elements rest (S i)
             end) l 0%nat
      | _ => [(render_path path ++ " should be array")%string]
      end
  | SString minLength maxLength enum =>
      match value with
      | JStr s => check_string (render_path path) minLength maxLength enum s
      | _ => [(render_path path ++ " should be string")%string]
      end
  | SInteger minimum maximum =>
      match value with
      | JInt z => check_bounds (render_path path) minimum maximum (inject_Z z)
      | _ => [(render_path path ++ " should be integer")%string]
      end
  | SNumber minimum maximum =>
      match value with
      | JInt z => check_bounds (render_path path) minimum maximum (inject_Z z)
      | JFloat q => check_bounds (render_path path) minimum maximum q
      | _ => [(render_path path ++ " should be number")%string]
      end
  | SBoolean =>
      match value with
      | JBool _ => []
      | _ => [(render_path path ++ " should be boolean")%string]
      end
  end.

Definition validate (node : schema) (value : json) : list string :=
  validate_at node [] value.

(** ** Tools and the registry *)

(** Modelled from the spec: the tool capability of
    [nanobot/agent/tools/base.py], which is not part of the sources. The
    work of a tool either returns a result or fails with a message. *)
Record Tool : Type := {
  name : string;
  description : string;
  parameters : schema;
  run : json -> string + string
}.

(** Modelled from the spec: [Tool.validate_params], which is not part of
    the sources, a call of the validator on the root schema of the tool. *)
Definition validate_params (tool : Tool) (args : json) : list string :=
  validate (parameters tool) args.

(** The calls a registry makes on a tool, in the order it makes them. *)
Inductive call : Type :=
| ValidateParams (tool : string) (args : json)
| Execute (tool : string) (args : json).

(** Modelled from the spec: the registry of
    [nanobot/agent/tools/registry.py], which is not part of the sources, a
    mapping from names to tools in which a later registration under a name
    replaces the earlier one. *)
Definition ToolRegistry : Type := stdpp.gmap.gmap string Tool.

Definition register (reg : ToolRegistry) (tool : Tool) : ToolRegistry :=
  stdpp.base.insert (name tool) tool reg.

(** Modelled from the spec: [ToolRegistry.execute] of
    [nanobot/agent/tools/registry.py], which is not part of the sources.
    Lookup, then validation, then the tool; the result pairs the calls made
    on the tool with the string returned. *)
Definition execute (reg : ToolRegistry) (tool_name : string) (args : json)
  : list call * string :=
  match stdpp.base.lookup tool_name reg with
  | None => ([], ("Unknown tool: " ++ tool_name)%string)
  | Some tool =>
      match validate_params tool args with
      | [] =>
          ([ValidateParams tool_name args; Execute tool_name args],
           match run tool args with
           | inl result => result
           | inr message =>
               ("Error executing " ++ tool_name ++ ": " ++ message)%string
           end)
      | errors =>
          ([ValidateParams tool_name args],
           ("Invalid parameters: " ++ PyStr.join "; " errors)%string)
      end
  end.

(** ** Conformance *)

(** The value [x] is within the inclusive bounds that are set. *)
Definition within (minimum maximum : option number) (x : Q) : Prop :=
  (forall lo, minimum = Some lo -> number_value lo <= x)%Q
  /\ (forall hi, maximum = Some hi -> x <= number_value hi)%Q.

(** A value conforms to a schema node when it has the type of the node and
    meets its constraints: the required names of an object are present and
    its declared properties, where present, conform; the elements of an
    array conform to its item schema. *)
Fixpoint conforms (node : schema) (value : json) : Prop :=
  match node with
  | SObject properties required =>
      exists d, value = JDict d
        /\ (forall r, In r required -> Dict.mem d r = true)
        /\ (fix declared (props : list (string * schema)) : Prop :=
              match props with
              | [] => True
              | (k, sub) :: rest =>
                  (forall v, Dict.get d k = Some v -> conforms sub v)
                  /\ declared rest
              end) properties
  | SArray items =>
      exists l, value = JList l
        /\ (fix elements (l : list json) : Prop :=
              match l with
              | [] => True
              | x :: rest => conforms items x /\ elements rest
              end) l
  | SString minLength maxLength enum =>
      exists s, value = JStr s
        /\ (forall n, minLength = Some n -> (n <= String.length s)%nat)
        /\ (forall n, maxLength = Some n -> (String.length s <= n)%nat)
        /\ (forall allowed, enum = Some allowed -> In s allowed)
  | SInteger minimum maximum =>
      exists z, value = JInt z /\ within minimum maximum (inject_Z z)
  | SNumber minimum maximum =>
      (exists z, value = JInt z /\ within minimum maximum (inject_Z z))
      \/ (exists q, value = JFloat q /\ within minimum maximum q)
  | SBoolean => exists b, value = JBool b
  end.

End Validator.

(** The tool of [tests/test_tool_validation.py]. *)
Definition sample_parameters : schema :=
  SObject
    [("query", SString (Some 2%nat) None None);
     ("count", SInteger (Some (NInt 1)) (Some (NInt 10)));
     ("mode", SString None None (Some ["fast"; "full"]));
     ("meta", SObject [("tag", SString None None None);
                       ("flags", SArray (SString None None None))]
                      ["tag"])]
    ["query"; "count"].

Definition SampleTool : Tool :=
  {| name := "sample";
     description := "sample tool";
     parameters := sample_parameters;
     run := fun _ => inl "ok" |}.

Definition args_nested : json :=
  JDict [("query", JStr "hi"); ("count", JInt 2);
         ("meta", JDict [("flags", JList [JInt 1; JStr "ok"])])].

(** ** The loops of the conversions, as folds *)

(** The loop [for k, v in items: out[key k] = value k v]. *)
Definition put_all (key : string -> string) (value : string -> json -> json)
  (items out : list (string * json)) : list (string * json) :=
  fold_left (fun out kv =>
               Dict.set out (key (fst kv)) (value (fst kv) (snd kv)))
            items out.

(** The key under which [convert_keys] stores the value of [k] in a
    dictionary at [path], and the one [convert_to_camel] uses. *)
Definition snake_key (path : list string) (k : string) : string :=
  if _is_mcp_env_map_path path then k else camel_to_snake k.

Definition camel_key (path : list string) (k : string) : string :=
  if _is_mcp_env_map_path path then k else snake_to_camel k.

(** A document in snake case, as [Config.model_dump] gives. *)
Definition config_snake_sample : json :=
  JDict [("restrict_to_workspace", JBool true);
         ("e2e_enabled", JBool false);
         ("oauth2client", JDict [("client_id2", JStr "id")]);
         ("api_key2", JList [JDict [("max_tokens", JInt 8192)]])].

(** The position of the [env] dictionary of the server [demo], and an
    [env] dictionary one of whose values is a dictionary itself. *)
Definition demo_env_path : list string :=
  ["tools"; "mcp_servers"; "demo"; "env"].

Definition env_with_nested_camel : list (string * json) :=
  [("HEADERS", JDict [("xCustom", JStr "v")])].

Definition env_with_nested_snake : list (string * json) :=
  [("HEADERS", JDict [("x_custom", JStr "v")])].

(** The value found in a document by following keys. *)
Fixpoint lookup_path (j : json) (path : list string) : option json :=
  match path with
  | [] => Some j
  | k :: rest =>
      match Dict.get (dict_items j) k with
      | Some v => lookup_path v rest
      | None => None
      end
  end.

(** An old configuration file, and one that has the field at both
    places. *)
Definition old_config : list (string * json) :=
  [("agents", JDict [("maxTokens", JInt 8192)]);
   ("tools", JDict [("exec", JDict [("timeout", JInt 60);
                                    ("restrictToWorkspace", JBool true)])])].

Definition both_config : list (string * json) :=
  [("tools", JDict [("restrictToWorkspace", JBool false);
                    ("exec", JDict [("restrictToWorkspace", JBool true)])])].

(** The document of a configuration file whose [tools] entry is [null]. *)
Definition tools_null : json := JDict [("tools", JNull)].

Definition tools_null_text : string :=
  String "{" (String "034" ("tools" ++ String "034" ": null}")).

(** Induction over schemas with the hypotheses for the declared
    properties of an object. *)
Definition schema_nested_ind (P : schema -> Prop)
  (HObject : forall props required,
      Forall (fun ks => P (snd ks)) props -> P (SObject props required))
  (HArray : forall items, P items -> P (SArray items))
  (HString : forall lo hi enum, P (SString lo hi enum))
  (HInteger : forall lo hi, P (SInteger lo hi))
  (HNumber : forall lo hi, P (SNumber lo hi))
  (HBoolean : P SBoolean) :
  forall node, P node :=
  fix go (node : schema) : P node :=
    match node with
    | SObject props required =>
        HObject props required
          ((fix declared (props : list (string * schema))
              : Forall (fun ks => P (snd ks)) props :=
              match props with
              | [] => Forall_nil _
              | ks :: rest =>
                  @Forall_cons _ (fun ks => P (snd ks)) ks rest
                    (go (snd ks)) (declared rest)
              end) props)
    | SArray items => HArray items (go items)
    | SString lo hi enum => HString lo hi enum
    | SInteger lo hi => HInteger lo hi
    | SNumber lo hi => HNumber lo hi
    | SBoolean => HBoolean
    end.

(** A value an integer node accepts: an integer, and so neither a boolean
    nor a string of digits nor a non-integral number. *)
Definition is_integer (value : json) : bool :=
  match value with
  | JInt _ => true
  | _ => false
  end.

(** The registry of [test_registry_returns_validation_error]. *)
Definition sample_registry : ToolRegistry :=
  register stdpp.base.empty SampleTool.

(** ** Camel case *)

Definition no_underscore (s : string) : bool :=
  forallb (fun c => negb (Ascii.eqb c "_")) (list_ascii_of_string s).

(** The rest of a camel-case name: letters and digits, no lower-case
    letter right after a digit. *)
Fixpoint camel_rest (after_digit : bool) (s : string) : bool :=
  match s with
  | EmptyString => true
  | String c rest =>
      if PyStr.isdigit c then camel_rest true rest
      else if PyStr.isupper c then camel_rest false rest
      else if PyStr.islower c then negb after_digit && camel_rest false rest
      else false
  end.

(** Camel case as the configuration file has it: a lower-case letter, then
    words of letters followed by digits, each word after the first starting
    with an upper-case letter. *)
Definition is_plain_camel_case (name : string) : bool :=
  match name with
  | EmptyString => false
  | String c rest => PyStr.islower c && camel_rest false rest
  end.


(** What [snake_to_camel] makes of the text after an underscore, or of the
    rest of a word after its first characters: the words are title-cased
    and joined, the first of them from the state [previous_is_cased]. *)
Definition titled (previous_is_cased : bool) (s : string) : string :=
  match PyStr.split "_" s with
  | [] => EmptyString
  | w :: ws =>
      PyStr.title_from previous_is_cased w
      ++ PyStr.join_empty (map PyStr.title ws)
  end.

(** The last entry of [d] whose key is sent to [k'] by [key]. *)
Fixpoint last_with (key : string -> string) (d : list (string * json))
  (k' : string) : option (string * json) :=
  match d with
  | [] => None
  | (k, v) :: rest =>
      match last_with key rest k' with
      | Some kv => Some kv
      | None => if String.eqb (key k) k' then Some (k, v) else None
      end
  end.

(** Every key of a document satisfies [p], but for the keys of the
    dictionaries at the exempted position. The path is extended by the keys
    of the document itself. *)
Fixpoint keys_outside_env (p : string -> bool) (x : json)
  (path : list string) : bool :=
  match x with
  | JDict d =>
      (fix all (d : list (string * json)) : bool :=
         match d with
         | [] => true
         | (k, v) :: r =>
             (_is_mcp_env_map_path path || p k)
             && keys_outside_env p v (path ++ [k]) && all r
         end) d
  | JList l =>
      (fix all (l : list json) : bool :=
         match l with
         | [] => true
         | y :: r => keys_outside_env p y path && all r
         end) l
  | _ => true
  end.

(** A document on which [_migrate_config] finds the shapes it reads: a
    dictionary whose [tools], when there, is a dictionary whose [exec],
    when there, is a dictionary. *)
Definition well_shaped (data : json) : bool :=
  match data with
  | JDict d =>
      match Dict.get d "tools" with
      | None => true
      | Some (JDict t) =>
          match Dict.get t "exec" with
          | None | Some (JDict _) => true
          | Some _ => false
          end
      | Some _ => false
      end
  | _ => false
  end.

(** ** Loading, with the failures of [open] and of the recursion *)

(** What [path.exists()] and [open(path)] find at a path: nothing;
    something at which one of the two raises an [OSError], such as a
    directory or a file that may not be read, which [open] refuses; a file
    that opens, with its text. Neither call is covered by the handler:
    [path.exists()] is outside the [try], and the handler does not name
    [OSError]. *)
Inductive at_path : Type :=
| Nothing
| NotOpenable
| Opens (text : string).

Section LoaderIO.
Variable Config : Type.
Variable Config_default : Config.
Variable model_validate : json -> result Config.
Variable json_load : string -> result json.
(** The document nests deeper than the interpreter lets the recursion of
    [convert_keys] or [convert_to_camel] go. *)
Variable too_deep : json -> bool.

(** The call [convert_keys(data)], which raises [RecursionError] on a
    document that is too deep. *)
Definition convert_keys_call (data : json) : result json :=
  if too_deep data then Raise RecursionError else Ok (convert_keys data []).

(** The body of the [try], after [open]. *)
Definition load_config_try_io (text : string) : result Config :=
  (data <- json_load text ;;
   data <- _migrate_config data ;;
   data <- convert_keys_call data ;;
   model_validate data)%py.

(** Where the exception of the body of the [try] comes from. *)
Inductive raised_by (text : string) (e : exn) : Prop :=
| ByJsonLoad :
    json_load text = Raise e -> raised_by text e
| ByMigration (data : json) :
    json_load text = Ok data ->
    _migrate_config data = Raise e ->
    well_shaped data = false ->
    e = AttributeError \/ e = TypeError ->
    raised_by text e
| ByRecursion (data data' : json) :
    json_load text = Ok data ->
    _migrate_config data = Ok data' ->
    too_deep data' = true ->
    e = RecursionError ->
    raised_by text e
| ByValidation (data data' : json) :
    json_load text = Ok data ->
    _migrate_config data = Ok data' ->
    too_deep data' = false ->
    model_validate (convert_keys data' []) = Raise e ->
    raised_by text e.

(** [load_config] on what is found at [path]. [open] is inside the [try],
    but the handler does not name [OSError]. *)
Definition load_config_io (path : string) (found : at_path)
  : list printed * result Config :=
  match found with
  | Nothing => ([], Ok Config_default)
  | NotOpenable => ([], Raise OSError)
  | Opens text =>
      match load_config_try_io text with
      | Ok cfg => ([], Ok cfg)
      | Raise e =>
          if caught e
          then ([WarningFailedToLoad path e; UsingDefaultConfiguration],
                Ok Config_default)
          else ([], Raise e)
      end
  end.
End LoaderIO.

(** ** Saving a configuration file ([loader.py], lines 10-12 and 46-62) *)

(** The regular files of the file system, by path, with their text.
    [mkdir(parents=True, exist_ok=True)] makes directories and leaves the
    files as they are. *)
Definition files : Type := stdpp.gmap.gmap string string.

(** [Path.home() / ".nanobot" / "config.json"], for the home directory
    [home]. *)
Definition get_config_path (home : string) : string :=
  home ++ "/.nanobot/config.json".

(** [config_path or get_config_path()]: a [Path] is never false. *)
Definition path_or_default (home : string) (config_path : option string)
  : string :=
  match config_path with
  | Some path => path
  | None => get_config_path home
  end.

(** What [json.dump(data, f, indent=2)] does: it writes the whole text, or
    it raises after it has written a part of it. *)
Inductive dumped : Type :=
| Written (text : string)
| Failed (written : string) (e : exn).

Section Saver.
(** [Config.model_dump] and [json.dump] are not part of the sources. *)
Variable Config : Type.
Variable model_dump : Config -> json.
Variable json_dump : json -> dumped.
Variable too_deep : json -> bool.
(** Whether [path.parent.mkdir(parents=True, exist_ok=True)] and
    [open(path, "w")] succeed at a path; each raises an [OSError] when it
    does not. *)
Variable mkdir_parent_ok : string -> bool.
Variable open_to_write_ok : string -> bool.

(** The result pairs the files after the call with what the call returns
    or raises. [open(path, "w")] empties the file before anything is
    written to it. *)
Definition save_config (home : string) (config : Config)
  (config_path : option string) (fs : files) : files * result unit :=
  let path := path_or_default home config_path in
  if negb (mkdir_parent_ok path) then (fs, Raise OSError)
  else
    let data := model_dump config in
    if too_deep data then (fs, Raise RecursionError)
    else
      let data := convert_to_camel data [] in
      if negb (open_to_write_ok path) then (fs, Raise OSError)
      else
        match json_dump data with
        | Written text => (stdpp.base.insert path text fs, Ok tt)
        | Failed written e => (stdpp.base.insert path written fs, Raise e)
        end.
End Saver.

(** A configuration that is its own dump, for a run of the two functions
    on concrete data. *)
Definition dumped_tools : list (string * json) :=
  [("restrict_to_workspace", JBool true);
   ("exec", JDict [("timeout", JInt 60)]);
   ("mcp_servers",
    JDict [("demo", JDict [("command", JStr "npx");
                           ("env", JDict mcp_env)])])].

Definition dumped_config : json := JDict [("tools", JDict dumped_tools)].

(** The words of a name from the middle of a word on: the rest of the
    current word satisfies [p] and the words after it are plain. *)
Definition rest_then_plain (p : string -> bool) (s : string) : bool :=
  match PyStr.split "_" s with
  | [] => false
  | w :: ws => p w && forallb plain_word ws
  end.

(** The same for the characters of snake case: the rest of the current
    word is made of lower-case letters and digits and the words after it
    are words of snake case. *)
Definition snake_chars (w : string) : bool :=
  forallb (fun c => PyStr.islower c || PyStr.isdigit c)
          (list_ascii_of_string w).

Definition rest_then_words (s : string) : bool :=
  match PyStr.split "_" s with
  | [] => false
  | w :: ws => snake_chars w && forallb snake_word ws
  end.

(** * The tests of the repository, evaluated *)

Example camel_to_snake_mcpServers :
  camel_to_snake "mcpServers" = "mcp_servers".
Proof. reflexivity. Qed.

Example snake_to_camel_restrict :
  snake_to_camel "restrict_to_workspace" = "restrictToWorkspace".
Proof. reflexivity. Qed.

Example snake_to_camel_digit_word :
  snake_to_camel "sha_256" = "sha256" /\ camel_to_snake "sha256" = "sha256".
Proof. split; reflexivity. Qed.

Example snake_to_camel_letter_after_digit :
  camel_to_snake (snake_to_camel "token_v2beta") = "token_v2_beta".
Proof. reflexivity. Qed.

Example test_convert_keys_preserves_mcp_env_var_names :
  convert_keys _build_mcp_env_data [] = mcp_env_data_snake.
Proof. reflexivity. Qed.

Example test_convert_to_camel_preserves_mcp_env_var_names :
  convert_to_camel mcp_env_data_snake [] = _build_mcp_env_data.
Proof. reflexivity. Qed.

Example test_convert_keys_still_converts_non_env_keys :
  convert_keys
    (JDict [("tools", JDict [("restrictToWorkspace", JBool true);
       ("mcpServers", JDict [("demo",
          JDict [("extraHeaders", JDict [("XCustom", JStr "v")])])])])]) []
  = JDict [("tools", JDict [("restrict_to_workspace", JBool true);
       ("mcp_servers", JDict [("demo",
          JDict [("extra_headers", JDict [("x_custom", JStr "v")])])])])].
Proof. reflexivity. Qed.

Example migrate_moves_old_field :
  _migrate_config
    (JDict [("tools", JDict [("exec", JDict [("timeout", JInt 60);
                                             ("restrictToWorkspace", JBool true)])])])
  = Ok (JDict [("tools", JDict [("exec", JDict [("timeout", JInt 60)]);
                                ("restrictToWorkspace", JBool true)])]).
Proof. reflexivity. Qed.

Example migrate_keeps_new_field :
  let data :=
    JDict [("tools", JDict [("restrictToWorkspace", JBool false);
                            ("exec", JDict [("restrictToWorkspace", JBool true)])])] in
  _migrate_config data = Ok data.
Proof. reflexivity. Qed.

Example migrate_tools_null :
  _migrate_config (JDict [("tools", JNull)]) = Raise AttributeError.
Proof. reflexivity. Qed.

Example test_validate_params_missing_required (rf : Q -> string) :
  validate_params rf SampleTool (JDict [("query", JStr "hi")])
  = ["missing required count"].
Proof. reflexivity. Qed.

Example test_validate_params_type_and_range (rf : Q -> string) :
  validate_params rf SampleTool (JDict [("query", JStr "hi"); ("count", JInt 0)])
  = ["count must be >= 1"]
  /\ validate_params rf SampleTool
       (JDict [("query", JStr "hi"); ("count", JStr "2")])
     = ["count should be integer"].
Proof. split; reflexivity. Qed.

Example test_validate_params_enum_and_min_length (rf : Q -> string) :
  validate_params rf SampleTool
    (JDict [("query", JStr "h"); ("count", JInt 2); ("mode", JStr "slow")])
  = ["query must be at least 2 chars"; "mode must be one of fast, full"].
Proof. reflexivity. Qed.

Example test_validate_params_ignores_unknown_fields (rf : Q -> string) :
  validate_params rf SampleTool
    (JDict [("query", JStr "hi"); ("count", JInt 2); ("extra", JStr "x")])
  = [].
Proof. reflexivity. Qed.

(** * Characters and key conversion *)

Module PyStrFacts.
Import PyStr.

Ltac by_cases_on_char c :=
  destruct c as [[] [] [] [] [] [] [] []]; vm_compute; congruence.

Lemma isupper_lower (c : ascii) : isupper (lower c) = false.
Proof. by_cases_on_char c. Qed.

Lemma lower_fixed (c : ascii) : isupper c = false -> lower c = c.
Proof. unfold lower. now intros ->. Qed.

Lemma islower_not_upper (c : ascii) : islower c = true -> isupper c = false.
Proof. by_cases_on_char c. Qed.

Lemma isdigit_not_upper (c : ascii) : isdigit c = true -> isupper c = false.
Proof. by_cases_on_char c. Qed.

Lemma isdigit_not_lower (c : ascii) : isdigit c = true -> islower c = false.
Proof. by_cases_on_char c. Qed.

Lemma isupper_upper (c : ascii) : islower c = true -> isupper (upper c) = true.
Proof. by_cases_on_char c. Qed.

Lemma lower_upper (c : ascii) : islower c = true -> lower (upper c) = c.
Proof. by_cases_on_char c. Qed.

Lemma upper_fixed (c : ascii) : islower c = false -> upper c = c.
Proof. unfold upper. now intros ->. Qed.

Lemma no_upper_cons (c : ascii) (s : string) :
  no_upper (String c s) = negb (isupper c) && no_upper s.
Proof. reflexivity. Qed.

End PyStrFacts.

Section CamelToSnake.
Import PyStr PyStrFacts.

Lemma camel_to_snake_from_no_upper (s : string) (i : nat) :
  no_upper (camel_to_snake_from i s) = true.
Proof.
  revert i. induction s as [|c s IH]; intro i; [reflexivity|].
  cbn [camel_to_snake_from].
  destruct (isupper c && (0 <? i)%nat);
    rewrite ?no_upper_cons, isupper_lower, IH; reflexivity.
Qed.

Lemma camel_to_snake_from_fixed (s : string) (i : nat) :
  no_upper s = true -> camel_to_snake_from i s = s.
Proof.
  revert i. induction s as [|c s IH]; intro i; [reflexivity|].
  rewrite no_upper_cons. intros [Hc Hs]%andb_true_iff.
  apply negb_true_iff in Hc. cbn [camel_to_snake_from].
  rewrite Hc, (lower_fixed _ Hc), (IH _ Hs). reflexivity.
Qed.


(** Past index 0 the loop does the same at every index. *)
Lemma camel_to_snake_from_succ (s : string) (i j : nat) :
  camel_to_snake_from (S i) s = camel_to_snake_from (S j) s.
Proof.
  revert i j. induction s as [|c s IH]; intros i j; [reflexivity|].
  cbn [camel_to_snake_from Nat.ltb Nat.leb]. now rewrite (IH (S i) (S j)).
Qed.

Lemma camel_to_snake_from_app (a b : string) (i : nat) :
  camel_to_snake_from i (a ++ b)
  = (camel_to_snake_from i a
     ++ camel_to_snake_from (i + String.length a) b)%string.
Proof.
  revert i. induction a as [|c a IH]; intro i.
  - cbn. now rewrite Nat.add_0_r.
  - change (String c a ++ b)%string with (String c (a ++ b)).
    cbn [camel_to_snake_from String.length]. rewrite IH.
    replace (S i + String.length a)%nat with (i + S (String.length a))%nat by lia.
    destruct (isupper c && (0 <? i)%nat); reflexivity.
Qed.

End CamelToSnake.

Section SnakeToCamel.
Import PyStr PyStrFacts.

(** [sep.join(s.split(sep))] is [s]: the words of a name with an underscore
    before each word but the first. *)
Lemma split_join (s : string) :
  match split "_" s with
  | [] => False
  | first :: components =>
      s = (first ++ join_empty (map (String "_") components))%string
  end.
Proof.
  induction s as [|c s IH]; [reflexivity|].
  cbn [split]. destruct (Ascii.eqb_spec c "_") as [->|_].
  - destruct (split "_" s) as [|w ws]; [contradiction|].
    rewrite IH at 1. reflexivity.
  - destruct (split "_" s) as [|w ws]; [contradiction|].
    rewrite IH at 1. reflexivity.
Qed.

Lemma all_digits_no_upper (s : string) :
  all_digits s = true -> no_upper s = true.
Proof.
  induction s as [|c s IH]; [reflexivity|].
  cbn [all_digits]. intros [Hc Hs]%andb_true_iff.
  now rewrite no_upper_cons, (isdigit_not_upper _ Hc), IH.
Qed.

Lemma letters_then_digits_no_upper (s : string) :
  letters_then_digits s = true -> no_upper s = true.
Proof.
  induction s as [|c s IH]; [reflexivity|].
  cbn [letters_then_digits]. rewrite no_upper_cons.
  intros [[Hc Hs]%andb_true_iff|[Hc Hs]%andb_true_iff]%orb_true_iff.
  - now rewrite (islower_not_upper _ Hc), IH.
  - now rewrite (isdigit_not_upper _ Hc), all_digits_no_upper.
Qed.

Lemma title_from_digits (s : string) (p : bool) :
  all_digits s = true -> title_from p s = s.
Proof.
  revert p. induction s as [|c s IH]; intro p; [reflexivity|].
  cbn [all_digits title_from]. intros [Hc Hs]%andb_true_iff.
  rewrite (IH _ Hs).
  rewrite (lower_fixed _ (isdigit_not_upper _ Hc)).
  rewrite (upper_fixed _ (isdigit_not_lower _ Hc)).
  now destruct p.
Qed.

Lemma title_from_letters_then_digits (s : string) :
  letters_then_digits s = true -> title_from true s = s.
Proof.
  induction s as [|c s IH]; [reflexivity|].
  cbn [letters_then_digits title_from].
  intros [[Hc Hs]%andb_true_iff|[Hc Hs]%andb_true_iff]%orb_true_iff.
  - rewrite (lower_fixed _ (islower_not_upper _ Hc)).
    unfold iscased. rewrite Hc, orb_true_r. now rewrite IH.
  - rewrite (lower_fixed _ (isdigit_not_upper _ Hc)).
    now rewrite title_from_digits.
Qed.

Lemma title_plain_word (c : ascii) (s : string) :
  plain_word (String c s) = true -> title (String c s) = String (upper c) s.
Proof.
  cbn [plain_word]. intros [Hc Hs]%andb_true_iff.
  unfold title. cbn [title_from]. unfold iscased.
  rewrite Hc, orb_true_r. now rewrite title_from_letters_then_digits.
Qed.

Lemma plain_word_no_upper (w : string) :
  plain_word w = true -> no_upper w = true.
Proof.
  destruct w as [|c s]; [discriminate|].
  cbn [plain_word]. intros [Hc Hs]%andb_true_iff.
  now rewrite no_upper_cons, (islower_not_upper _ Hc),
    letters_then_digits_no_upper.
Qed.

(** Past index 0, the title form of a word comes back as an underscore and
    the word. *)
Lemma camel_to_snake_from_title (w : string) (i : nat) :
  plain_word w = true ->
  camel_to_snake_from (S i) (title w) = String "_" w.
Proof.
  destruct w as [|c s]; [discriminate|]. intro Hw.
  rewrite (title_plain_word _ _ Hw).
  pose proof (plain_word_no_upper _ Hw) as Hup.
  rewrite no_upper_cons in Hup. apply andb_true_iff in Hup as [_ Hs].
  cbn [plain_word] in Hw. apply andb_true_iff in Hw as [Hc _].
  cbn [camel_to_snake_from Nat.ltb Nat.leb].
  rewrite (isupper_upper _ Hc), (lower_upper _ Hc).
  now rewrite (camel_to_snake_from_fixed _ _ Hs).
Qed.

Lemma camel_to_snake_from_titles (components : list string) (i : nat) :
  forallb plain_word components = true ->
  camel_to_snake_from (S i) (join_empty (map title components))
  = join_empty (map (String "_") components).
Proof.
  revert i. induction components as [|w ws IH]; intro i; [reflexivity|].
  cbn [forallb map join_empty fold_right].
  intros [Hw Hws]%andb_true_iff.
  rewrite camel_to_snake_from_app, (camel_to_snake_from_title _ _ Hw).
  cbn [Nat.add]. fold (join_empty (map title ws)).
  fold (join_empty (map (String "_") ws)). now rewrite (IH _ Hws).
Qed.

Lemma snake_word_no_upper (w : string) :
  snake_word w = true -> no_upper w = true.
Proof.
  destruct w as [|c s]; [discriminate|]. unfold snake_word, no_upper.
  rewrite !forallb_forall. intros Hw x Hx. specialize (Hw x Hx).
  apply orb_true_iff in Hw as [Hl|Hd].
  - now rewrite (islower_not_upper _ Hl).
  - now rewrite (isdigit_not_upper _ Hd).
Qed.

(** The law of the keys: a snake-case name whose later words are plain
    survives the two conversions. *)
Lemma camel_to_snake_snake_to_camel (name : string) :
  is_round_trip_snake_case name = true ->
  camel_to_snake (snake_to_camel name) = name.
Proof.
  unfold is_round_trip_snake_case, is_snake_case, snake_to_camel,
    camel_to_snake.
  intros [Hsnake Hrest]%andb_true_iff.
  destruct name as [|c0 s0]; [discriminate|].
  apply andb_true_iff in Hsnake as [_ Hwords].
  pose proof (split_join (String c0 s0)) as Hjoin.
  destruct (split "_" (String c0 s0)) as [|first components];
    [contradiction|].
  cbn [forallb tl] in Hwords, Hrest.
  apply andb_true_iff in Hwords as [Hfirst _].
  rewrite camel_to_snake_from_app.
  rewrite (camel_to_snake_from_fixed _ _ (snake_word_no_upper _ Hfirst)).
  destruct first as [|c s]; [discriminate|].
  cbn [Nat.add String.length].
  now rewrite (camel_to_snake_from_titles _ _ Hrest).
Qed.

Lemma snake_to_camel_inj (a b : string) :
  is_round_trip_snake_case a = true -> is_round_trip_snake_case b = true ->
  snake_to_camel a = snake_to_camel b -> a = b.
Proof.
  intros Ha Hb Heq.
  rewrite <- (camel_to_snake_snake_to_camel a Ha).
  rewrite <- (camel_to_snake_snake_to_camel b Hb).
  now rewrite Heq.
Qed.

End SnakeToCamel.

(** * Dictionaries *)

Section DictFacts.
Context {A : Type}.
Implicit Types (d : list (string * A)) (k : string) (v : A).

Lemma mem_In d k : Dict.mem d k = true <-> In k (Dict.keys d).
Proof.
  induction d as [|[k' v'] d IH]; cbn; [intuition discriminate|].
  rewrite orb_true_iff, IH, String.eqb_eq. reflexivity.
Qed.

Lemma mem_false_not_In d k : Dict.mem d k = false <-> ~ In k (Dict.keys d).
Proof.
  rewrite <- mem_In. destruct (Dict.mem d k); intuition congruence.
Qed.

Lemma mem_get d k : Dict.mem d k = true <-> exists v, Dict.get d k = Some v.
Proof.
  induction d as [|[k' v'] d IH]; cbn.
  - split; [discriminate|intros [? [=]]].
  - destruct (String.eqb k' k); cbn; [|exact IH].
    split; eauto.
Qed.

Lemma get_None_mem d k : Dict.get d k = None <-> Dict.mem d k = false.
Proof.
  pose proof (mem_get d k) as H.
  destruct (Dict.get d k) eqn:Hg, (Dict.mem d k) eqn:Hm; split; try easy.
  - intros _. destruct H as [_ H]. discriminate H. eauto.
  - intros _. destruct H as [[v Hv] _]; [reflexivity|discriminate].
Qed.

Lemma set_fresh d k v : ~ In k (Dict.keys d) -> Dict.set d k v = d ++ [(k, v)].
Proof.
  induction d as [|[k' v'] d IH]; cbn; [reflexivity|].
  intros Hnot. destruct (String.eqb_spec k' k) as [->|_].
  - exfalso. auto.
  - rewrite IH; auto.
Qed.

Lemma keys_set d k v :
  Dict.keys (Dict.set d k v)
  = if Dict.mem d k then Dict.keys d else Dict.keys d ++ [k].
Proof.
  unfold Dict.keys.
  induction d as [|[k' v'] d IH]; cbn; [reflexivity|].
  destruct (String.eqb_spec k' k) as [->|_]; cbn; [reflexivity|].
  rewrite IH. now destruct (Dict.mem d k).
Qed.

Lemma NoDup_keys_set d k v :
  NoDup (Dict.keys d) -> NoDup (Dict.keys (Dict.set d k v)).
Proof.
  intros Hd. rewrite keys_set. destruct (Dict.mem d k) eqn:Hm; [exact Hd|].
  apply mem_false_not_In in Hm.
  apply NoDup_app; [exact Hd|repeat constructor; intros []|].
  intros x Hx [<-|[]]. auto.
Qed.

(** Assignment keeps a property of the entries that the new entry has. *)
Lemma Forall_set (Q : string * A -> Prop) d k v :
  Forall Q d -> Q (k, v) -> Forall Q (Dict.set d k v).
Proof.
  intros Hd Hkv. induction Hd as [|[k' v'] d Hx Hd IH]; cbn.
  - now constructor.
  - destruct (String.eqb_spec k' k) as [->|_]; constructor; auto.
Qed.

Lemma get_set_same d k v : Dict.get (Dict.set d k v) k = Some v.
Proof.
  induction d as [|[k' v'] d IH]; cbn.
  - now rewrite String.eqb_refl.
  - destruct (String.eqb k' k) eqn:E; cbn; now rewrite E.
Qed.

Lemma get_set_other d k k' v :
  k <> k' -> Dict.get (Dict.set d k v) k' = Dict.get d k'.
Proof.
  intros Hne. induction d as [|[k0 v0] d IH]; cbn.
  - now apply String.eqb_neq in Hne as ->.
  - destruct (String.eqb_spec k0 k) as [->|_]; cbn.
    + now apply String.eqb_neq in Hne as ->.
    + now rewrite IH.
Qed.

Lemma get_remove_same d k : Dict.get (Dict.remove d k) k = None.
Proof.
  induction d as [|[k' v'] d IH]; cbn; [reflexivity|].
  destruct (String.eqb k' k) eqn:E; cbn; [exact IH|now rewrite E].
Qed.

Lemma get_remove_other d k k' :
  k <> k' -> Dict.get (Dict.remove d k) k' = Dict.get d k'.
Proof.
  intros Hne. induction d as [|[k0 v0] d IH]; cbn; [reflexivity|].
  destruct (String.eqb_spec k0 k) as [->|_]; cbn.
  - apply String.eqb_neq in Hne as ->. exact IH.
  - now rewrite IH.
Qed.

Lemma distinct_NoDup (ks : list string) : distinct ks = true <-> NoDup ks.
Proof.
  induction ks as [|k ks IH]; cbn.
  - split; [constructor|reflexivity].
  - rewrite andb_true_iff, negb_true_iff, IH. split.
    + intros [Hk Hks]. constructor; [|exact Hks].
      intros Hin. apply not_true_iff_false in Hk. apply Hk.
      apply existsb_exists. exists k. split; [exact Hin|apply String.eqb_refl].
    + intros H. inversion H as [|? ? Hk Hks]; subst. split; [|exact Hks].
      apply not_true_iff_false. intros (x & Hx & ->%String.eqb_eq)%existsb_exists.
      auto.
Qed.

End DictFacts.

(** * The conversions as folds *)

Section Unfolding.

Lemma convert_keys_dict (items : list (string * json)) (path : list string) :
  convert_keys (JDict items) path
  = JDict (put_all (snake_key path)
             (fun k v => convert_keys v (path ++ [snake_key path k]))
             items []).
Proof.
  cbn [convert_keys]. f_equal. unfold put_all, snake_key.
  generalize (@nil (string * json)) as out.
  induction items as [|[k v] items IH]; intro out; [reflexivity|].
  cbn [fold_left fst snd].
  destruct (_is_mcp_env_map_path path); apply IH.
Qed.

Lemma convert_to_camel_dict (items : list (string * json))
  (path : list string) :
  convert_to_camel (JDict items) path
  = JDict (put_all (camel_key path)
             (fun k v => convert_to_camel v (path ++ [k]))
             items []).
Proof.
  cbn [convert_to_camel]. f_equal. unfold put_all, camel_key.
  generalize (@nil (string * json)) as out.
  induction items as [|[k v] items IH]; intro out; [reflexivity|].
  cbn [fold_left fst snd].
  destruct (_is_mcp_env_map_path path); apply IH.
Qed.

Lemma convert_every_key_dict (f : string -> string)
  (items : list (string * json)) :
  convert_every_key f (JDict items)
  = JDict (put_all f (fun _ v => convert_every_key f v) items []).
Proof.
  cbn [convert_every_key]. f_equal. unfold put_all.
  generalize (@nil (string * json)) as out.
  induction items as [|[k v] items IH]; intro out; [reflexivity|].
  cbn [fold_left fst snd]. apply IH.
Qed.

Lemma wf_json_list (l : list json) :
  wf_json (JList l) = forallb wf_json l.
Proof.
  cbn [wf_json]. induction l as [|x l IH]; [reflexivity|].
  cbn [forallb]. now rewrite IH.
Qed.

Lemma wf_json_dict (d : list (string * json)) :
  wf_json (JDict d)
  = distinct (Dict.keys d) && forallb (fun kv => wf_json (snd kv)) d.
Proof.
  cbn [wf_json]. f_equal. induction d as [|[k v] d IH]; [reflexivity|].
  cbn [forallb snd]. now rewrite IH.
Qed.

Lemma all_keys_list (p : string -> bool) (l : list json) :
  all_keys p (JList l) = forallb (all_keys p) l.
Proof.
  cbn [all_keys]. induction l as [|x l IH]; [reflexivity|].
  cbn [forallb]. now rewrite IH.
Qed.

Lemma all_keys_dict (p : string -> bool) (d : list (string * json)) :
  all_keys p (JDict d)
  = forallb (fun kv => p (fst kv) && all_keys p (snd kv)) d.
Proof.
  cbn [all_keys]. induction d as [|[k v] d IH]; [reflexivity|].
  cbn [forallb fst snd]. now rewrite IH.
Qed.

Lemma mapping_free_list (l : list json) :
  mapping_free (JList l) = forallb mapping_free l.
Proof.
  cbn [mapping_free]. induction l as [|x l IH]; [reflexivity|].
  cbn [forallb]. now rewrite IH.
Qed.

End Unfolding.

Section PutAll.
Variables (key : string -> string) (value : string -> json -> json).

Lemma put_all_cons (kv : string * json) (items out : list (string * json)) :
  put_all key value (kv :: items) out
  = put_all key value items
      (Dict.set out (key (fst kv)) (value (fst kv) (snd kv))).
Proof. reflexivity. Qed.

(** When the keys written are new and pairwise distinct, the loop appends
    one entry per item, in order. *)
Lemma put_all_fresh (items out : list (string * json)) :
  NoDup (Dict.keys out ++ map key (Dict.keys items)) ->
  put_all key value items out
  = out ++ map (fun kv => (key (fst kv), value (fst kv) (snd kv))) items.
Proof.
  revert out. induction items as [|[k v] items IH]; intros out Hnd.
  - cbn. now rewrite app_nil_r.
  - rewrite put_all_cons. cbn [fst snd map].
    cbn [Dict.keys map fst] in Hnd. fold (Dict.keys items) in Hnd.
    assert (Hk : ~ In (key k) (Dict.keys out)).
    { apply NoDup_remove_2 in Hnd. intros Hin. apply Hnd, in_or_app. auto. }
    rewrite (set_fresh _ _ _ Hk), IH.
    + now rewrite <- app_assoc.
    + unfold Dict.keys at 1. rewrite map_app. cbn [map fst].
      rewrite <- app_assoc. exact Hnd.
Qed.

(** What the loop keeps true of its output. *)
Lemma put_all_invariant (Q : string * json -> Prop)
  (items out : list (string * json)) :
  NoDup (Dict.keys out) -> Forall Q out ->
  Forall (fun kv => Q (key (fst kv), value (fst kv) (snd kv))) items ->
  NoDup (Dict.keys (put_all key value items out))
  /\ Forall Q (put_all key value items out).
Proof.
  revert out. induction items as [|[k v] items IH]; intros out Hnd Hout Hitems.
  - now split.
  - rewrite put_all_cons. inversion Hitems as [|? ? Hkv Hrest]; subst.
    apply IH; [now apply NoDup_keys_set|now apply Forall_set|exact Hrest].
Qed.

End PutAll.

(** * Idempotence of the conversion to snake case *)

Section Idempotence.




End Idempotence.

(** * [camel_to_snake] on Unicode strings *)

Section UnicodeFacts.
Variable isupper : N -> bool.
Variable lower : N -> Unicode.str.








Lemma isascii_camel_to_snake_from (s : string) (i : nat) :
  PyStr.isascii s = true -> PyStr.isascii (camel_to_snake_from i s) = true.
Proof.
  revert i. induction s as [|c s IH]; intro i; [reflexivity|].
  unfold PyStr.isascii. cbn [list_ascii_of_string forallb].
  intros [Hc Hs]%andb_true_iff.
  assert (Hl : (PyStr.code (PyStr.lower c) <? 128)%N = true).
  { apply N.ltb_lt in Hc. apply N.ltb_lt. unfold PyStr.lower, PyStr.isupper.
    destruct (N.leb_spec 65 (PyStr.code c)),
             (N.leb_spec (PyStr.code c) 90); cbn [andb]; try lia.
    unfold PyStr.code at 1. rewrite N_ascii_embedding; lia. }
  cbn [camel_to_snake_from].
  destruct (PyStr.isupper c && (0 <? i)%nat);
    cbn [list_ascii_of_string forallb]; rewrite Hl;
    apply (IH (S i) Hs).
Qed.

(** The loop never makes a string shorter when [lower] never returns the
    empty string. *)
Lemma unicode_camel_to_snake_from_length (s : Unicode.str) (i : nat) :
  (forall c, lower c <> []) ->
  (length s <= length (Unicode.camel_to_snake_from isupper lower i s))%nat.
Proof.
  intros Hlower. revert i. induction s as [|c s IH]; intro i; [apply le_n|].
  cbn [Unicode.camel_to_snake_from]. specialize (IH (S i)).
  specialize (Hlower c).
  destruct (isupper c && (0 <? i)%nat); cbn [length];
    rewrite length_app; destruct (lower c); cbn [length]; try easy; lia.
Qed.

(** The strings that the loop, started at index [i], returns as they
    are. *)
Lemma unicode_camel_to_snake_from_fixed_iff (s : Unicode.str) (i : nat) :
  (forall c, lower c <> []) ->
  Unicode.camel_to_snake_from isupper lower i s = s
  <-> (forall c, In c s -> lower c = [c])
      /\ (forall c, In c (if (0 <? i)%nat then s else tl s) ->
                    isupper c = false).
Proof.
  intros Hlower. revert i. induction s as [|c s IH]; intro i.
  - split; [|reflexivity]. intros _. split; [intros ? []|].
    destruct (0 <? i)%nat; intros ? [].
  - specialize (IH (S i)). cbn [Unicode.camel_to_snake_from]. split.
    + intros Heq.
      pose proof (unicode_camel_to_snake_from_length s (S i) Hlower) as Hlen.
      pose proof (Hlower c) as Hne.
      pose proof (f_equal (@length N) Heq) as Hl.
      destruct (isupper c && (0 <? i)%nat) eqn:Hu.
      * cbn [length] in Hl. rewrite length_app in Hl.
        destruct (lower c); [easy|]. cbn [length] in Hl. lia.
      * rewrite length_app in Hl. cbn [length] in Hl.
        destruct (lower c) as [|c' [|c'' l]] eqn:Hlc;
          [easy| |cbn [length] in Hl; lia].
        cbn [app] in Heq. injection Heq as -> Hs.
        apply IH in Hs as [Hfix Hup]. cbn [Nat.ltb Nat.leb] in Hup.
        split.
        -- intros x [<-|Hin]; [exact Hlc|now apply Hfix].
        -- destruct (0 <? i)%nat; cbn [tl]; [|exact Hup].
           rewrite andb_true_r in Hu. intros x [<-|Hin]; [exact Hu|auto].
    + intros [Hfix Hup].
      assert (Hu : isupper c && (0 <? i)%nat = false).
      { destruct (0 <? i)%nat; [|apply andb_false_r].
        rewrite andb_true_r. apply Hup. now left. }
      rewrite Hu, (Hfix c) by now left. cbn [app]. f_equal.
      apply IH. cbn [Nat.ltb Nat.leb]. split.
      * intros x Hin. apply Hfix. now right.
      * intros x Hin. apply Hup. destruct (0 <? i)%nat; [now right|exact Hin].
Qed.

End UnicodeFacts.




(** * The round trip through camel case *)

Section RoundTrip.

Lemma NoDup_map_left_inverse {A B : Type} (f : A -> B) (g : B -> A)
  (l : list A) :
  NoDup l -> (forall x, In x l -> g (f x) = x) -> NoDup (map f l).
Proof.
  intros Hnd. induction Hnd as [|x l Hx Hnd IH]; intros Hinv; cbn.
  - constructor.
  - constructor.
    + intros (y & Hy & Hin)%in_map_iff. apply Hx.
      rewrite <- (Hinv x) by now left. rewrite <- Hy.
      rewrite Hinv by now right. exact Hin.
    + apply IH. intros y Hy. apply Hinv. now right.
Qed.

Lemma snake_key_camel_key (path : list string) (k : string) :
  is_round_trip_snake_case k = true -> snake_key path (camel_key path k) = k.
Proof.
  unfold snake_key, camel_key. destruct (_is_mcp_env_map_path path);
    [reflexivity|apply camel_to_snake_snake_to_camel].
Qed.

(** Two loops in a row, the second undoing the first on every entry. *)
Lemma put_all_inverse (key1 key2 : string -> string)
  (value1 value2 : string -> json -> json) (d : list (string * json)) :
  NoDup (Dict.keys d) ->
  Forall (fun kv => key2 (key1 (fst kv)) = fst kv
                    /\ value2 (key1 (fst kv)) (value1 (fst kv) (snd kv))
                       = snd kv) d ->
  put_all key2 value2 (put_all key1 value1 d []) [] = d.
Proof.
  intros Hnd Hinv.
  assert (Hkeys : forall k, In k (Dict.keys d) -> key2 (key1 k) = k).
  { intros k ([k' v] & <- & Hin)%in_map_iff.
    rewrite Forall_forall in Hinv. now destruct (Hinv _ Hin). }
  rewrite (put_all_fresh key1)
    by (cbn [app Dict.keys map];
        now apply NoDup_map_left_inverse with (g := key2)).
  cbn [app]. rewrite put_all_fresh.
  - cbn [app]. rewrite map_map. cbn [fst snd].
    rewrite <- (map_id d) at 2. apply map_ext_Forall.
    revert Hinv. apply Forall_impl.
    intros [k v] [Hk Hv]; cbn [fst snd] in *. now rewrite Hk, Hv.
  - cbn [app].
    replace (map key2 (Dict.keys (map _ d))) with (Dict.keys d); [exact Hnd|].
    unfold Dict.keys. rewrite !map_map. apply map_ext_in.
    intros [k v] Hin. cbn [fst]. symmetry. apply Hkeys.
    apply in_map_iff. now exists (k, v).
Qed.

Lemma convert_round_trip_at (x : json) :
  forall path,
    wf_json x = true -> all_keys is_round_trip_snake_case x = true ->
    convert_keys (convert_to_camel x path) path = x.
Proof.
  induction x as [| | | | |l IH|d IH] using json_nested_ind;
    intros path Hwf Hkeys; try reflexivity.
  - rewrite wf_json_list in Hwf. rewrite all_keys_list in Hkeys.
    rewrite forallb_forall in Hwf, Hkeys. rewrite Forall_forall in IH.
    cbn [convert_to_camel convert_keys]. f_equal. rewrite map_map.
    rewrite <- (map_id l) at 2. apply map_ext_in. auto.
  - rewrite wf_json_dict in Hwf. apply andb_true_iff in Hwf as [Hnd Hwf].
    apply distinct_NoDup in Hnd. rewrite all_keys_dict in Hkeys.
    rewrite forallb_forall in Hwf, Hkeys. rewrite Forall_forall in IH.
    rewrite convert_to_camel_dict, convert_keys_dict. f_equal.
    apply put_all_inverse; [exact Hnd|].
    apply Forall_forall. intros [k v] Hin; cbn [fst snd].
    specialize (Hkeys _ Hin). cbn [fst snd] in Hkeys.
    apply andb_true_iff in Hkeys as [Hk Hv].
    rewrite (snake_key_camel_key _ _ Hk). split; [reflexivity|].
    apply (IH _ Hin); [exact (Hwf _ Hin)|exact Hv].
Qed.

End RoundTrip.

(** C1, as stated, fails: a snake-case key with a word of digits loses its
    underscore on the way, and one with a letter after a digit gains an
    underscore. *)
Lemma convert_round_trip_digit_word :
  let x := JDict [("sha_256", JStr "0f")] in
  let y := JDict [("token_v2beta", JStr "t")] in
  wf_json x = true
  /\ all_keys is_snake_case x = true
  /\ no_env_submap x = true
  /\ convert_keys (convert_to_camel x []) [] = JDict [("sha256", JStr "0f")]
  /\ convert_keys (convert_to_camel x []) [] <> x
  /\ wf_json y = true
  /\ all_keys is_snake_case y = true
  /\ no_env_submap y = true
  /\ convert_keys (convert_to_camel y []) []
     = JDict [("token_v2_beta", JStr "t")].
Proof. cbv zeta. repeat split; try reflexivity. discriminate. Qed.

(** * The exempted [env] dictionary *)

Section EnvMap.

Lemma env_path_length (path : list string) :
  _is_mcp_env_map_path path = true -> length path = 4%nat.
Proof.
  destruct path as [|? [|? [|? [|? [|? ?]]]]]; cbn; congruence.
Qed.

Lemma long_path_not_env (path : list string) :
  (4 < length path)%nat -> _is_mcp_env_map_path path = false.
Proof.
  destruct path as [|? [|? [|? [|? [|? ?]]]]]; cbn; intros; try lia; reflexivity.
Qed.

Lemma put_all_ext (key1 key2 : string -> string)
  (value1 value2 : string -> json -> json) (items : list (string * json)) :
  Forall (fun kv => key1 (fst kv) = key2 (fst kv)
                    /\ value1 (fst kv) (snd kv) = value2 (fst kv) (snd kv))
         items ->
  forall out, put_all key1 value1 items out = put_all key2 value2 items out.
Proof.
  induction 1 as [|[k v] items [Hk Hv] _ IH]; intro out; [reflexivity|].
  rewrite !put_all_cons. cbn [fst snd] in *. now rewrite Hk, Hv, IH.
Qed.

(** Below the exempted position nothing is exempt any more. *)
Lemma convert_keys_deep (x : json) :
  forall path, (4 < length path)%nat ->
    convert_keys x path = convert_every_key camel_to_snake x.
Proof.
  induction x as [| | | | |l IH|d IH] using json_nested_ind;
    intros path Hlen; try reflexivity.
  - cbn [convert_keys convert_every_key]. f_equal.
    apply map_ext_Forall. revert IH. apply Forall_impl. auto.
  - rewrite convert_keys_dict, convert_every_key_dict. f_equal.
    apply put_all_ext. revert IH. apply Forall_impl.
    intros [k v] Hv; cbn [fst snd] in *. unfold snake_key.
    rewrite (long_path_not_env _ Hlen). split; [reflexivity|].
    apply Hv. rewrite length_app. lia.
Qed.

Lemma convert_to_camel_deep (x : json) :
  forall path, (4 < length path)%nat ->
    convert_to_camel x path = convert_every_key snake_to_camel x.
Proof.
  induction x as [| | | | |l IH|d IH] using json_nested_ind;
    intros path Hlen; try reflexivity.
  - cbn [convert_to_camel convert_every_key]. f_equal.
    apply map_ext_Forall. revert IH. apply Forall_impl. auto.
  - rewrite convert_to_camel_dict, convert_every_key_dict. f_equal.
    apply put_all_ext. revert IH. apply Forall_impl.
    intros [k v] Hv; cbn [fst snd] in *. unfold camel_key.
    rewrite (long_path_not_env _ Hlen). split; [reflexivity|].
    apply Hv. rewrite length_app. lia.
Qed.

(** At the exempted position the keys stay and each value is converted
    without exemption. *)
Lemma convert_keys_at_env (path : list string) (env : list (string * json)) :
  _is_mcp_env_map_path path = true -> distinct (Dict.keys env) = true ->
  convert_keys (JDict env) path
  = JDict (map (fun kv => (fst kv, convert_every_key camel_to_snake (snd kv)))
               env).
Proof.
  intros Henv Hnd%distinct_NoDup. rewrite convert_keys_dict. f_equal.
  unfold snake_key. rewrite Henv. rewrite put_all_fresh.
  - cbn [app]. apply map_ext. intros [k v]; cbn [fst snd]. f_equal.
    apply convert_keys_deep. rewrite length_app, (env_path_length _ Henv).
    cbn. lia.
  - cbn [app]. now rewrite map_id.
Qed.

Lemma convert_to_camel_at_env (path : list string)
  (env : list (string * json)) :
  _is_mcp_env_map_path path = true -> distinct (Dict.keys env) = true ->
  convert_to_camel (JDict env) path
  = JDict (map (fun kv => (fst kv, convert_every_key snake_to_camel (snd kv)))
               env).
Proof.
  intros Henv Hnd%distinct_NoDup. rewrite convert_to_camel_dict. f_equal.
  unfold camel_key. rewrite Henv. rewrite put_all_fresh.
  - cbn [app]. apply map_ext. intros [k v]; cbn [fst snd]. f_equal.
    apply convert_to_camel_deep. rewrite length_app, (env_path_length _ Henv).
    cbn. lia.
  - cbn [app]. now rewrite map_id.
Qed.

Lemma convert_every_key_mapping_free (f : string -> string) (x : json) :
  mapping_free x = true -> convert_every_key f x = x.
Proof.
  induction x as [| | | | |l IH|d IH] using json_nested_ind;
    try reflexivity; [|discriminate].
  rewrite mapping_free_list, forallb_forall. intros Hfree.
  cbn [convert_every_key]. f_equal. rewrite <- (map_id l) at 2.
  apply map_ext_in. rewrite Forall_forall in IH. auto.
Qed.

End EnvMap.

(** C2, as stated, fails: a value of the [env] dictionary that is itself a
    dictionary has its keys converted, in either direction. *)
Lemma env_map_nested_value_converted :
  _is_mcp_env_map_path demo_env_path = true
  /\ wf_json (JDict env_with_nested_camel) = true
  /\ convert_keys (JDict env_with_nested_camel) demo_env_path
     <> JDict env_with_nested_camel
  /\ convert_to_camel (JDict env_with_nested_snake) demo_env_path
     <> JDict env_with_nested_snake.
Proof. repeat split; try reflexivity; discriminate. Qed.

(** C9. The exemption covers the keys of the [env] dictionary only: each of
    its values goes through the conversion with no exemption left, so the
    keys of every dictionary nested in a value are converted. *)
Theorem env_exemption_is_shallow (path : list string)
  (env : list (string * json)) :
  _is_mcp_env_map_path path = true ->
  distinct (Dict.keys env) = true ->
  convert_keys (JDict env) path
  = JDict (map (fun kv => (fst kv, convert_every_key camel_to_snake (snd kv)))
               env)
  /\ convert_to_camel (JDict env) path
     = JDict (map (fun kv =>
                     (fst kv, convert_every_key snake_to_camel (snd kv)))
                  env).
Proof.
  intros Henv Hnd. split.
  - now apply convert_keys_at_env.
  - now apply convert_to_camel_at_env.
Qed.

Lemma env_exemption_is_shallow_witness :
  _is_mcp_env_map_path demo_env_path = true
  /\ distinct (Dict.keys env_with_nested_camel) = true
  /\ convert_keys (JDict env_with_nested_camel) demo_env_path
     = JDict env_with_nested_snake
  /\ convert_to_camel (JDict env_with_nested_snake) demo_env_path
     = JDict env_with_nested_camel.
Proof.
  split; [reflexivity|]. split; [reflexivity|]. split.
  - rewrite (proj1 (env_exemption_is_shallow demo_env_path
                      env_with_nested_camel eq_refl eq_refl)).
    reflexivity.
  - reflexivity.
Defined.

(** * Migration *)

Section Migration.

(** The run of [_migrate_config] that moves the field. *)
Lemma migrate_config_moves (d t e : list (string * json)) (v : json) :
  Dict.get d "tools" = Some (JDict t) ->
  Dict.get t "exec" = Some (JDict e) ->
  Dict.get e restrictToWorkspace = Some v ->
  Dict.get t restrictToWorkspace = None ->
  _migrate_config (JDict d)
  = Ok (JDict (Dict.set d "tools"
                 (JDict (Dict.set
                           (Dict.set t "exec"
                              (JDict (Dict.remove e restrictToWorkspace)))
                           restrictToWorkspace v)))).
Proof.
  intros Ht He Hold Hnew. unfold _migrate_config. cbn. rewrite Ht. cbn.
  rewrite He. cbn.
  assert (Hm : Dict.mem e restrictToWorkspace = true)
    by (apply mem_get; eauto).
  rewrite Hm. cbn. apply get_None_mem in Hnew. rewrite Hnew. cbn.
  now rewrite Hold.
Qed.

(** Every run that returns something else than its argument is that one. *)
Lemma migrate_config_changes (d : list (string * json)) (data' : json) :
  _migrate_config (JDict d) = Ok data' -> data' <> JDict d ->
  exists t e v,
    Dict.get d "tools" = Some (JDict t)
    /\ Dict.get t "exec" = Some (JDict e)
    /\ Dict.get e restrictToWorkspace = Some v
    /\ Dict.get t restrictToWorkspace = None.
Proof.
  unfold _migrate_config. cbn. intros Hrun Hne.
  destruct (Dict.get d "tools") as [tools|] eqn:Ht; cbn in Hrun;
    [|congruence].
  destruct tools as [| | | | | |t]; cbn in Hrun; try discriminate.
  destruct (Dict.get t "exec") as [exec_cfg|] eqn:He; cbn in Hrun;
    [|congruence].
  destruct exec_cfg as [| | | |s|l|e]; cbn in Hrun; try discriminate.
  - destruct (PyStr.contains restrictToWorkspace s); cbn in Hrun;
      [|congruence].
    destruct (Dict.mem t restrictToWorkspace); cbn in Hrun; congruence.
  - destruct (existsb _ l); cbn in Hrun; [|congruence].
    destruct (Dict.mem t restrictToWorkspace); cbn in Hrun; congruence.
  - destruct (Dict.mem e restrictToWorkspace) eqn:Hold; cbn in Hrun;
      [|congruence].
    destruct (Dict.mem t restrictToWorkspace) eqn:Hnew; cbn in Hrun;
      [congruence|].
    apply mem_get in Hold as [v Hv]. apply get_None_mem in Hnew.
    exists t, e, v. auto.
Qed.

(** With the new field set, and [exec] a dictionary or absent, the
    document is returned as it is. *)
Lemma migrate_config_keeps (d t : list (string * json)) (w : json) :
  Dict.get d "tools" = Some (JDict t) ->
  Dict.get t restrictToWorkspace = Some w ->
  (Dict.get t "exec" = None \/ exists e, Dict.get t "exec" = Some (JDict e)) ->
  _migrate_config (JDict d) = Ok (JDict d).
Proof.
  intros Ht Hnew Hexec. unfold _migrate_config. cbn. rewrite Ht. cbn.
  assert (Hm : Dict.mem t restrictToWorkspace = true)
    by (apply mem_get; eauto).
  destruct Hexec as [->|[e ->]]; cbn; [reflexivity|].
  destruct (Dict.mem e restrictToWorkspace); cbn; [|reflexivity].
  now rewrite Hm.
Qed.

End Migration.

(** C7. On a configuration mapping [_migrate_config] moves the value of
    [tools.exec.restrictToWorkspace] to [tools.restrictToWorkspace], taking
    it away from [exec] and leaving the rest of the document as it is,
    exactly when the old field is there and the new one is not; when both
    are there the document is returned unchanged. *)
Theorem migrate_config_relocates (d : list (string * json)) :
  let old := lookup_path (JDict d) ["tools"; "exec"; restrictToWorkspace] in
  let new := lookup_path (JDict d) ["tools"; restrictToWorkspace] in
  (forall v, old = Some v -> new = None ->
     exists data',
       _migrate_config (JDict d) = Ok data'
       /\ lookup_path data' ["tools"; restrictToWorkspace] = Some v
       /\ lookup_path data' ["tools"; "exec"; restrictToWorkspace] = None
       /\ (forall k, k <> "tools" ->
             lookup_path data' [k] = lookup_path (JDict d) [k])
       /\ (forall k, k <> "exec" -> k <> restrictToWorkspace ->
             lookup_path data' ["tools"; k]
             = lookup_path (JDict d) ["tools"; k])
       /\ (forall k, k <> restrictToWorkspace ->
             lookup_path data' ["tools"; "exec"; k]
             = lookup_path (JDict d) ["tools"; "exec"; k]))
  /\ (forall data',
        _migrate_config (JDict d) = Ok data' -> data' <> JDict d ->
        exists v, old = Some v /\ new = None)
  /\ (forall v w, old = Some v -> new = Some w ->
        _migrate_config (JDict d) = Ok (JDict d)).
Proof.
  cbv zeta. cbn [lookup_path dict_items]. split; [|split].
  - intros v Hold Hnew.
    destruct (Dict.get d "tools") as [tools|] eqn:Ht; [|discriminate].
    destruct (Dict.get (dict_items tools) "exec") as [exec_cfg|] eqn:He;
      [|discriminate].
    destruct (Dict.get (dict_items exec_cfg) restrictToWorkspace)
      as [v'|] eqn:Hv; [|discriminate].
    injection Hold as ->.
    destruct exec_cfg as [| | | | | |e]; try discriminate.
    destruct tools as [| | | | | |t]; try discriminate.
    cbn [dict_items] in *.
    assert (Hnew' : Dict.get t restrictToWorkspace = None)
      by (destruct (Dict.get t restrictToWorkspace); congruence).
    eexists. split; [exact (migrate_config_moves _ _ _ _ Ht He Hv Hnew')|].
    cbn [lookup_path dict_items]. rewrite !get_set_same. cbn [dict_items].
    rewrite !get_set_same.
    rewrite (get_set_other _ restrictToWorkspace "exec") by discriminate.
    rewrite get_set_same. cbn [dict_items]. rewrite get_remove_same.
    repeat split.
    + intros k Hk. now rewrite get_set_other by congruence.
    + intros k Hexec Hk. rewrite !get_set_other by congruence.
      reflexivity.
    + intros k Hk. now rewrite get_remove_other by congruence.
  - intros data' Hrun Hne.
    destruct (migrate_config_changes _ _ Hrun Hne)
      as (t & e & v & Ht & He & Hv & Hnew).
    exists v. rewrite Ht. cbn [dict_items]. rewrite He, Hnew.
    cbn [dict_items]. now rewrite Hv.
  - intros v w Hold Hnew.
    destruct (Dict.get d "tools") as [tools|] eqn:Ht; [|discriminate].
    destruct (Dict.get (dict_items tools) "exec") as [exec_cfg|] eqn:He;
      [|discriminate].
    destruct exec_cfg as [| | | | | |e]; try discriminate.
    destruct tools as [| | | | | |t]; try discriminate.
    cbn [dict_items] in *.
    destruct (Dict.get t restrictToWorkspace) as [w'|] eqn:Hw;
      [|discriminate].
    apply (migrate_config_keeps _ _ _ Ht Hw). right. eauto.
Qed.

Lemma migrate_config_relocates_witness :
  lookup_path (JDict old_config) ["tools"; "exec"; restrictToWorkspace]
  = Some (JBool true)
  /\ lookup_path (JDict old_config) ["tools"; restrictToWorkspace] = None
  /\ (exists data',
        _migrate_config (JDict old_config) = Ok data'
        /\ lookup_path data' ["tools"; restrictToWorkspace]
           = Some (JBool true)
        /\ lookup_path data' ["tools"; "exec"; restrictToWorkspace] = None)
  /\ lookup_path (JDict both_config) ["tools"; restrictToWorkspace]
     = Some (JBool false)
  /\ _migrate_config (JDict both_config) = Ok (JDict both_config).
Proof.
  split; [reflexivity|]. split; [reflexivity|]. split.
  - destruct (proj1 (migrate_config_relocates old_config)
                (JBool true) eq_refl eq_refl)
      as (data' & Hrun & Hnew & Hold & _).
    exists data'. auto.
  - split; [reflexivity|].
    exact (proj2 (proj2 (migrate_config_relocates both_config))
             (JBool true) (JBool false) eq_refl eq_refl).
Defined.

(** * Loading *)

Section Loading.
Variable Config : Type.
Variable Config_default : Config.
Variable model_validate : json -> result Config.
Variable json_load : string -> result json.

(** Malformed text is answered by a warning and the default. *)
Lemma load_config_malformed_json (path text : string) :
  json_load text = Raise JSONDecodeError ->
  load_config Config Config_default model_validate json_load path
    (Some text)
  = ([WarningFailedToLoad path JSONDecodeError; UsingDefaultConfiguration],
     Ok Config_default).
Proof.
  intros Hparse. unfold load_config, load_config_try.
  now rewrite Hparse.
Qed.

(** So is a document that migrates and then fails validation. *)
Lemma load_config_invalid (path text : string) (data migrated : json) :
  json_load text = Ok data ->
  _migrate_config data = Ok migrated ->
  model_validate (convert_keys migrated []) = Raise ValueError ->
  load_config Config Config_default model_validate json_load path
    (Some text)
  = ([WarningFailedToLoad path ValueError; UsingDefaultConfiguration],
     Ok Config_default).
Proof.
  intros Hparse Hmig Hval. unfold load_config, load_config_try.
  rewrite Hparse. cbn [bind]. rewrite Hmig. cbn [bind]. now rewrite Hval.
Qed.

(** An exception of the migration that the handler does not name leaves
    [load_config]. *)
Lemma load_config_migration_raises (path text : string) (data : json)
  (e : exn) :
  json_load text = Ok data ->
  _migrate_config data = Raise e ->
  caught e = false ->
  load_config Config Config_default model_validate json_load path
    (Some text) = ([], Raise e).
Proof.
  intros Hparse Hmig He. unfold load_config, load_config_try.
  rewrite Hparse. cbn [bind]. rewrite Hmig. cbn [bind]. now rewrite He.
Qed.

End Loading.

(** C8, where the code departs from it. A file whose document has [null]
    for [tools] parses, and [load_config] raises [AttributeError] from the
    migration: nothing is printed and no default is returned. *)
Theorem load_config_tools_null_raises (Config : Type)
  (Config_default : Config) (model_validate : json -> result Config)
  (json_load : string -> result json) (path text : string) :
  json_load text = Ok tools_null ->
  load_config Config Config_default model_validate json_load path (Some text)
  = ([], Raise AttributeError).
Proof.
  intros Hparse.
  now apply load_config_migration_raises with (data := tools_null).
Qed.

Lemma load_config_tools_null_raises_witness :
  load_config unit tt (fun _ => Ok tt) (fun _ => Ok tools_null)
    "config.json" (Some tools_null_text)
  = ([], Raise AttributeError).
Proof.
  exact (load_config_tools_null_raises unit tt (fun _ => Ok tt)
           (fun _ => Ok tools_null) "config.json" tools_null_text eq_refl).
Defined.

(** * The validator *)

Lemma app_eq_nil_iff {A : Type} (l l' : list A) :
  l ++ l' = [] <-> l = [] /\ l' = [].
Proof.
  split; [apply app_eq_nil|]. now intros [-> ->].
Qed.

Lemma and_iff_compat (A B C D : Prop) :
  (A <-> B) -> (C <-> D) -> (A /\ C <-> B /\ D).
Proof. tauto. Qed.

Section ValidatorFacts.
Variable render_float : Q -> string.

Lemma check_bounds_nil (label : string) (minimum maximum : option number)
  (x : Q) :
  check_bounds render_float label minimum maximum x = []
  <-> within minimum maximum x.
Proof.
  unfold check_bounds, within. rewrite app_eq_nil_iff.
  apply and_iff_compat.
  - destruct minimum as [lo|]; [|split; [intros _ ? [=]|reflexivity]].
    destruct (Qle_bool (number_value lo) x) eqn:E; cbn [negb].
    + apply Qle_bool_iff in E. split; [now intros _ ? [= <-]|reflexivity].
    + split; [discriminate|]. intros H. specialize (H lo eq_refl).
      apply Qle_bool_iff in H. congruence.
  - destruct maximum as [hi|]; [|split; [intros _ ? [=]|reflexivity]].
    destruct (Qle_bool x (number_value hi)) eqn:E; cbn [negb].
    + apply Qle_bool_iff in E. split; [now intros _ ? [= <-]|reflexivity].
    + split; [discriminate|]. intros H. specialize (H hi eq_refl).
      apply Qle_bool_iff in H. congruence.
Qed.

Lemma check_string_nil (label : string) (minLength maxLength : option nat)
  (enum : option (list string)) (s : string) :
  check_string label minLength maxLength enum s = []
  <-> (forall n, minLength = Some n -> (n <= String.length s)%nat)
      /\ (forall n, maxLength = Some n -> (String.length s <= n)%nat)
      /\ (forall allowed, enum = Some allowed -> In s allowed).
Proof.
  unfold check_string. rewrite !app_eq_nil_iff.
  repeat apply and_iff_compat.
  - destruct minLength as [n|]; [|split; [intros _ ? [=]|reflexivity]].
    destruct (Nat.ltb_spec (String.length s) n) as [Hlt|Hge].
    + split; [discriminate|]. intros H. specialize (H n eq_refl). lia.
    + split; [now intros _ ? [= <-]|reflexivity].
  - destruct maxLength as [n|]; [|split; [intros _ ? [=]|reflexivity]].
    destruct (Nat.ltb_spec n (String.length s)) as [Hlt|Hge].
    + split; [discriminate|]. intros H. specialize (H n eq_refl). lia.
    + split; [now intros _ ? [= <-]|reflexivity].
  - destruct enum as [allowed|]; [|split; [intros _ ? [=]|reflexivity]].
    destruct (existsb (String.eqb s) allowed) eqn:E.
    + apply existsb_exists in E as (x & Hx & ->%String.eqb_eq).
      split; [now intros _ ? [= <-]|reflexivity].
    + split; [discriminate|]. intros H. specialize (H allowed eq_refl).
      assert (existsb (String.eqb s) allowed = true); [|congruence].
      apply existsb_exists. exists s. split; [exact H|apply String.eqb_refl].
Qed.

Lemma missing_required_nil (d : list (string * json)) (path : list segment)
  (required : list string) :
  flat_map (fun name =>
              if Dict.mem d name then []
              else [("missing required "
                       ++ render_path (path ++ [Field name]))%string])
           required = []
  <-> forall r, In r required -> Dict.mem d r = true.
Proof.
  induction required as [|r rs IH]; cbn [flat_map].
  - split; [intros _ ? []|reflexivity].
  - rewrite app_eq_nil_iff, IH. destruct (Dict.mem d r) eqn:E.
    + split; [intros [_ H] x [<-|Hx]; auto|intros H; split; auto].
      intros x Hx. apply H. now right.
    + split; [intros [[=] _]|]. intros H.
      specialize (H r (or_introl eq_refl)). congruence.
Qed.

(** No error at a node, whatever the path to it, exactly when the value
    conforms to the node. *)
Lemma validate_at_nil (node : schema) :
  forall (path : list segment) (value : json),
    validate_at render_float node path value = [] <-> conforms node value.
Proof.
  induction node as [props required IH|items IH|lo hi enum|lo hi|lo hi|]
    using schema_nested_ind; intros path value.
  - destruct value as [| | | | | |d];
      try (cbn; split; [discriminate|intros (? & [=] & _)]).
    cbn [validate_at conforms]. rewrite app_eq_nil_iff, missing_required_nil.
    split.
    + intros [Hreq Hprops]. exists d. split; [reflexivity|]. split; [exact Hreq|].
      clear Hreq. induction IH as [|[k sub] rest Hsub _ IHrest]; [exact I|].
      apply app_eq_nil_iff in Hprops as [Hk Hrest]. split; [|now apply IHrest].
      intros v Hv. rewrite Hv in Hk. cbn [snd] in Hsub. now apply Hsub in Hk.
    + intros (d' & [= <-] & Hreq & Hprops). split; [exact Hreq|].
      clear Hreq. induction IH as [|[k sub] rest Hsub _ IHrest]; [reflexivity|].
      destruct Hprops as [Hk Hrest]. apply app_eq_nil_iff.
      split; [|now apply IHrest].
      destruct (Dict.get d k) as [v|]; [|reflexivity].
      cbn [snd] in Hsub. apply Hsub. now apply Hk.
  - destruct value as [| | | | |l|];
      try (cbn; split; [discriminate|intros (? & [=] & _)]).
    cbn [validate_at conforms]. generalize 0%nat as i. split.
    + intros Hall. exists l. split; [reflexivity|]. revert i Hall.
      induction l as [|x l IHl]; intros i Hall; [exact I|].
      apply app_eq_nil_iff in Hall as [Hx Hl].
      split; [now apply IH in Hx|now apply IHl in Hl].
    + intros (l' & [= <-] & Hall). revert i.
      induction l as [|x l IHl]; intro i; [reflexivity|].
      destruct Hall as [Hx Hl]. apply app_eq_nil_iff.
      split; [now apply IH|now apply IHl].
  - destruct value as [| | | |s| |];
      try (cbn; split; [discriminate|intros (? & [=] & _)]).
    cbn [validate_at conforms]. rewrite check_string_nil. split.
    + intros H. now exists s.
    + now intros (s' & [= <-] & H).
  - destruct value as [| |z| | | |];
      try (cbn; split; [discriminate|intros (? & [=] & _)]).
    cbn [validate_at conforms]. rewrite check_bounds_nil. split.
    + intros H. now exists z.
    + now intros (z' & [= <-] & H).
  - destruct value as [| |z|q| | |];
      try (cbn; split; [discriminate|intros [(? & [=] & _)|(? & [=] & _)]]).
    + cbn [validate_at conforms]. rewrite check_bounds_nil. split.
      * intros H. left. now exists z.
      * now intros [(z' & [= <-] & H)|(? & [=] & _)].
    + cbn [validate_at conforms]. rewrite check_bounds_nil. split.
      * intros H. right. now exists q.
      * now intros [(? & [=] & _)|(q' & [= <-] & H)].
  - destruct value as [|b| | | | |];
      try (cbn; split; [discriminate|intros (? & [=])]).
    cbn. split; [now exists b|reflexivity].
Qed.

End ValidatorFacts.

(** C3. [validate] is a total function from a schema node and a value to a
    list of strings, and the list is empty exactly when the value conforms
    to the node. *)
Theorem validate_total (render_float : Q -> string) (node : schema)
  (value : json) :
  exists errors : list string,
    validate render_float node value = errors
    /\ (errors = [] <-> conforms node value).
Proof.
  exists (validate render_float node value). split; [reflexivity|].
  apply validate_at_nil.
Qed.

(** * Type check before bounds *)

Section IntegerNode.
Variable render_float : Q -> string.

Lemma append_inj_l (a b c : string) : (a ++ b = a ++ c)%string -> b = c.
Proof.
  induction a as [|x a IH]; cbn; [auto|]. intros [= H]. auto.
Qed.

Lemma check_bounds_In (label : string) (minimum maximum : option number)
  (x : Q) (e : string) :
  In e (check_bounds render_float label minimum maximum x) ->
  (exists lo, minimum = Some lo /\ ~ (number_value lo <= x)%Q
              /\ e = (label ++ " must be >= " ++ render_number render_float lo)%string)
  \/ (exists hi, maximum = Some hi /\ ~ (x <= number_value hi)%Q
                 /\ e = (label ++ " must be <= " ++ render_number render_float hi)%string).
Proof.
  unfold check_bounds. rewrite in_app_iff. intros [Hin|Hin]; [left|right].
  - destruct minimum as [lo|]; [|contradiction].
    destruct (Qle_bool (number_value lo) x) eqn:E; [contradiction|].
    destruct Hin as [<-|[]]. exists lo. repeat split.
    intros H%Qle_bool_iff. congruence.
  - destruct maximum as [hi|]; [|contradiction].
    destruct (Qle_bool x (number_value hi)) eqn:E; [contradiction|].
    destruct Hin as [<-|[]]. exists hi. repeat split.
    intros H%Qle_bool_iff. congruence.
Qed.

End IntegerNode.

(** C5. At an integer node the type check comes first: a value that is not
    an integer gives the one error [<path> should be integer]; an error of
    a bound comes only with an integer that is beyond the bound, and then
    the type error is not given. *)
Theorem integer_type_check_first (render_float : Q -> string)
  (minimum maximum : option number) (path : list segment) (value : json) :
  let label := render_path path in
  let errors :=
    validate_at render_float (SInteger minimum maximum) path value in
  (is_integer value = false ->
   errors = [(label ++ " should be integer")%string])
  /\ (forall n, In (label ++ " must be >= " ++ n)%string errors ->
        exists z lo, value = JInt z /\ minimum = Some lo
                     /\ ~ (number_value lo <= inject_Z z)%Q)
  /\ (forall n, In (label ++ " must be <= " ++ n)%string errors ->
        exists z hi, value = JInt z /\ maximum = Some hi
                     /\ ~ (inject_Z z <= number_value hi)%Q)
  /\ (is_integer value = true ->
      ~ In (label ++ " should be integer")%string errors).
Proof.
  cbv zeta. repeat split.
  - destruct value; cbn; congruence.
  - intros n Hin. destruct value as [| |z| | | |];
      try (destruct Hin as [Heq|[]]; apply append_inj_l in Heq;
           discriminate).
    cbn [validate_at] in Hin.
    apply check_bounds_In in Hin
      as [(lo & Hlo & Hviol & _)|(hi & _ & _ & Heq)].
    + exists z, lo. auto.
    + apply append_inj_l in Heq. discriminate.
  - intros n Hin. destruct value as [| |z| | | |];
      try (destruct Hin as [Heq|[]]; apply append_inj_l in Heq;
           discriminate).
    cbn [validate_at] in Hin.
    apply check_bounds_In in Hin
      as [(lo & _ & _ & Heq)|(hi & Hhi & Hviol & _)].
    + apply append_inj_l in Heq. discriminate.
    + exists z, hi. auto.
  - intros Hint Hin. destruct value as [| |z| | | |]; try discriminate.
    cbn [validate_at] in Hin.
    apply check_bounds_In in Hin
      as [(lo & _ & _ & Heq)|(hi & _ & _ & Heq)];
      apply append_inj_l in Heq; discriminate.
Qed.

Lemma integer_type_check_first_witness :
  is_integer (JStr "2") = false
  /\ validate_at (fun _ => EmptyString)
       (SInteger (Some (NInt 1)) (Some (NInt 10))) [Field "count"] (JStr "2")
     = ["count should be integer"]
  /\ is_integer (JInt 0) = true
  /\ ~ In "count should be integer"
          (validate_at (fun _ => EmptyString)
             (SInteger (Some (NInt 1)) (Some (NInt 10))) [Field "count"]
             (JInt 0)).
Proof.
  split; [reflexivity|]. split.
  - exact (proj1 (integer_type_check_first (fun _ => EmptyString)
                    (Some (NInt 1)) (Some (NInt 10)) [Field "count"]
                    (JStr "2")) eq_refl).
  - split; [reflexivity|].
    exact (proj2 (proj2 (proj2
             (integer_type_check_first (fun _ => EmptyString)
                (Some (NInt 1)) (Some (NInt 10)) [Field "count"] (JInt 0))))
             eq_refl).
Defined.

(** * Paths in the messages *)

Section PathRendering.
Variable render_float : Q -> string.

Lemma render_path_snoc (path : list segment) (seg : segment) :
  render_path (path ++ [seg]) = render_segment (render_path path) seg.
Proof. unfold render_path. now rewrite fold_left_app. Qed.

Lemma render_path_field (path : list segment) (name : string) :
  render_path path <> EmptyString ->
  render_path (path ++ [Field name])
  = (render_path path ++ "." ++ name)%string.
Proof.
  intros Hne. rewrite render_path_snoc. cbn [render_segment].
  now destruct (render_path path).
Qed.

Lemma missing_required_In (d : list (string * json)) (path : list segment)
  (required : list string) (r : string) :
  In r required -> Dict.mem d r = false ->
  In ("missing required " ++ render_path (path ++ [Field r]))%string
     (flat_map (fun name =>
                  if Dict.mem d name then []
                  else [("missing required "
                           ++ render_path (path ++ [Field name]))%string])
               required).
Proof.
  intros Hin Hmem. apply in_flat_map. exists r. split; [exact Hin|].
  rewrite Hmem. now left.
Qed.

(** An error of a declared property that is present is an error of the
    object, with the path extended by the name of the property. *)
Lemma declared_In (props : list (string * schema)) (required : list string)
  (d : list (string * json)) (path : list segment) (k : string)
  (sub : schema) (v : json) (e : string) :
  In (k, sub) props -> Dict.get d k = Some v ->
  In e (validate_at render_float sub (path ++ [Field k]) v) ->
  In e (validate_at render_float (SObject props required) path (JDict d)).
Proof.
  intros Hin Hget He. cbn [validate_at]. apply in_or_app. right.
  induction props as [|[k1 sub1] rest IH]; [destruct Hin|].
  apply in_or_app. destruct Hin as [[= -> ->]|Hin].
  - left. now rewrite Hget.
  - right. now apply IH.
Qed.

(** An error of the element at index [i] is an error of the array, with
    the path extended by [i]. *)
Lemma elements_In (items : schema) (l : list json) (path : list segment)
  (i : nat) (x : json) (e : string) :
  nth_error l i = Some x ->
  In e (validate_at render_float items (path ++ [Index i]) x) ->
  In e (validate_at render_float (SArray items) path (JList l)).
Proof.
  intros Hnth He. cbn [validate_at].
  replace i with (0 + i)%nat in He by reflexivity.
  revert Hnth He. generalize 0%nat as start. revert i.
  induction l as [|y l IH]; intros i start Hnth He; [now destruct i|].
  apply in_or_app. destruct i as [|i]; cbn [nth_error] in Hnth.
  - injection Hnth as ->. left. now rewrite Nat.add_0_r in He.
  - right. apply (IH i (S start) Hnth).
    now rewrite <- Nat.add_succ_comm in He.
Qed.

End PathRendering.

(** C6. Paths are rendered with dotted fields and bracketed indices. An
    index appends [[i]] to the rendered path; a field at the root is
    rendered as its name and below the root appends [.name]; a required
    name that an object at [path] lacks is reported as
    [missing required] followed by the rendered [path] extended by the
    name; the errors of a declared property that is present, and of the
    element at index [i] of an array, are those of the sub-schema at the
    path extended by the name, and by [i]; a value that is not a string
    gives [<path> should be string] at a string node. The nested arguments
    of the test give the two errors of the claim. *)
Theorem nested_paths_rendered (render_float : Q -> string) :
  (forall path i,
      render_path (path ++ [Index i])
      = (render_path path ++ "[" ++ decimal_nat i ++ "]")%string)
  /\ (forall name, render_path [Field name] = name)
  /\ (forall path name,
        render_path path <> EmptyString ->
        render_path (path ++ [Field name])
        = (render_path path ++ "." ++ name)%string)
  /\ (forall props required d path r,
        In r required -> Dict.mem d r = false ->
        In ("missing required " ++ render_path (path ++ [Field r]))%string
           (validate_at render_float (SObject props required) path
              (JDict d)))
  /\ (forall props required d path k sub v e,
        In (k, sub) props -> Dict.get d k = Some v ->
        In e (validate_at render_float sub (path ++ [Field k]) v) ->
        In e (validate_at render_float (SObject props required) path
                (JDict d)))
  /\ (forall items l path i x e,
        nth_error l i = Some x ->
        In e (validate_at render_float items (path ++ [Index i]) x) ->
        In e (validate_at render_float (SArray items) path (JList l)))
  /\ (forall minLength maxLength enum path value,
        (forall s, value <> JStr s) ->
        validate_at render_float (SString minLength maxLength enum) path
          value
        = [(render_path path ++ " should be string")%string])
  /\ render_path [Field "meta"; Field "flags"; Index 0] = "meta.flags[0]"
  /\ validate_params render_float SampleTool args_nested
     = ["missing required meta.tag"; "meta.flags[0] should be string"].
Proof.
  split; [intros path i; now rewrite render_path_snoc|].
  split; [reflexivity|].
  split; [exact render_path_field|].
  split.
  { intros props required d path r Hin Hmem. cbn [validate_at].
    apply in_or_app. left. now apply missing_required_In. }
  split; [exact (declared_In render_float)|].
  split; [exact (elements_In render_float)|].
  split; [|split; reflexivity].
  intros minLength maxLength enum path value Hns.
  destruct value as [| | | |s| |]; try reflexivity.
  now destruct (Hns s).
Qed.

(** The two errors of the test, from the general statements: [tag] is
    required and absent below [meta], and the element 0 of [meta.flags] is
    not a string. *)
Lemma nested_paths_rendered_witness :
  In "missing required meta.tag"
     (validate_params (fun _ => EmptyString) SampleTool args_nested)
  /\ In "meta.flags[0] should be string"
        (validate_params (fun _ => EmptyString) SampleTool args_nested).
Proof.
  destruct (nested_paths_rendered (fun _ => EmptyString))
    as (_ & _ & _ & Hmissing & Hfield & Helement & Hstring & _ & _).
  split.
  - apply (Hfield _ _ _ [] "meta"
             (SObject [("tag", SString None None None);
                       ("flags", SArray (SString None None None))]
                      ["tag"])
             (JDict [("flags", JList [JInt 1; JStr "ok"])]));
      [cbn; tauto|reflexivity|].
    apply (Hmissing _ _ _ [Field "meta"] "tag"); [now left|reflexivity].
  - apply (Hfield _ _ _ [] "meta"
             (SObject [("tag", SString None None None);
                       ("flags", SArray (SString None None None))]
                      ["tag"])
             (JDict [("flags", JList [JInt 1; JStr "ok"])]));
      [cbn; tauto|reflexivity|].
    apply (Hfield _ _ _ [Field "meta"] "flags"
             (SArray (SString None None None))
             (JList [JInt 1; JStr "ok"]));
      [cbn; tauto|reflexivity|].
    apply (Helement _ _ [Field "meta"; Field "flags"] 0%nat (JInt 1));
      [reflexivity|].
    cbn [app].
    rewrite (Hstring None None None [Field "meta"; Field "flags"; Index 0%nat]
               (JInt 1)); [now left|discriminate].
Defined.

(** * The registry *)

Section RegistryFacts.
Variable render_float : Q -> string.

Lemma execute_unknown (reg : ToolRegistry) (tool_name : string)
  (args : json) :
  stdpp.base.lookup tool_name reg = None ->
  execute render_float reg tool_name args
  = ([], ("Unknown tool: " ++ tool_name)%string).
Proof. unfold execute. now intros ->. Qed.

Lemma execute_invalid (reg : ToolRegistry) (tool_name : string)
  (args : json) (tool : Tool) :
  stdpp.base.lookup tool_name reg = Some tool ->
  validate_params render_float tool args <> [] ->
  execute render_float reg tool_name args
  = ([ValidateParams tool_name args],
     ("Invalid parameters: "
        ++ PyStr.join "; " (validate_params render_float tool args))%string).
Proof.
  unfold execute. intros -> Herr.
  now destruct (validate_params render_float tool args).
Qed.

Lemma execute_runs_valid (reg : ToolRegistry) (tool_name : string)
  (args : json) (n : string) (a : json) :
  In (Execute n a) (fst (execute render_float reg tool_name args)) ->
  n = tool_name /\ a = args
  /\ exists tool,
       stdpp.base.lookup tool_name reg = Some tool
       /\ validate_params render_float tool args = [].
Proof.
  unfold execute.
  destruct (stdpp.base.lookup tool_name reg) as [tool|]; [|intros []].
  destruct (validate_params render_float tool args) eqn:Hval; cbn.
  - intros [[=]|[[= <- <-]|[]]]. eauto.
  - intros [[=]|[]].
Qed.

Lemma register_lookup (reg : ToolRegistry) (tool : Tool) :
  stdpp.base.lookup (name tool) (register reg tool) = Some tool.
Proof. apply stdpp.fin_maps.lookup_insert_eq. Qed.

End RegistryFacts.

(** C4. [execute] looks the name up first and answers an unknown name with
    no call on any tool; arguments with validation errors are answered by
    [Invalid parameters: ] and the errors joined by [; ], after the one
    call to [validate_params]; and the tool is executed only when its
    validation found no error. *)
Theorem execute_validates_first (render_float : Q -> string)
  (reg : ToolRegistry) (tool_name : string) (args : json) :
  (stdpp.base.lookup tool_name reg = None ->
   execute render_float reg tool_name args
   = ([], ("Unknown tool: " ++ tool_name)%string))
  /\ (forall tool,
        stdpp.base.lookup tool_name reg = Some tool ->
        validate_params render_float tool args <> [] ->
        execute render_float reg tool_name args
        = ([ValidateParams tool_name args],
           ("Invalid parameters: "
              ++ PyStr.join "; " (validate_params render_float tool args))
           %string))
  /\ (forall n a,
        In (Execute n a) (fst (execute render_float reg tool_name args)) ->
        exists tool,
          stdpp.base.lookup tool_name reg = Some tool
          /\ validate_params render_float tool args = []).
Proof.
  split; [apply execute_unknown|]. split; [apply execute_invalid|].
  intros n a Hin. now apply execute_runs_valid in Hin as (_ & _ & Htool).
Qed.

Lemma execute_validates_first_witness :
  execute (fun _ => EmptyString) sample_registry "missing" (JDict [])
  = ([], "Unknown tool: missing")
  /\ execute (fun _ => EmptyString) sample_registry "sample"
       (JDict [("query", JStr "hi")])
     = ([ValidateParams "sample" (JDict [("query", JStr "hi")])],
        "Invalid parameters: missing required count").
Proof.
  split.
  - exact (proj1 (execute_validates_first (fun _ => EmptyString)
                    sample_registry "missing" (JDict [])) eq_refl).
  - refine (proj1 (proj2 (execute_validates_first (fun _ => EmptyString)
                            sample_registry "sample"
                            (JDict [("query", JStr "hi")])))
              SampleTool eq_refl _).
    discriminate.
Defined.

Example test_registry_returns_validation_error (rf : Q -> string) :
  snd (execute rf sample_registry "sample" (JDict [("query", JStr "hi")]))
  = "Invalid parameters: missing required count"
  /\ execute rf sample_registry "sample"
       (JDict [("query", JStr "hi"); ("count", JInt 2)])
     = ([ValidateParams "sample"
           (JDict [("query", JStr "hi"); ("count", JInt 2)]);
         Execute "sample" (JDict [("query", JStr "hi"); ("count", JInt 2)])],
        "ok").
Proof. split; reflexivity. Qed.

(** * More on the two key conversions *)

Section KeyConversions.
Import PyStr PyStrFacts.

Lemma isupper_lower_changes (c : ascii) : isupper c = true -> lower c <> c.
Proof. by_cases_on_char c. Qed.

Lemma camel_to_snake_from_fixed_inv (s : string) (i : nat) :
  camel_to_snake_from i s = s -> no_upper s = true.
Proof.
  revert i. induction s as [|c s IH]; intro i; [reflexivity|].
  cbn [camel_to_snake_from]. rewrite no_upper_cons.
  destruct (isupper c) eqn:Hc; cbn [andb negb].
  - destruct (0 <? i)%nat.
    + intros [= Hu _]. subst c. discriminate Hc.
    + intros [= Hl _]. now apply isupper_lower_changes in Hc.
  - intros [= _ Hs]. now apply IH in Hs.
Qed.

Lemma upper_lower (c : ascii) : isupper c = true -> upper (lower c) = c.
Proof. by_cases_on_char c. Qed.

Lemma islower_lower (c : ascii) : isupper c = true -> islower (lower c) = true.
Proof. by_cases_on_char c. Qed.

Lemma isupper_not_underscore (c : ascii) :
  isupper c = true -> Ascii.eqb (lower c) "_" = false.
Proof. by_cases_on_char c. Qed.

Lemma islower_not_underscore (c : ascii) :
  islower c = true -> Ascii.eqb c "_" = false.
Proof. by_cases_on_char c. Qed.

Lemma isdigit_not_underscore (c : ascii) :
  isdigit c = true -> Ascii.eqb c "_" = false.
Proof. by_cases_on_char c. Qed.

Lemma lower_not_underscore (c : ascii) :
  Ascii.eqb c "_" = false -> Ascii.eqb (lower c) "_" = false.
Proof. by_cases_on_char c. Qed.

Lemma upper_not_underscore (c : ascii) :
  Ascii.eqb c "_" = false -> Ascii.eqb (upper c) "_" = false.
Proof. by_cases_on_char c. Qed.

Lemma split_not_nil (s : string) : split "_" s <> [].
Proof.
  destruct s as [|c s]; cbn [split]; [discriminate|].
  destruct (Ascii.eqb c "_"); [discriminate|].
  destruct (split "_" s); discriminate.
Qed.

(** How [snake_to_camel] and [titled] go through a name, character by
    character. *)
Lemma snake_to_camel_cons (c : ascii) (s : string) :
  snake_to_camel (String c s)
  = if Ascii.eqb c "_" then titled false s else String c (snake_to_camel s).
Proof.
  unfold snake_to_camel, titled. cbn [split].
  pose proof (split_not_nil s) as Hs.
  destruct (Ascii.eqb c "_"), (split "_" s) as [|w ws];
    try contradiction; reflexivity.
Qed.

Lemma titled_cons (p : bool) (c : ascii) (s : string) :
  titled p (String c s)
  = if Ascii.eqb c "_" then titled false s
    else String (if p then lower c else upper c) (titled (iscased c) s).
Proof.
  unfold titled. cbn [split].
  pose proof (split_not_nil s) as Hs.
  destruct (Ascii.eqb c "_"), (split "_" s) as [|w ws];
    try contradiction; reflexivity.
Qed.

Lemma no_underscore_cons (c : ascii) (s : string) :
  no_underscore (String c s) = negb (Ascii.eqb c "_") && no_underscore s.
Proof. reflexivity. Qed.

Lemma titled_no_underscore (s : string) (p : bool) :
  no_underscore (titled p s) = true.
Proof.
  revert p. induction s as [|c s IH]; intro p; [reflexivity|].
  rewrite titled_cons. destruct (Ascii.eqb c "_") eqn:Hc; [apply IH|].
  rewrite no_underscore_cons, IH, andb_true_r.
  apply negb_true_iff.
  destruct p; [now apply lower_not_underscore|now apply upper_not_underscore].
Qed.

Lemma snake_to_camel_no_underscore (s : string) :
  no_underscore (snake_to_camel s) = true.
Proof.
  induction s as [|c s IH]; [reflexivity|].
  rewrite snake_to_camel_cons. destruct (Ascii.eqb c "_") eqn:Hc.
  - apply titled_no_underscore.
  - now rewrite no_underscore_cons, Hc, IH.
Qed.

Lemma snake_to_camel_fixed (s : string) :
  no_underscore s = true -> snake_to_camel s = s.
Proof.
  induction s as [|c s IH]; [reflexivity|].
  rewrite no_underscore_cons. intros [Hc Hs]%andb_true_iff.
  apply negb_true_iff in Hc. now rewrite snake_to_camel_cons, Hc, IH.
Qed.

End KeyConversions.

(** X1. The names that [camel_to_snake] leaves as they are. With a
    [lower] that never returns the empty string, they are exactly the names
    of which [lower] returns every character as it is and in which no
    character after the first is upper-case. For a name of ASCII
    characters that is to say: exactly the names without an upper-case
    letter; a key of ASCII characters already in snake case is not
    touched. *)
Theorem camel_to_snake_fixed_points :
  (forall (isupper : N -> bool) (lower : N -> Unicode.str)
          (name : Unicode.str),
      (forall c, lower c <> []) ->
      Unicode.camel_to_snake isupper lower name = name
      <-> (forall c, In c name -> lower c = [c])
          /\ (forall c, In c (tl name) -> isupper c = false))
  /\ (forall name : string,
        PyStr.isascii name = true ->
        camel_to_snake name = name <-> PyStr.no_upper name = true).
Proof.
  split.
  - intros isupper lower name Hlower.
    apply (unicode_camel_to_snake_from_fixed_iff isupper lower name 0 Hlower).
  - intros name _. split.
    + apply camel_to_snake_from_fixed_inv.
    + apply camel_to_snake_from_fixed.
Qed.

(** U+01C5 is not upper-case and yet [lower] changes it, so a name that
    holds it is changed; [mcp_servers] is returned as it is. *)
Lemma camel_to_snake_fixed_points_witness :
  Unicode.camel_to_snake Unicode.sample_isupper Unicode.sample_lower
    [97%N; 453%N] <> [97%N; 453%N]
  /\ Unicode.camel_to_snake Unicode.sample_isupper Unicode.sample_lower
       (PyStr.codes "mcp_servers") = PyStr.codes "mcp_servers"
  /\ camel_to_snake "mcp_servers" = "mcp_servers".
Proof.
  destruct camel_to_snake_fixed_points as [Hcodes Hascii].
  assert (Hlower : forall c, Unicode.sample_lower c <> []).
  { intros c. unfold Unicode.sample_lower.
    destruct (c =? 453)%N; [discriminate|].
    destruct (c =? 304)%N; discriminate. }
  split; [|split].
  - intros Hfix.
    apply (Hcodes Unicode.sample_isupper Unicode.sample_lower
             [97%N; 453%N] Hlower) in Hfix as [Hfix _].
    specialize (Hfix 453%N (or_intror (or_introl eq_refl))).
    discriminate Hfix.
  - apply (Hcodes Unicode.sample_isupper Unicode.sample_lower
             (PyStr.codes "mcp_servers") Hlower).
    split; intros c Hin; cbn in Hin;
      repeat (destruct Hin as [<-|Hin]; [reflexivity|]); destruct Hin.
  - now apply (Hascii "mcp_servers").
Defined.

(** X2. [snake_to_camel] leaves no underscore in a name, leaves a name
    without underscores as it is, and so does nothing when applied a second
    time. *)
Theorem snake_to_camel_removes_underscores (name : string) :
  no_underscore (snake_to_camel name) = true
  /\ (snake_to_camel name = name <-> no_underscore name = true)
  /\ snake_to_camel (snake_to_camel name) = snake_to_camel name.
Proof.
  split; [apply snake_to_camel_no_underscore|]. split.
  - split; [|apply snake_to_camel_fixed].
    intros Heq. rewrite <- Heq. apply snake_to_camel_no_underscore.
  - apply snake_to_camel_fixed, snake_to_camel_no_underscore.
Qed.

(** * The round trip through snake case *)

Section DiskRoundTrip.
Import PyStr PyStrFacts.

Lemma not_cased_digit (c : ascii) : isdigit c = true -> iscased c = false.
Proof. by_cases_on_char c. Qed.

(** Inside a word after the first: the text that [camel_to_snake] makes of
    the rest of a camel-case name is title-cased back to that rest. *)
Lemma titled_camel_to_snake_from (s : string) :
  forall after_digit i,
    camel_rest after_digit s = true ->
    titled (negb after_digit) (camel_to_snake_from (S i) s) = s.
Proof.
  induction s as [|c s IH]; intros after_digit i Hs; [reflexivity|].
  pose proof (IH true (S i)) as IHdigit.
  pose proof (IH false (S i)) as IHletter. cbn [negb] in IHdigit, IHletter.
  cbn [camel_rest] in Hs. cbn [camel_to_snake_from Nat.ltb Nat.leb].
  rewrite andb_true_r.
  destruct (isdigit c) eqn:Hd.
  - rewrite (isdigit_not_upper _ Hd), (lower_fixed _ (isdigit_not_upper _ Hd)).
    rewrite titled_cons, (isdigit_not_underscore _ Hd), (not_cased_digit _ Hd).
    rewrite (upper_fixed _ (isdigit_not_lower _ Hd)).
    rewrite (IHdigit Hs), (lower_fixed _ (isdigit_not_upper _ Hd)).
    now destruct (negb after_digit).
  - destruct (isupper c) eqn:Hu.
    + rewrite titled_cons. cbn [Ascii.eqb Bool.eqb].
      rewrite titled_cons, (isupper_not_underscore _ Hu), (upper_lower _ Hu).
      unfold iscased. rewrite (islower_lower _ Hu), orb_true_r.
      now rewrite (IHletter Hs).
    + destruct (islower c) eqn:Hl; [|discriminate].
      apply andb_true_iff in Hs as [Hb Hs]. rewrite Hb.
      rewrite (lower_fixed _ Hu), titled_cons, (islower_not_underscore _ Hl).
      unfold iscased. rewrite Hl, orb_true_r, (lower_fixed _ Hu).
      now rewrite (IHletter Hs).
Qed.

(** In the first word the characters are taken as they are. *)
Lemma snake_to_camel_camel_to_snake_from (s : string) :
  forall after_digit i,
    camel_rest after_digit s = true ->
    snake_to_camel (camel_to_snake_from (S i) s) = s.
Proof.
  induction s as [|c s IH]; intros after_digit i Hs; [reflexivity|].
  cbn [camel_rest] in Hs. cbn [camel_to_snake_from Nat.ltb Nat.leb].
  rewrite andb_true_r.
  destruct (isdigit c) eqn:Hd.
  - rewrite (isdigit_not_upper _ Hd), (lower_fixed _ (isdigit_not_upper _ Hd)).
    rewrite snake_to_camel_cons, (isdigit_not_underscore _ Hd).
    now rewrite (IH true (S i) Hs).
  - destruct (isupper c) eqn:Hu.
    + rewrite snake_to_camel_cons. cbn [Ascii.eqb Bool.eqb].
      rewrite titled_cons, (isupper_not_underscore _ Hu), (upper_lower _ Hu).
      unfold iscased. rewrite (islower_lower _ Hu), orb_true_r.
      pose proof (titled_camel_to_snake_from s false (S i) Hs) as Ht.
      cbn [negb] in Ht. now rewrite Ht.
    + destruct (islower c) eqn:Hl; [|discriminate].
      apply andb_true_iff in Hs as [_ Hs].
      rewrite (lower_fixed _ Hu), snake_to_camel_cons.
      rewrite (islower_not_underscore _ Hl). now rewrite (IH false (S i) Hs).
Qed.

Lemma snake_to_camel_camel_to_snake (name : string) :
  is_plain_camel_case name = true ->
  snake_to_camel (camel_to_snake name) = name.
Proof.
  destruct name as [|c s]; [discriminate|].
  cbn [is_plain_camel_case]. intros [Hc Hs]%andb_true_iff.
  unfold camel_to_snake. cbn [camel_to_snake_from Nat.ltb Nat.leb].
  rewrite andb_false_r, (lower_fixed _ (islower_not_upper _ Hc)).
  rewrite snake_to_camel_cons, (islower_not_underscore _ Hc).
  now rewrite (snake_to_camel_camel_to_snake_from s false 0 Hs).
Qed.




End DiskRoundTrip.

(** X3. A camel-case name comes back from [camel_to_snake] followed by
    [snake_to_camel]. *)
Theorem camel_case_key_round_trip (name : string) :
  is_plain_camel_case name = true ->
  snake_to_camel (camel_to_snake name) = name.
Proof. apply snake_to_camel_camel_to_snake. Qed.

Lemma camel_case_key_round_trip_witness :
  is_plain_camel_case "restrictToWorkspace" = true
  /\ snake_to_camel (camel_to_snake "restrictToWorkspace")
     = "restrictToWorkspace".
Proof.
  split; [reflexivity|].
  apply (camel_case_key_round_trip "restrictToWorkspace"). reflexivity.
Defined.



(** * Lookups in a converted dictionary *)

Section Lookups.

Lemma get_put_all (key : string -> string) (value : string -> json -> json)
  (items : list (string * json)) :
  forall out k',
    Dict.get (put_all key value items out) k'
    = match last_with key items k' with
      | Some kv => Some (value (fst kv) (snd kv))
      | None => Dict.get out k'
      end.
Proof.
  induction items as [|[k v] items IH]; intros out k'; [reflexivity|].
  rewrite put_all_cons, IH. cbn [last_with fst snd].
  destruct (last_with key items k') as [kv|]; [reflexivity|].
  destruct (String.eqb_spec (key k) k') as [<-|Hne].
  - apply get_set_same.
  - now apply get_set_other.
Qed.

Lemma last_with_key (key : string -> string) (d : list (string * json))
  (k' : string) (kv : string * json) :
  last_with key d k' = Some kv -> key (fst kv) = k' /\ In kv d.
Proof.
  induction d as [|[k v] d IH]; cbn [last_with]; [discriminate|].
  destruct (last_with key d k') as [kv'|].
  - intros [= <-]. destruct (IH eq_refl) as [Hk Hin]. split; [exact Hk|].
    now right.
  - destruct (String.eqb_spec (key k) k'); [|discriminate].
    intros [= <-]. split; [assumption|now left].
Qed.

Lemma keys_outside_env_list (p : string -> bool) (l : list json)
  (path : list string) :
  keys_outside_env p (JList l) path
  = forallb (fun y => keys_outside_env p y path) l.
Proof.
  cbn [keys_outside_env]. induction l as [|y l IH]; [reflexivity|].
  cbn [forallb]. now rewrite IH.
Qed.

Lemma keys_outside_env_dict (p : string -> bool) (d : list (string * json))
  (path : list string) :
  keys_outside_env p (JDict d) path
  = forallb (fun kv =>
               (_is_mcp_env_map_path path || p (fst kv))
               && keys_outside_env p (snd kv) (path ++ [fst kv])) d.
Proof.
  cbn [keys_outside_env]. induction d as [|[k v] d IH]; [reflexivity|].
  cbn [forallb fst snd]. now rewrite IH.
Qed.

Lemma convert_keys_no_upper_at (x : json) :
  forall path,
    keys_outside_env PyStr.no_upper (convert_keys x path) path = true.
Proof.
  induction x as [| | | | |l IH|d IH] using json_nested_ind; intro path;
    try reflexivity.
  - cbn [convert_keys]. rewrite keys_outside_env_list, forallb_forall.
    intros y (x & <- & Hx)%in_map_iff. rewrite Forall_forall in IH. auto.
  - rewrite convert_keys_dict, keys_outside_env_dict, forallb_forall.
    apply Forall_forall.
    apply (put_all_invariant _ _
             (fun kv => (_is_mcp_env_map_path path || PyStr.no_upper (fst kv))
                        && keys_outside_env PyStr.no_upper (snd kv)
                             (path ++ [fst kv]) = true));
      [constructor|constructor|].
    revert IH. apply Forall_impl. intros [k v] Hv; cbn [fst snd] in *.
    rewrite Hv, andb_true_r. unfold snake_key.
    destruct (_is_mcp_env_map_path path); [reflexivity|].
    apply camel_to_snake_from_no_upper.
Qed.

Lemma convert_keys_isascii_at (x : json) :
  forall path,
    all_keys PyStr.isascii x = true ->
    all_keys PyStr.isascii (convert_keys x path) = true.
Proof.
  induction x as [| | | | |l IH|d IH] using json_nested_ind;
    intros path Hx; try reflexivity.
  - rewrite all_keys_list, forallb_forall in Hx.
    cbn [convert_keys]. rewrite all_keys_list, forallb_forall.
    intros y (x & <- & Hin)%in_map_iff. rewrite Forall_forall in IH. auto.
  - rewrite all_keys_dict, forallb_forall in Hx.
    rewrite convert_keys_dict, all_keys_dict, forallb_forall.
    apply Forall_forall.
    apply (put_all_invariant _ _
             (fun kv => PyStr.isascii (fst kv)
                        && all_keys PyStr.isascii (snd kv) = true));
      [constructor|constructor|].
    rewrite Forall_forall in IH |- *. intros [k v] Hin; cbn [fst snd].
    specialize (Hx _ Hin). cbn [fst snd] in Hx.
    apply andb_true_iff in Hx as [Hk Hv].
    rewrite (IH _ Hin _ Hv), andb_true_r. unfold snake_key.
    destruct (_is_mcp_env_map_path path); [exact Hk|].
    now apply isascii_camel_to_snake_from.
Qed.

End Lookups.

(** X5. The entry of a converted dictionary under a key holds the converted
    value of the last entry of the input whose key converts to that key;
    a key that no key of the input converts to is absent. So of several
    keys that collide after conversion the last one wins. *)
Theorem converted_lookup_last_wins (d : list (string * json))
  (path : list string) (k' : string) :
  Dict.get (dict_items (convert_keys (JDict d) path)) k'
  = match last_with (snake_key path) d k' with
    | Some kv => Some (convert_keys (snd kv) (path ++ [k']))
    | None => None
    end
  /\ Dict.get (dict_items (convert_to_camel (JDict d) path)) k'
     = match last_with (camel_key path) d k' with
       | Some kv => Some (convert_to_camel (snd kv) (path ++ [fst kv]))
       | None => None
       end.
Proof.
  rewrite convert_keys_dict, convert_to_camel_dict. cbn [dict_items].
  rewrite !get_put_all. split.
  - destruct (last_with (snake_key path) d k') as [kv|] eqn:Hlast;
      [|reflexivity].
    now destruct (last_with_key _ _ _ _ Hlast) as [-> _].
  - now destruct (last_with (camel_key path) d k').
Qed.

(** X6. In a document whose keys are strings of ASCII characters,
    [convert_keys] leaves no upper-case letter in a key, but for the keys
    of the dictionaries at [tools.mcp_servers.<name>.env]; and the keys of
    the result are strings of ASCII characters again. *)
Theorem convert_keys_no_upper (x : json) (path : list string) :
  all_keys PyStr.isascii x = true ->
  all_keys PyStr.isascii (convert_keys x path) = true
  /\ keys_outside_env PyStr.no_upper (convert_keys x path) path = true.
Proof.
  intros Hx. split.
  - now apply convert_keys_isascii_at.
  - apply convert_keys_no_upper_at.
Qed.

Lemma convert_keys_no_upper_witness :
  all_keys PyStr.isascii _build_mcp_env_data = true
  /\ all_keys PyStr.isascii (convert_keys _build_mcp_env_data []) = true
  /\ keys_outside_env PyStr.no_upper (convert_keys _build_mcp_env_data []) []
     = true
  /\ all_keys PyStr.no_upper (convert_keys _build_mcp_env_data []) = false.
Proof.
  destruct (convert_keys_no_upper _build_mcp_env_data [] eq_refl)
    as [Hascii Hupper].
  split; [reflexivity|]. split; [exact Hascii|]. split; [exact Hupper|].
  reflexivity.
Defined.

(** * The [env] dictionary, from the root of a document *)

Section EnvFromRoot.

Lemma get_convert_keys (d : list (string * json)) (path : list string)
  (k' : string) (kv : string * json) :
  _is_mcp_env_map_path path = false ->
  last_with camel_to_snake d k' = Some kv ->
  Dict.get (dict_items (convert_keys (JDict d) path)) k'
  = Some (convert_keys (snd kv) (path ++ [k'])).
Proof.
  intros Hpath Hlast. rewrite convert_keys_dict. cbn [dict_items].
  rewrite get_put_all. unfold snake_key. rewrite Hpath.
  change (fun k => camel_to_snake k) with camel_to_snake.
  rewrite Hlast. cbn [fst snd].
  now destruct (last_with_key _ _ _ _ Hlast) as [-> _].
Qed.

Lemma get_convert_to_camel (d : list (string * json)) (path : list string)
  (k' : string) (kv : string * json) :
  _is_mcp_env_map_path path = false ->
  last_with snake_to_camel d k' = Some kv ->
  Dict.get (dict_items (convert_to_camel (JDict d) path)) k'
  = Some (convert_to_camel (snd kv) (path ++ [fst kv])).
Proof.
  intros Hpath Hlast. rewrite convert_to_camel_dict. cbn [dict_items].
  rewrite get_put_all. unfold camel_key. rewrite Hpath.
  change (fun k => snake_to_camel k) with snake_to_camel.
  now rewrite Hlast.
Qed.

End EnvFromRoot.

(** X7. [convert_keys] on a whole document of the file: where the entries
    that end up under [tools], [mcp_servers], a server and [env] are
    dictionaries, the [env] dictionary of the result has the variable names
    of the input, as they are written; the name of the server is converted
    like any other key. *)
Theorem convert_keys_keeps_env_names (d t s srv env : list (string * json))
  (kt ks name ke server : string) :
  last_with camel_to_snake d "tools" = Some (kt, JDict t) ->
  last_with camel_to_snake t "mcp_servers" = Some (ks, JDict s) ->
  last_with camel_to_snake s server = Some (name, JDict srv) ->
  last_with camel_to_snake srv "env" = Some (ke, JDict env) ->
  distinct (Dict.keys env) = true ->
  server = camel_to_snake name
  /\ lookup_path (convert_keys (JDict d) [])
       ["tools"; "mcp_servers"; server; "env"]
     = Some (JDict (map (fun kv =>
                           (fst kv,
                            convert_every_key camel_to_snake (snd kv)))
                        env)).
Proof.
  intros Ht Hs Hsrv Henv Hnd. split.
  - now destruct (last_with_key _ _ _ _ Hsrv) as [<- _].
  - cbn [lookup_path].
    rewrite (get_convert_keys d [] _ _ eq_refl Ht). cbn [snd app].
    rewrite (get_convert_keys t ["tools"] _ _ eq_refl Hs). cbn [snd app].
    rewrite (get_convert_keys s ["tools"; "mcp_servers"] _ _ eq_refl Hsrv).
    cbn [snd app].
    rewrite (get_convert_keys srv ["tools"; "mcp_servers"; server] _ _
               eq_refl Henv).
    cbn [snd app].
    rewrite convert_keys_at_env; [reflexivity|reflexivity|exact Hnd].
Qed.

Lemma convert_keys_keeps_env_names_witness :
  "demo" = camel_to_snake "demo"
  /\ lookup_path (convert_keys _build_mcp_env_data [])
       ["tools"; "mcp_servers"; "demo"; "env"]
     = Some (JDict (map (fun kv =>
                           (fst kv,
                            convert_every_key camel_to_snake (snd kv)))
                        mcp_env)).
Proof.
  exact (convert_keys_keeps_env_names
           [("tools", JDict [("mcpServers", JDict [("demo",
              JDict [("command", JStr "npx"); ("env", JDict mcp_env)])])])]
           [("mcpServers", JDict [("demo",
              JDict [("command", JStr "npx"); ("env", JDict mcp_env)])])]
           [("demo", JDict [("command", JStr "npx"); ("env", JDict mcp_env)])]
           [("command", JStr "npx"); ("env", JDict mcp_env)]
           mcp_env "tools" "mcpServers" "demo" "env" "demo"
           eq_refl eq_refl eq_refl eq_refl eq_refl).
Defined.

(** X8. [convert_to_camel] on a whole document in snake case: where the
    entries under [tools], [mcp_servers], a server and [env] are
    dictionaries and are the ones that end up under the converted keys, the
    [env] dictionary of the result, found under [tools], [mcpServers], the
    converted server name and [env], has the variable names of the input as
    they are written. *)
Theorem convert_to_camel_keeps_env_names
  (d t s srv env : list (string * json)) (name server : string) :
  last_with snake_to_camel d "tools" = Some ("tools", JDict t) ->
  last_with snake_to_camel t "mcpServers" = Some ("mcp_servers", JDict s) ->
  last_with snake_to_camel s server = Some (name, JDict srv) ->
  last_with snake_to_camel srv "env" = Some ("env", JDict env) ->
  distinct (Dict.keys env) = true ->
  server = snake_to_camel name
  /\ lookup_path (convert_to_camel (JDict d) [])
       ["tools"; "mcpServers"; server; "env"]
     = Some (JDict (map (fun kv =>
                           (fst kv,
                            convert_every_key snake_to_camel (snd kv)))
                        env)).
Proof.
  intros Ht Hs Hsrv Henv Hnd. split.
  - now destruct (last_with_key _ _ _ _ Hsrv) as [<- _].
  - cbn [lookup_path].
    rewrite (get_convert_to_camel d [] _ _ eq_refl Ht). cbn [fst snd app].
    rewrite (get_convert_to_camel t ["tools"] _ _ eq_refl Hs).
    cbn [fst snd app].
    rewrite (get_convert_to_camel s ["tools"; "mcp_servers"] _ _ eq_refl
               Hsrv).
    cbn [fst snd app].
    rewrite (get_convert_to_camel srv ["tools"; "mcp_servers"; name] _ _
               eq_refl Henv).
    cbn [fst snd app].
    rewrite convert_to_camel_at_env; [reflexivity|reflexivity|exact Hnd].
Qed.

Lemma convert_to_camel_keeps_env_names_witness :
  "demo" = snake_to_camel "demo"
  /\ lookup_path (convert_to_camel mcp_env_data_snake [])
       ["tools"; "mcpServers"; "demo"; "env"]
     = Some (JDict (map (fun kv =>
                           (fst kv,
                            convert_every_key snake_to_camel (snd kv)))
                        mcp_env)).
Proof.
  exact (convert_to_camel_keeps_env_names
           [("tools", JDict [("mcp_servers", JDict [("demo",
              JDict [("command", JStr "npx"); ("env", JDict mcp_env)])])])]
           [("mcp_servers", JDict [("demo",
              JDict [("command", JStr "npx"); ("env", JDict mcp_env)])])]
           [("demo", JDict [("command", JStr "npx"); ("env", JDict mcp_env)])]
           [("command", JStr "npx"); ("env", JDict mcp_env)]
           mcp_env "demo" "demo"
           eq_refl eq_refl eq_refl eq_refl eq_refl).
Defined.

(** * More on the migration *)

Section MigrationFacts.

(** The two ways [_migrate_config] returns. *)
Lemma migrate_config_cases (d : list (string * json)) (data' : json) :
  _migrate_config (JDict d) = Ok data' ->
  data' = JDict d
  \/ exists t e v,
       Dict.get d "tools" = Some (JDict t)
       /\ Dict.get t "exec" = Some (JDict e)
       /\ Dict.get e restrictToWorkspace = Some v
       /\ Dict.get t restrictToWorkspace = None
       /\ data'
          = JDict (Dict.set d "tools"
                     (JDict (Dict.set
                               (Dict.set t "exec"
                                  (JDict (Dict.remove e restrictToWorkspace)))
                               restrictToWorkspace v))).
Proof.
  unfold _migrate_config. cbn. intros Hrun.
  destruct (Dict.get d "tools") as [tools|] eqn:Ht; cbn in Hrun;
    [|left; congruence].
  destruct tools as [| | | | | |t]; cbn in Hrun; try discriminate.
  destruct (Dict.get t "exec") as [exec_cfg|] eqn:He; cbn in Hrun;
    [|left; congruence].
  destruct exec_cfg as [| | | |s|l|e]; cbn in Hrun; try discriminate.
  - destruct (PyStr.contains restrictToWorkspace s); cbn in Hrun;
      [|left; congruence].
    destruct (Dict.mem t restrictToWorkspace); cbn in Hrun;
      [left; congruence|discriminate].
  - destruct (existsb _ l); cbn in Hrun; [|left; congruence].
    destruct (Dict.mem t restrictToWorkspace); cbn in Hrun;
      [left; congruence|discriminate].
  - destruct (Dict.mem e restrictToWorkspace) eqn:Hold; cbn in Hrun;
      [|left; congruence].
    destruct (Dict.mem t restrictToWorkspace) eqn:Hnew; cbn in Hrun;
      [left; congruence|].
    apply mem_get in Hold as [v Hv]. apply get_None_mem in Hnew.
    rewrite Hv in Hrun. cbn in Hrun. right. exists t, e, v.
    repeat split; congruence.
Qed.

Lemma migrate_config_moved_is_final (d t e : list (string * json))
  (v : json) :
  let data' :=
    JDict (Dict.set d "tools"
             (JDict (Dict.set
                       (Dict.set t "exec"
                          (JDict (Dict.remove e restrictToWorkspace)))
                       restrictToWorkspace v))) in
  _migrate_config data' = Ok data'.
Proof.
  cbv zeta. unfold _migrate_config. cbn -[restrictToWorkspace].
  rewrite get_set_same. cbn -[restrictToWorkspace].
  rewrite (get_set_other _ restrictToWorkspace "exec") by discriminate.
  rewrite get_set_same. cbn -[restrictToWorkspace].
  assert (Hm : Dict.mem (Dict.remove e restrictToWorkspace)
                 restrictToWorkspace = false)
    by (apply get_None_mem, get_remove_same).
  now rewrite Hm.
Qed.

Lemma migrate_config_well_shaped (data : json) :
  well_shaped data = true -> exists data', _migrate_config data = Ok data'.
Proof.
  destruct data as [| | | | | |d]; try discriminate. cbn [well_shaped].
  unfold _migrate_config. cbn.
  destruct (Dict.get d "tools") as [tools|]; cbn; [|eauto].
  destruct tools as [| | | | | |t]; try discriminate. cbn.
  destruct (Dict.get t "exec") as [exec_cfg|]; cbn; [|eauto].
  destruct exec_cfg as [| | | | | |e]; try discriminate. intros _. cbn.
  destruct (Dict.mem e restrictToWorkspace) eqn:Hold; cbn; [|eauto].
  destruct (Dict.mem t restrictToWorkspace); cbn; [eauto|].
  apply mem_get in Hold as [v ->]. cbn. eauto.
Qed.

Lemma migrate_config_raise (data : json) (e : exn) :
  _migrate_config data = Raise e ->
  well_shaped data = false /\ (e = AttributeError \/ e = TypeError).
Proof.
  destruct data as [| | | | | |d];
    try (cbn; intros [= <-]; split; [reflexivity|now left]).
  cbn [well_shaped]. unfold _migrate_config. cbn.
  destruct (Dict.get d "tools") as [tools|]; cbn; [|discriminate].
  destruct tools as [| | | | | |t]; cbn;
    try (intros [= <-]; split; [reflexivity|now left]).
  destruct (Dict.get t "exec") as [exec_cfg|]; cbn; [|discriminate].
  destruct exec_cfg as [| | | |s|l|ex]; cbn;
    try (intros [= <-]; split; [reflexivity|now right]).
  - destruct (PyStr.contains restrictToWorkspace s); cbn; [|discriminate].
    destruct (Dict.mem t restrictToWorkspace); cbn; [discriminate|].
    intros [= <-]; split; [reflexivity|now left].
  - destruct (existsb _ l); cbn; [|discriminate].
    destruct (Dict.mem t restrictToWorkspace); cbn; [discriminate|].
    intros [= <-]; split; [reflexivity|now right].
  - destruct (Dict.mem ex restrictToWorkspace) eqn:Hold; cbn; [|discriminate].
    destruct (Dict.mem t restrictToWorkspace); cbn; [discriminate|].
    apply mem_get in Hold as [v ->]. cbn. discriminate.
Qed.

End MigrationFacts.

(** X9. The migration is done once: the document [_migrate_config] returns
    is returned unchanged by a second call. *)
Theorem migrate_config_idempotent (data data' : json) :
  _migrate_config data = Ok data' -> _migrate_config data' = Ok data'.
Proof.
  destruct data as [| | | | | |d]; try discriminate. intros Hrun.
  destruct (migrate_config_cases _ _ Hrun)
    as [->|(t & e & v & _ & _ & _ & _ & ->)]; [exact Hrun|].
  apply migrate_config_moved_is_final.
Qed.

Lemma migrate_config_idempotent_witness :
  exists data',
    _migrate_config (JDict old_config) = Ok data'
    /\ data' <> JDict old_config
    /\ _migrate_config data' = Ok data'.
Proof.
  eexists. split; [reflexivity|]. split; [discriminate|].
  apply (migrate_config_idempotent (JDict old_config)). reflexivity.
Defined.

(** X10. [_migrate_config] returns on every document that has the shapes
    it reads, and what it raises on another document is an
    [AttributeError] or a [TypeError], never the [KeyError] of [pop]. *)
Theorem migrate_config_errors (data : json) :
  (well_shaped data = true -> exists data', _migrate_config data = Ok data')
  /\ (forall e, _migrate_config data = Raise e ->
        well_shaped data = false
        /\ (e = AttributeError \/ e = TypeError)).
Proof.
  split; [apply migrate_config_well_shaped|apply migrate_config_raise].
Qed.

Lemma migrate_config_errors_witness :
  well_shaped (JDict both_config) = true
  /\ (exists data', _migrate_config (JDict both_config) = Ok data')
  /\ _migrate_config tools_null = Raise AttributeError
  /\ well_shaped tools_null = false.
Proof.
  split; [reflexivity|]. split.
  - exact (proj1 (migrate_config_errors (JDict both_config)) eq_refl).
  - split; [reflexivity|].
    exact (proj1 (proj2 (migrate_config_errors tools_null)
                    AttributeError eq_refl)).
Defined.

(** * More on loading and saving *)

Section LoadingFacts.
Variable Config : Type.
Variable Config_default : Config.
Variable model_validate : json -> result Config.
Variable json_load : string -> result json.
Variable too_deep : json -> bool.

Lemma load_config_try_io_raise (text : string) (e : exn) :
  load_config_try_io Config model_validate json_load too_deep text = Raise e ->
  raised_by Config model_validate json_load too_deep text e.
Proof.
  unfold load_config_try_io, convert_keys_call.
  destruct (json_load text) as [data|e1] eqn:Hparse; cbn [bind];
    [|intros [= <-]; now apply ByJsonLoad].
  destruct (_migrate_config data) as [data'|e2] eqn:Hmig; cbn [bind].
  - destruct (too_deep data') eqn:Hdeep; cbn [bind].
    + intros [= <-]. eapply ByRecursion; eauto.
    + intros Hval. eapply ByValidation; eauto.
  - intros [= <-]. destruct (migrate_config_raise _ _ Hmig) as [Hshape He].
    eapply ByMigration; eauto.
Qed.

Lemma load_config_io_raise (path : string) (found : at_path) (e : exn) :
  snd (load_config_io Config Config_default model_validate json_load
         too_deep path found) = Raise e ->
  caught e = false
  /\ fst (load_config_io Config Config_default model_validate json_load
            too_deep path found) = []
  /\ ((found = NotOpenable /\ e = OSError)
      \/ exists text, found = Opens text
                      /\ raised_by Config model_validate json_load
                           too_deep text e).
Proof.
  unfold load_config_io. destruct found as [| |text]; [discriminate| |].
  - intros [= <-]. repeat split. now left.
  - destruct (load_config_try_io Config model_validate json_load too_deep
                text) as [cfg|e1] eqn:Htry; [discriminate|].
    destruct (caught e1) eqn:Hcaught; [discriminate|].
    cbn [fst snd]. intros [= <-]. repeat split; [exact Hcaught|].
    right. exists text. split; [reflexivity|].
    now apply load_config_try_io_raise.
Qed.

Lemma load_config_io_printed (path : string) (found : at_path) :
  fst (load_config_io Config Config_default model_validate json_load
         too_deep path found) <> [] ->
  exists e text,
    found = Opens text
    /\ caught e = true
    /\ raised_by Config model_validate json_load too_deep text e
    /\ load_config_io Config Config_default model_validate json_load
         too_deep path found
       = ([WarningFailedToLoad path e; UsingDefaultConfiguration],
          Ok Config_default).
Proof.
  unfold load_config_io.
  destruct found as [| |text]; try (intros []; reflexivity).
  destruct (load_config_try_io Config model_validate json_load too_deep
              text) as [cfg|e] eqn:Htry; [intros []; reflexivity|].
  destruct (caught e) eqn:Hcaught; [|intros []; reflexivity].
  intros _. exists e, text. repeat split; [exact Hcaught|].
  now apply load_config_try_io_raise.
Qed.

(** With no document too deep and a path that opens, [load_config_io] is
    [load_config]. *)
Lemma load_config_io_plain (path : string) :
  (forall data, too_deep data = false) ->
  load_config_io Config Config_default model_validate json_load too_deep
    path Nothing
  = load_config Config Config_default model_validate json_load path None
  /\ forall text,
       load_config_io Config Config_default model_validate json_load
         too_deep path (Opens text)
       = load_config Config Config_default model_validate json_load path
           (Some text).
Proof.
  intros Hdeep. split; [reflexivity|]. intro text.
  unfold load_config_io, load_config, load_config_try_io, load_config_try,
    convert_keys_call.
  destruct (json_load text) as [data|e1]; cbn [bind]; [|reflexivity].
  destruct (_migrate_config data) as [data'|e2]; cbn [bind]; [|reflexivity].
  now rewrite Hdeep.
Qed.

End LoadingFacts.

(** X11. The ways out of [load_config]. An exception leaves it only
    uncaught and with nothing printed, and only in one of these ways:
    [open] refuses a path that exists, with an [OSError]; or the file
    opens and [json.load] raises, or [_migrate_config] raises on a document
    that has not the shapes it reads, an [AttributeError] or a
    [TypeError], or [convert_keys] meets a document that is too deep, a
    [RecursionError], or [Config.model_validate] raises. So when
    [json.load] raises nothing but [JSONDecodeError] and
    [Config.model_validate] nothing but [ValueError], what leaves is the
    [OSError] of [open], the [AttributeError] or [TypeError] of the
    migration, or the [RecursionError]. Whatever is printed is the warning
    for an exception that the handler names, raised by [json.load] or by
    [Config.model_validate], followed by the notice, with the default
    configuration returned. *)
Theorem load_config_outcomes (Config : Type) (Config_default : Config)
  (model_validate : json -> result Config)
  (json_load : string -> result json) (too_deep : json -> bool)
  (path : string) (found : at_path) :
  let run :=
    load_config_io Config Config_default model_validate json_load too_deep
      path found in
  (forall e, snd run = Raise e ->
     caught e = false /\ fst run = []
     /\ ((found = NotOpenable /\ e = OSError)
         \/ exists text,
              found = Opens text
              /\ raised_by Config model_validate json_load too_deep
                   text e))
  /\ ((forall text e, json_load text = Raise e -> e = JSONDecodeError) ->
      (forall data e, model_validate data = Raise e -> e = ValueError) ->
      forall e, snd run = Raise e ->
        (found = NotOpenable /\ e = OSError)
        \/ (exists text data data',
              found = Opens text /\ json_load text = Ok data
              /\ _migrate_config data = Ok data'
              /\ too_deep data' = true /\ e = RecursionError)
        \/ (exists text data,
              found = Opens text /\ json_load text = Ok data
              /\ _migrate_config data = Raise e
              /\ well_shaped data = false
              /\ (e = AttributeError \/ e = TypeError)))
  /\ (fst run <> [] ->
      exists e text,
        found = Opens text
        /\ (e = JSONDecodeError \/ e = ValueError)
        /\ (json_load text = Raise e
            \/ exists data data',
                 json_load text = Ok data
                 /\ _migrate_config data = Ok data'
                 /\ too_deep data' = false
                 /\ model_validate (convert_keys data' []) = Raise e)
        /\ run = ([WarningFailedToLoad path e; UsingDefaultConfiguration],
                  Ok Config_default)).
Proof.
  cbv zeta. split; [|split].
  - intro e. apply load_config_io_raise.
  - intros Hload Hvalidate e Hrun.
    destruct (load_config_io_raise _ _ _ _ _ _ _ _ Hrun)
      as (Hcaught & _ & [Hopen|(text & -> & Hby)]); [now left|right].
    destruct Hby as [Hparse|data Hparse Hmig Hshape He
                     |data data' Hparse Hmig Hdeep He
                     |data data' Hparse Hmig Hdeep Hval].
    + rewrite (Hload _ _ Hparse) in Hcaught. discriminate.
    + right. exists text, data. auto.
    + left. exists text, data, data'. auto.
    + rewrite (Hvalidate _ _ Hval) in Hcaught. discriminate.
  - intros Hprinted.
    destruct (load_config_io_printed _ _ _ _ _ _ _ Hprinted)
      as (e & text & -> & Hcaught & Hby & Hrun).
    exists e, text. split; [reflexivity|].
    split; [destruct e; try discriminate; auto|]. split; [|exact Hrun].
    destruct Hby as [Hparse|data Hparse Hmig Hshape He
                     |data data' Hparse Hmig Hdeep He
                     |data data' Hparse Hmig Hdeep Hval].
    + now left.
    + destruct He as [-> | ->]; discriminate.
    + subst e. discriminate.
    + right. exists data, data'. auto.
Qed.

(** The file that holds [tools] as null lets an [AttributeError] out, and a
    directory at the path an [OSError]. *)
Lemma load_config_outcomes_witness :
  ((Opens tools_null_text = NotOpenable /\ AttributeError = OSError)
   \/ (exists text data data',
         Opens tools_null_text = Opens text
         /\ (fun _ : string => Ok tools_null) text = Ok data
         /\ _migrate_config data = Ok data'
         /\ (fun _ : json => false) data' = true
         /\ AttributeError = RecursionError)
   \/ (exists text data,
         Opens tools_null_text = Opens text
         /\ (fun _ : string => Ok tools_null) text = Ok data
         /\ _migrate_config data = Raise AttributeError
         /\ well_shaped data = false
         /\ (AttributeError = AttributeError
             \/ AttributeError = TypeError)))
  /\ load_config_io unit tt (fun _ => Ok tt) (fun _ => Ok tools_null)
       (fun _ => false) "config.json" NotOpenable
     = ([], Raise OSError).
Proof.
  split; [|reflexivity].
  refine (proj1 (proj2
    (load_config_outcomes unit tt (fun _ => Ok tt) (fun _ => Ok tools_null)
       (fun _ => false) "config.json" (Opens tools_null_text)))
    _ _ AttributeError eq_refl);
    intros ? ? [=].
Defined.

Section MemoryRoundTrip.

Lemma convert_memory_round_trip_at (x : json) :
  forall path,
    wf_json x = true ->
    keys_outside_env is_round_trip_snake_case x path = true ->
    convert_keys (convert_to_camel x path) path = x.
Proof.
  induction x as [| | | | |l IH|d IH] using json_nested_ind;
    intros path Hwf Hkeys; try reflexivity.
  - rewrite wf_json_list in Hwf. rewrite keys_outside_env_list in Hkeys.
    rewrite forallb_forall in Hwf, Hkeys. rewrite Forall_forall in IH.
    cbn [convert_to_camel convert_keys]. f_equal. rewrite map_map.
    rewrite <- (map_id l) at 2. apply map_ext_in. auto.
  - rewrite wf_json_dict in Hwf. apply andb_true_iff in Hwf as [Hnd Hwf].
    apply distinct_NoDup in Hnd. rewrite keys_outside_env_dict in Hkeys.
    rewrite forallb_forall in Hwf, Hkeys. rewrite Forall_forall in IH.
    rewrite convert_to_camel_dict, convert_keys_dict. f_equal.
    apply put_all_inverse; [exact Hnd|].
    apply Forall_forall. intros [k v] Hin; cbn [fst snd].
    specialize (Hkeys _ Hin). cbn [fst snd] in Hkeys.
    apply andb_true_iff in Hkeys as [Hk Hv].
    assert (Hkey : snake_key path (camel_key path k) = k).
    { unfold snake_key, camel_key in *.
      destruct (_is_mcp_env_map_path path); [reflexivity|].
      now apply camel_to_snake_snake_to_camel. }
    rewrite Hkey. split; [reflexivity|].
    apply (IH _ Hin); [exact (Hwf _ Hin)|exact Hv].
Qed.

End MemoryRoundTrip.

(** X13. A document of dictionaries with distinct keys comes back unchanged
    from [convert_to_camel] followed by [convert_keys] when its keys
    outside the [env] dictionaries of the servers are names of snake case
    in which every word after the first starts with a letter and has no
    letter after a digit; the [env] dictionaries may hold any names at
    all. *)
Theorem convert_memory_round_trip (x : json) :
  wf_json x = true ->
  keys_outside_env is_round_trip_snake_case x [] = true ->
  convert_keys (convert_to_camel x []) [] = x.
Proof. apply convert_memory_round_trip_at. Qed.

Lemma convert_memory_round_trip_witness :
  wf_json dumped_config = true
  /\ keys_outside_env is_round_trip_snake_case dumped_config [] = true
  /\ all_keys is_round_trip_snake_case dumped_config = false
  /\ convert_keys (convert_to_camel dumped_config []) [] = dumped_config.
Proof.
  split; [reflexivity|]. split; [reflexivity|]. split; [reflexivity|].
  apply (convert_memory_round_trip dumped_config); reflexivity.
Defined.

Section SaveLoad.
Variable Config : Type.
Variable Config_default : Config.
Variable model_validate : json -> result Config.
Variable model_dump : Config -> json.
Variable json_load : string -> result json.
Variable json_dump : json -> dumped.
Variable too_deep : json -> bool.
Variable mkdir_parent_ok : string -> bool.
Variable open_to_write_ok : string -> bool.

Lemma save_config_other_files (home : string) (config : Config)
  (config_path : option string) (fs : files) (other : string) :
  other <> path_or_default home config_path ->
  stdpp.base.lookup other
    (fst (save_config Config model_dump json_dump too_deep mkdir_parent_ok
            open_to_write_ok home config config_path fs))
  = stdpp.base.lookup other fs.
Proof.
  intros Hne. unfold save_config. cbv zeta.
  destruct (mkdir_parent_ok _); cbn [negb fst]; [|reflexivity].
  destruct (too_deep _); cbn [fst]; [reflexivity|].
  destruct (open_to_write_ok _); cbn [negb fst]; [|reflexivity].
  destruct (json_dump _); cbn [fst];
    apply stdpp.fin_maps.lookup_insert_ne; congruence.
Qed.

Lemma save_config_raise (home : string) (config : Config)
  (config_path : option string) (fs : files) (e : exn) :
  let path := path_or_default home config_path in
  let saved :=
    save_config Config model_dump json_dump too_deep mkdir_parent_ok
      open_to_write_ok home config config_path fs in
  snd saved = Raise e ->
  (e = OSError /\ fst saved = fs
   /\ (mkdir_parent_ok path = false \/ open_to_write_ok path = false))
  \/ (e = RecursionError /\ fst saved = fs
      /\ too_deep (model_dump config) = true)
  \/ (exists written,
        json_dump (convert_to_camel (model_dump config) [])
        = Failed written e
        /\ fst saved = stdpp.base.insert path written fs).
Proof.
  unfold save_config. cbv zeta.
  destruct (mkdir_parent_ok _) eqn:Hmkdir; cbn [negb fst snd];
    [|intros [= <-]; left; auto].
  destruct (too_deep _) eqn:Hdeep; cbn [fst snd];
    [intros [= <-]; right; left; auto|].
  destruct (open_to_write_ok _) eqn:Hopen; cbn [negb fst snd];
    [|intros [= <-]; left; auto].
  destruct (json_dump _) as [text|written e1]; cbn [fst snd];
    [discriminate|].
  intros [= <-]. right. right. eauto.
Qed.

Lemma save_config_written (home : string) (config : Config)
  (config_path : option string) (fs : files) (text : string) :
  mkdir_parent_ok (path_or_default home config_path) = true ->
  too_deep (model_dump config) = false ->
  open_to_write_ok (path_or_default home config_path) = true ->
  json_dump (convert_to_camel (model_dump config) []) = Written text ->
  save_config Config model_dump json_dump too_deep mkdir_parent_ok
    open_to_write_ok home config config_path fs
  = (stdpp.base.insert (path_or_default home config_path) text fs, Ok tt).
Proof.
  intros Hmkdir Hdeep Hopen Hdump. unfold save_config. cbv zeta.
  now rewrite Hmkdir, Hdeep, Hopen, Hdump.
Qed.

Lemma load_config_io_saved (path : string) (config : Config)
  (text : string) :
  wf_json (model_dump config) = true ->
  keys_outside_env is_round_trip_snake_case (model_dump config) [] = true ->
  json_load text = Ok (convert_to_camel (model_dump config) []) ->
  _migrate_config (convert_to_camel (model_dump config) [])
  = Ok (convert_to_camel (model_dump config) []) ->
  too_deep (convert_to_camel (model_dump config) []) = false ->
  model_validate (model_dump config) = Ok config ->
  load_config_io Config Config_default model_validate json_load too_deep
    path (Opens text)
  = ([], Ok config).
Proof.
  intros Hwf Hkeys Hjson Hmig Hdeep Hval.
  unfold load_config_io, load_config_try_io, convert_keys_call.
  rewrite Hjson. cbn [bind]. rewrite Hmig. cbn [bind].
  rewrite Hdeep. cbn [bind].
  rewrite (convert_memory_round_trip_at _ [] Hwf Hkeys). now rewrite Hval.
Qed.

End SaveLoad.

(** X12. What [save_config] writes, [load_config] reads back. When the
    directory can be made and the file opened and written (the text
    [text]), [save_config] returns with [text] at the path, given or
    default; and when the file then opens for reading and parses back as
    the document written, which needs no migration, is not too deep and
    has distinct keys that are, outside the [env] dictionaries of the
    servers and the server names included, names of snake case in which
    every word after the first starts with a letter and has no letter
    after a digit, and whose dump validates to the configuration, then
    [load_config] returns the configuration saved and prints nothing. In
    every case [save_config] leaves the other files as they are; when it
    raises, it is the [OSError] of [mkdir] or [open] or the
    [RecursionError] of [convert_to_camel], with the files as they were,
    or the exception of [json.dump], with what was written before it in
    the file. *)
Theorem save_then_load (Config : Type) (Config_default : Config)
  (model_validate : json -> result Config) (model_dump : Config -> json)
  (json_load : string -> result json) (json_dump : json -> dumped)
  (too_deep : json -> bool) (mkdir_parent_ok open_to_write_ok : string -> bool)
  (home : string) (config : Config) (config_path : option string)
  (fs : files) :
  let path := path_or_default home config_path in
  let saved :=
    save_config Config model_dump json_dump too_deep mkdir_parent_ok
      open_to_write_ok home config config_path fs in
  let file := convert_to_camel (model_dump config) [] in
  (forall text,
      mkdir_parent_ok path = true ->
      open_to_write_ok path = true ->
      too_deep (model_dump config) = false ->
      json_dump file = Written text ->
      saved = (stdpp.base.insert path text fs, Ok tt)
      /\ stdpp.base.lookup path (fst saved) = Some text
      /\ (wf_json (model_dump config) = true ->
          keys_outside_env is_round_trip_snake_case (model_dump config) []
          = true ->
          json_load text = Ok file ->
          _migrate_config file = Ok file ->
          too_deep file = false ->
          model_validate (model_dump config) = Ok config ->
          load_config_io Config Config_default model_validate json_load
            too_deep path (Opens text)
          = ([], Ok config)))
  /\ (forall other,
        other <> path ->
        stdpp.base.lookup other (fst saved) = stdpp.base.lookup other fs)
  /\ (forall e,
        snd saved = Raise e ->
        (e = OSError /\ fst saved = fs
         /\ (mkdir_parent_ok path = false \/ open_to_write_ok path = false))
        \/ (e = RecursionError /\ fst saved = fs
            /\ too_deep (model_dump config) = true)
        \/ (exists written,
              json_dump file = Failed written e
              /\ fst saved = stdpp.base.insert path written fs)).
Proof.
  cbv zeta. split; [|split].
  - intros text Hmkdir Hopen Hdeep Hdump.
    rewrite (save_config_written _ _ _ _ _ _ _ _ _ _ _ Hmkdir Hdeep Hopen
               Hdump).
    split; [reflexivity|]. split.
    + cbn [fst]. apply stdpp.fin_maps.lookup_insert_eq.
    + intros Hwf Hkeys Hjson Hmig Hdeep' Hval.
      now apply load_config_io_saved with (model_dump := model_dump).
  - intro other. apply save_config_other_files.
  - intro e. apply save_config_raise.
Qed.

Lemma save_then_load_witness :
  save_config json (fun config => config) (fun _ => Written "saved")
    (fun _ => false) (fun _ => true) (fun _ => true)
    "/home/user" dumped_config None stdpp.base.empty
  = (stdpp.base.insert "/home/user/.nanobot/config.json" "saved"
       stdpp.base.empty, Ok tt)
  /\ load_config_io json JNull (fun data => Ok data)
       (fun _ => Ok (convert_to_camel dumped_config [])) (fun _ => false)
       "/home/user/.nanobot/config.json" (Opens "saved")
     = ([], Ok dumped_config).
Proof.
  destruct (proj1 (save_then_load json JNull (fun data => Ok data)
                     (fun config => config)
                     (fun _ => Ok (convert_to_camel dumped_config []))
                     (fun _ => Written "saved") (fun _ => false)
                     (fun _ => true) (fun _ => true)
                     "/home/user" dumped_config None stdpp.base.empty)
              "saved" eq_refl eq_refl eq_refl eq_refl)
    as (Hsaved & _ & Hload).
  split; [exact Hsaved|].
  exact (Hload eq_refl eq_refl eq_refl eq_refl eq_refl eq_refl).
Defined.

(** * The values of the [env] dictionary, one by one *)

Section EnvValues.

Lemma get_map_values (h : json -> json) (d : list (string * json))
  (k : string) :
  Dict.get (map (fun kv => (fst kv, h (snd kv))) d) k
  = match Dict.get d k with
    | Some v => Some (h v)
    | None => None
    end.
Proof.
  induction d as [|[k1 v1] d IH]; [reflexivity|].
  cbn [map Dict.get fst snd]. now destruct (String.eqb k1 k).
Qed.

Lemma last_with_none_inv (f : string -> string) (d : list (string * json))
  (k' : string) :
  last_with f d k' = None -> forall k, In k (Dict.keys d) -> f k <> k'.
Proof.
  induction d as [|[k1 v1] d IH]; [intros _ ? []|].
  cbn [last_with]. destruct (last_with f d k'); [discriminate|].
  destruct (String.eqb_spec (f k1) k') as [|Hne]; [discriminate|].
  intros _ k [<-|Hin]; [exact Hne|now apply IH].
Qed.

(** The keys that the loop writes are the converted keys of its items. *)
Lemma keys_put_all (key : string -> string)
  (value : string -> json -> json) (items : list (string * json))
  (k' : string) :
  In k' (Dict.keys (put_all key value items []))
  <-> exists k, In k (Dict.keys items) /\ key k = k'.
Proof.
  rewrite <- mem_In, mem_get. split.
  - intros [v Hv]. rewrite get_put_all in Hv.
    destruct (last_with key items k') as [kv|] eqn:Hlast; [|discriminate].
    destruct (last_with_key _ _ _ _ Hlast) as [Hk Hin].
    exists (fst kv). split; [|exact Hk]. apply in_map_iff. eauto.
  - intros (k & Hin & Hk). rewrite get_put_all.
    destruct (last_with key items k') as [kv|] eqn:Hlast; [eauto|].
    exfalso. exact (last_with_none_inv _ _ _ Hlast k Hin Hk).
Qed.

Lemma keys_convert_every_key (f : string -> string)
  (inner : list (string * json)) (k' : string) :
  In k' (Dict.keys (dict_items (convert_every_key f (JDict inner))))
  <-> exists k, In k (Dict.keys inner) /\ f k = k'.
Proof.
  rewrite convert_every_key_dict. cbn [dict_items]. apply keys_put_all.
Qed.

End EnvValues.

(** C2, as the code has it. At the position [tools.mcp_servers.<name>.env]
    both conversions keep every key of the dictionary; the value of a key
    comes out converted with no exemption, which leaves it unchanged when
    it holds no dictionary, and gives a value that is a dictionary the
    converted keys of that dictionary; the whole dictionary is unchanged
    when no value of it holds a dictionary. The conversion with no
    exemption goes through lists element by element and puts under a
    converted key the conversion of the last value whose key is converted
    to it, so that it reaches the dictionaries at every depth. *)
Theorem env_map_fixed (path : list string) (env : list (string * json)) :
  _is_mcp_env_map_path path = true ->
  distinct (Dict.keys env) = true ->
  let snake := dict_items (convert_keys (JDict env) path) in
  let camel := dict_items (convert_to_camel (JDict env) path) in
  Dict.keys snake = Dict.keys env
  /\ Dict.keys camel = Dict.keys env
  /\ (forall k v,
        Dict.get env k = Some v ->
        Dict.get snake k = Some (convert_every_key camel_to_snake v)
        /\ Dict.get camel k = Some (convert_every_key snake_to_camel v))
  /\ (forall k v,
        Dict.get env k = Some v -> mapping_free v = true ->
        Dict.get snake k = Some v /\ Dict.get camel k = Some v)
  /\ (forall k inner,
        Dict.get env k = Some (JDict inner) ->
        exists inner_snake inner_camel,
          Dict.get snake k = Some (JDict inner_snake)
          /\ Dict.get camel k = Some (JDict inner_camel)
          /\ (forall k', In k' (Dict.keys inner_snake)
                <-> exists k0, In k0 (Dict.keys inner)
                               /\ camel_to_snake k0 = k')
          /\ (forall k', In k' (Dict.keys inner_camel)
                <-> exists k0, In k0 (Dict.keys inner)
                               /\ snake_to_camel k0 = k'))
  /\ (forall f l,
        convert_every_key f (JList l) = JList (map (convert_every_key f) l))
  /\ (forall f inner k',
        Dict.get (dict_items (convert_every_key f (JDict inner))) k'
        = match last_with f inner k' with
          | Some kv => Some (convert_every_key f (snd kv))
          | None => None
          end)
  /\ (forallb (fun kv => mapping_free (snd kv)) env = true ->
      convert_keys (JDict env) path = JDict env
      /\ convert_to_camel (JDict env) path = JDict env).
Proof.
  intros Henv Hnd. cbv zeta.
  rewrite (convert_keys_at_env _ _ Henv Hnd).
  rewrite (convert_to_camel_at_env _ _ Henv Hnd).
  cbn [dict_items].
  assert (Hvalues : forall k v,
    Dict.get env k = Some v ->
    Dict.get (map (fun kv => (fst kv,
                              convert_every_key camel_to_snake (snd kv)))
                  env) k
    = Some (convert_every_key camel_to_snake v)
    /\ Dict.get (map (fun kv => (fst kv,
                                 convert_every_key snake_to_camel (snd kv)))
                     env) k
       = Some (convert_every_key snake_to_camel v)).
  { intros k v Hv.
    rewrite (get_map_values (convert_every_key camel_to_snake)).
    rewrite (get_map_values (convert_every_key snake_to_camel)).
    now rewrite Hv. }
  split; [|split; [|split; [exact Hvalues|split; [|split; [|split;
    [reflexivity|split]]]]]].
  - unfold Dict.keys. now rewrite map_map.
  - unfold Dict.keys. now rewrite map_map.
  - intros k v Hv Hfree. destruct (Hvalues k v Hv) as [Hs Hc].
    rewrite Hs, Hc.
    now rewrite !(convert_every_key_mapping_free _ _ Hfree).
  - intros k inner Hv. destruct (Hvalues k _ Hv) as [Hs Hc].
    rewrite Hs, Hc. rewrite !convert_every_key_dict.
    do 2 eexists. split; [reflexivity|]. split; [reflexivity|].
    split; intro k'; apply keys_put_all.
  - intros f inner k'. rewrite convert_every_key_dict. cbn [dict_items].
    rewrite get_put_all. now destruct (last_with f inner k').
  - intros Hfree. rewrite forallb_forall in Hfree.
    split; f_equal; rewrite <- (map_id env) at 2; apply map_ext_in;
      intros [k v] Hin; cbn [fst snd]; f_equal;
      apply convert_every_key_mapping_free; exact (Hfree _ Hin).
Qed.

Lemma env_map_fixed_witness :
  _is_mcp_env_map_path demo_env_path = true
  /\ distinct (Dict.keys mcp_env) = true
  /\ forallb (fun kv => mapping_free (snd kv)) mcp_env = true
  /\ Dict.keys (dict_items (convert_keys (JDict mcp_env) demo_env_path))
     = ["OPENAI_API_KEY"; "MyCustomToken"]
  /\ convert_keys (JDict mcp_env) demo_env_path = JDict mcp_env
  /\ convert_to_camel (JDict mcp_env) demo_env_path = JDict mcp_env
  /\ Dict.get (dict_items (convert_keys (JDict env_with_nested_camel)
                             demo_env_path)) "HEADERS"
     = Some (JDict [("x_custom", JStr "v")]).
Proof.
  destruct (env_map_fixed demo_env_path mcp_env eq_refl eq_refl)
    as (Hkeys & _ & _ & _ & _ & _ & _ & Hall).
  destruct (Hall eq_refl) as [Hsnake Hcamel].
  destruct (env_map_fixed demo_env_path env_with_nested_camel eq_refl
              eq_refl) as (_ & _ & Hvalue & _).
  pose proof (proj1 (Hvalue "HEADERS" (JDict [("xCustom", JStr "v")])
                       eq_refl)) as Hnested.
  repeat split; try assumption; reflexivity.
Defined.

(** * Migration and conversion together *)

Section MigrationAndConversion.

Lemma last_with_none (f : string -> string) (d : list (string * json))
  (k' : string) :
  (forall k, In k (Dict.keys d) -> f k <> k') -> last_with f d k' = None.
Proof.
  induction d as [|[k v] d IH]; intros Hnone; [reflexivity|].
  cbn [last_with]. rewrite IH.
  - destruct (String.eqb_spec (f k) k') as [Heq|_]; [|reflexivity].
    exfalso. apply (Hnone k); [now left|exact Heq].
  - intros k1 Hin. apply Hnone. now right.
Qed.

(** When one key only of a dictionary of distinct keys is converted to
    [k'], the entry that ends up under [k'] is the entry of that key. *)
Lemma last_with_only (f : string -> string) (d : list (string * json))
  (k0 k' : string) :
  NoDup (Dict.keys d) ->
  (forall k, In k (Dict.keys d) -> f k = k' -> k = k0) ->
  f k0 = k' ->
  last_with f d k'
  = match Dict.get d k0 with
    | Some v => Some (k0, v)
    | None => None
    end.
Proof.
  intros Hnd Honly Hk0. induction d as [|[k v] d IH]; [reflexivity|].
  cbn [Dict.keys map fst] in Hnd. fold (Dict.keys d) in Hnd.
  apply NoDup_cons_iff in Hnd as [Hk Hnd].
  assert (Honly' : forall k1, In k1 (Dict.keys d) -> f k1 = k' -> k1 = k0)
    by (intros k1 Hin; apply Honly; now right).
  cbn [last_with Dict.get]. destruct (String.eqb_spec k k0) as [->|Hne].
  - rewrite last_with_none; [now rewrite Hk0, String.eqb_refl|].
    intros k1 Hin Heq. apply Hk. now rewrite <- (Honly' _ Hin Heq).
  - rewrite (IH Hnd Honly').
    destruct (Dict.get d k0); [reflexivity|].
    destruct (String.eqb_spec (f k) k') as [Heq|_]; [|reflexivity].
    exfalso. apply Hne. apply Honly; [now left|exact Heq].
Qed.

Lemma list_ascii_of_string_app (a b : string) :
  list_ascii_of_string (a ++ b)
  = list_ascii_of_string a ++ list_ascii_of_string b.
Proof.
  induction a as [|c a IH]; [reflexivity|].
  change (String c a ++ b)%string with (String c (a ++ b)).
  cbn [list_ascii_of_string app]. now rewrite IH.
Qed.

Lemma upper_of_snake_char (c : ascii) :
  PyStr.islower c || PyStr.isdigit c = true ->
  PyStr.islower (PyStr.upper c) = false.
Proof. PyStrFacts.by_cases_on_char c. Qed.

(** A name of snake case that [snake_to_camel] turns into a name of
    lower-case letters is that name: a second word would bring an
    upper-case letter or a digit. *)
Lemma snake_to_camel_lower_only (k target : string) :
  is_snake_case k = true ->
  forallb PyStr.islower (list_ascii_of_string target) = true ->
  snake_to_camel k = target -> k = target.
Proof.
  intros Hk Hlow Heq. unfold is_snake_case in Hk.
  destruct k as [|c0 k0]; [discriminate|].
  apply andb_true_iff in Hk as [_ Hwords].
  remember (String c0 k0) as name eqn:Hname. clear Hname.
  pose proof (split_join name) as Hjoin. unfold snake_to_camel in Heq.
  destruct (PyStr.split "_" name) as [|first components]; [contradiction|].
  destruct components as [|w ws].
  - cbn [map PyStr.join_empty fold_right] in Hjoin, Heq. congruence.
  - exfalso. cbn [forallb] in Hwords.
    apply andb_true_iff in Hwords as [_ [Hw _]%andb_true_iff].
    destruct w as [|c s]; [discriminate|].
    unfold snake_word in Hw. cbn [list_ascii_of_string forallb] in Hw.
    apply andb_true_iff in Hw as [Hc _].
    apply upper_of_snake_char in Hc.
    subst target. rewrite list_ascii_of_string_app, forallb_app in Hlow.
    apply andb_true_iff in Hlow as [_ Hlow].
    cbn [map PyStr.join_empty fold_right] in Hlow.
    unfold PyStr.title in Hlow. cbn [PyStr.title_from] in Hlow.
    rewrite list_ascii_of_string_app in Hlow.
    cbn [list_ascii_of_string app forallb] in Hlow.
    apply andb_true_iff in Hlow as [Hup _]. congruence.
Qed.

(** The entry of a dictionary of distinct snake-case keys under a key of
    lower-case letters, found in its conversion to camel case. *)
Lemma get_camel_of_lower_key (d : list (string * json)) (path : list string)
  (k0 : string) :
  _is_mcp_env_map_path path = false ->
  distinct (Dict.keys d) = true ->
  forallb is_snake_case (Dict.keys d) = true ->
  forallb PyStr.islower (list_ascii_of_string k0) = true ->
  snake_to_camel k0 = k0 ->
  Dict.get (dict_items (convert_to_camel (JDict d) path)) k0
  = match Dict.get d k0 with
    | Some v => Some (convert_to_camel v (path ++ [k0]))
    | None => None
    end.
Proof.
  intros Hpath Hnd%distinct_NoDup Hkeys Hlow Hk0.
  rewrite forallb_forall in Hkeys.
  rewrite convert_to_camel_dict. cbn [dict_items]. rewrite get_put_all.
  unfold camel_key. rewrite Hpath.
  change (fun k => snake_to_camel k) with snake_to_camel.
  rewrite (last_with_only snake_to_camel d k0 k0 Hnd); [|
    intros k Hin Heq; exact (snake_to_camel_lower_only k k0
                               (Hkeys _ Hin) Hlow Heq) | exact Hk0].
  now destruct (Dict.get d k0).
Qed.

Lemma saved_document_not_migrated (d t : list (string * json)) :
  distinct (Dict.keys d) = true ->
  forallb is_snake_case (Dict.keys d) = true ->
  distinct (Dict.keys t) = true ->
  forallb is_snake_case (Dict.keys t) = true ->
  Dict.get d "tools" = Some (JDict t) ->
  Dict.mem t "restrict_to_workspace" = true ->
  (Dict.get t "exec" = None \/ exists e, Dict.get t "exec" = Some (JDict e)) ->
  _migrate_config (convert_to_camel (JDict d) [])
  = Ok (convert_to_camel (JDict d) []).
Proof.
  intros Hnd Hkeys Hndt Hkeyst Htools Hnew Hexec.
  pose proof (get_camel_of_lower_key d [] "tools" eq_refl Hnd Hkeys eq_refl
                eq_refl) as Hd.
  rewrite Htools in Hd. cbn [app] in Hd.
  pose proof (get_camel_of_lower_key t ["tools"] "exec" eq_refl Hndt Hkeyst
                eq_refl eq_refl) as He.
  assert (Hr : exists w,
             Dict.get (dict_items (convert_to_camel (JDict t) ["tools"]))
               restrictToWorkspace = Some w).
  { apply mem_get, mem_In. rewrite convert_to_camel_dict. cbn [dict_items].
    apply keys_put_all. exists "restrict_to_workspace".
    split; [now apply mem_In|reflexivity]. }
  destruct Hr as [w Hr].
  rewrite (convert_to_camel_dict d) in Hd |- *.
  rewrite (convert_to_camel_dict t) in Hd, Hr, He.
  cbn [dict_items] in Hd, Hr, He.
  eapply migrate_config_keeps; [exact Hd|exact Hr|].
  rewrite He. destruct Hexec as [->|[e ->]]; [now left|right].
  rewrite convert_to_camel_dict. eauto.
Qed.

End MigrationAndConversion.

(** X14. A configuration dump whose top-level keys, and the keys of whose
    [tools], are distinct names of snake case, and whose [tools] carry
    [restrict_to_workspace], with [exec] a dictionary or absent, is not
    touched by the migration once [convert_to_camel] has made it the
    document of the file. The keys further down may be any strings. *)
Theorem saved_needs_no_migration (d t : list (string * json)) :
  distinct (Dict.keys d) = true ->
  forallb is_snake_case (Dict.keys d) = true ->
  distinct (Dict.keys t) = true ->
  forallb is_snake_case (Dict.keys t) = true ->
  Dict.get d "tools" = Some (JDict t) ->
  Dict.mem t "restrict_to_workspace" = true ->
  (Dict.get t "exec" = None \/ exists e, Dict.get t "exec" = Some (JDict e)) ->
  _migrate_config (convert_to_camel (JDict d) [])
  = Ok (convert_to_camel (JDict d) []).
Proof. apply saved_document_not_migrated. Qed.

Lemma saved_needs_no_migration_witness :
  _migrate_config (convert_to_camel dumped_config [])
  = Ok (convert_to_camel dumped_config []).
Proof.
  refine (saved_needs_no_migration [("tools", JDict dumped_tools)]
            dumped_tools eq_refl eq_refl eq_refl eq_refl eq_refl eq_refl _).
  right. eexists. reflexivity.
Defined.

Section MigratedThenConverted.

Lemma last_with_snoc (f : string -> string) (d : list (string * json))
  (k : string) (v : json) :
  last_with f (d ++ [(k, v)]) (f k) = Some (k, v).
Proof.
  induction d as [|[k1 v1] d IH]; cbn [app last_with].
  - now rewrite String.eqb_refl.
  - now rewrite IH.
Qed.

Lemma last_with_set (f : string -> string) (d : list (string * json))
  (k : string) (x : json) :
  NoDup (Dict.keys d) ->
  Dict.mem d k = true ->
  (forall k1, In k1 (Dict.keys d) -> f k1 = f k -> k1 = k) ->
  last_with f (Dict.set d k x) (f k) = Some (k, x).
Proof.
  intros Hnd Hmem Honly. induction d as [|[k1 v1] d IH]; [discriminate|].
  cbn [Dict.keys map fst] in Hnd. fold (Dict.keys d) in Hnd.
  apply NoDup_cons_iff in Hnd as [Hk1 Hnd].
  cbn [Dict.set Dict.mem] in *.
  destruct (String.eqb_spec k1 k) as [->|Hne]; cbn [last_with].
  - rewrite last_with_none; [now rewrite String.eqb_refl|].
    intros k2 Hin Heq. apply Hk1.
    rewrite <- (Honly k2); [exact Hin|now right|exact Heq].
  - cbn [orb] in Hmem. rewrite IH; [reflexivity|exact Hnd|exact Hmem|].
    intros k2 Hin. apply Honly. now right.
Qed.

Lemma migrated_field_converted (d t e : list (string * json)) (v : json) :
  NoDup (Dict.keys d) ->
  (forall k, In k (Dict.keys d) -> camel_to_snake k = "tools" ->
             k = "tools") ->
  Dict.get d "tools" = Some (JDict t) ->
  Dict.get t "exec" = Some (JDict e) ->
  Dict.get t restrictToWorkspace = None ->
  lookup_path
    (convert_keys
       (JDict (Dict.set d "tools"
                 (JDict (Dict.set
                           (Dict.set t "exec"
                              (JDict (Dict.remove e restrictToWorkspace)))
                           restrictToWorkspace v)))) [])
    ["tools"; "restrict_to_workspace"]
  = Some (convert_keys v ["tools"; "restrict_to_workspace"]).
Proof.
  intros Hnd Honly Ht He Hnew.
  set (t1 := Dict.set t "exec" (JDict (Dict.remove e restrictToWorkspace))).
  assert (Hfresh : ~ In restrictToWorkspace (Dict.keys t1)).
  { unfold t1. rewrite keys_set.
    assert (Hm : Dict.mem t "exec" = true) by (apply mem_get; eauto).
    rewrite Hm. now apply mem_false_not_In, get_None_mem. }
  rewrite (set_fresh _ _ v Hfresh).
  cbn [lookup_path].
  rewrite (get_convert_keys _ [] "tools"
             ("tools", JDict (t1 ++ [(restrictToWorkspace, v)])) eq_refl).
  - cbn [snd app].
    rewrite (get_convert_keys _ ["tools"] "restrict_to_workspace"
               (restrictToWorkspace, v) eq_refl); [reflexivity|].
    apply (last_with_snoc camel_to_snake t1 restrictToWorkspace v).
  - apply (last_with_set camel_to_snake d "tools"); [exact Hnd| |exact Honly].
    apply mem_get. eauto.
Qed.

End MigratedThenConverted.

(** * Paths and the reach of the exemption *)

Section Exemption.

Lemma env_path_shape (path : list string) :
  _is_mcp_env_map_path path = true
  <-> exists name, path = ["tools"; "mcp_servers"; name; "env"].
Proof.
  split.
  - destruct path as [|p0 [|p1 [|p2 [|p3 [|? ?]]]]]; cbn; try discriminate.
    intros [[H0 H1]%andb_true_iff H3]%andb_true_iff.
    apply String.eqb_eq in H0, H1, H3. subst. now exists p2.
  - intros [name ->]. reflexivity.
Qed.

(** Below a path that no extension makes the exempted one, every key is
    converted. *)
Lemma convert_to_camel_no_exemption (x : json) :
  forall path,
    (forall rest, _is_mcp_env_map_path (path ++ rest) = false) ->
    convert_to_camel x path = convert_every_key snake_to_camel x.
Proof.
  induction x as [| | | | |l IH|d IH] using json_nested_ind;
    intros path Hnever; try reflexivity.
  - cbn [convert_to_camel convert_every_key]. f_equal.
    apply map_ext_Forall. revert IH. apply Forall_impl. auto.
  - rewrite convert_to_camel_dict, convert_every_key_dict. f_equal.
    apply put_all_ext. revert IH. apply Forall_impl.
    intros [k v] Hv; cbn [fst snd] in *. unfold camel_key.
    pose proof (Hnever []) as Hhere. rewrite app_nil_r in Hhere.
    rewrite Hhere. split; [reflexivity|].
    apply Hv. intro rest. rewrite <- app_assoc. apply Hnever.
Qed.

Lemma not_servers_never_env (kt ks : string) (rest : list string) :
  ks <> "mcp_servers" -> _is_mcp_env_map_path ([kt; ks] ++ rest) = false.
Proof.
  intros Hks%String.eqb_neq.
  destruct rest as [|p2 [|p3 [|? ?]]]; cbn; try reflexivity.
  now rewrite Hks, andb_false_r.
Qed.

Lemma convert_mapping_free (x : json) :
  mapping_free x = true ->
  forall path, convert_keys x path = x /\ convert_to_camel x path = x.
Proof.
  induction x as [| | | | |l IH|d IH] using json_nested_ind;
    try (intros _ path; split; reflexivity); [|discriminate].
  rewrite mapping_free_list, forallb_forall. intros Hfree path.
  rewrite Forall_forall in IH. cbn [convert_keys convert_to_camel].
  split; f_equal; rewrite <- (map_id l) at 2; apply map_ext_in;
    intros y Hy; now apply IH; auto.
Qed.

End Exemption.

(** X16. The two path tests agree: a path points at the [env] dictionary
    of a server exactly when it is a path that points at
    [tools.mcp_servers], followed by the name of a server and [env]. *)
Theorem env_path_below_servers_path (path : list string) :
  _is_mcp_env_map_path path = true
  <-> exists servers name,
        _is_mcp_servers_path servers = true
        /\ path = servers ++ [name; "env"].
Proof.
  rewrite env_path_shape. split.
  - intros [name ->]. now exists ["tools"; "mcp_servers"], name.
  - intros (servers & name & Hservers & ->). exists name.
    destruct servers as [|p0 [|p1 [|? ?]]]; cbn in Hservers;
      try discriminate.
    apply andb_true_iff in Hservers as [H0 H1].
    apply String.eqb_eq in H0, H1. now subst.
Qed.

(** X17. [convert_to_camel] knows the server map by the key [mcp_servers]
    alone: below an entry of [tools] with any other key, [mcpServers]
    included, every key is converted, the names in an [env] dictionary
    too. *)
Theorem convert_to_camel_exempts_snake_only (d t : list (string * json))
  (kt ks k' : string) (v : json) :
  last_with snake_to_camel d "tools" = Some (kt, JDict t) ->
  last_with snake_to_camel t k' = Some (ks, v) ->
  ks <> "mcp_servers" ->
  lookup_path (convert_to_camel (JDict d) []) ["tools"; k']
  = Some (convert_every_key snake_to_camel v).
Proof.
  intros Ht Hs Hks. cbn [lookup_path].
  rewrite (get_convert_to_camel d [] _ _ eq_refl Ht). cbn [fst snd app].
  rewrite (get_convert_to_camel t [kt] _ _ eq_refl Hs). cbn [fst snd app].
  f_equal. apply convert_to_camel_no_exemption.
  intro rest. now apply not_servers_never_env.
Qed.

Lemma convert_to_camel_exempts_snake_only_witness :
  lookup_path (convert_to_camel _build_mcp_env_data []) ["tools"; "mcpServers"]
  = Some (JDict [("demo",
            JDict [("command", JStr "npx");
                   ("env", JDict [("OPENAIApiKey", JStr "test_key");
                                  ("MyCustomToken", JStr "abc")])])]).
Proof.
  refine (convert_to_camel_exempts_snake_only
            [("tools", JDict [("mcpServers", JDict [("demo",
               JDict [("command", JStr "npx"); ("env", JDict mcp_env)])])])]
            [("mcpServers", JDict [("demo",
               JDict [("command", JStr "npx"); ("env", JDict mcp_env)])])]
            "tools" "mcpServers" "mcpServers"
            (JDict [("demo",
               JDict [("command", JStr "npx"); ("env", JDict mcp_env)])])
            eq_refl eq_refl _).
  discriminate.
Defined.

(** X18. A value that holds no dictionary, such as a string, a number or a
    list of strings, is returned as it is by both conversions, at any
    path. *)
Theorem convert_keeps_mapping_free (x : json) (path : list string) :
  mapping_free x = true ->
  convert_keys x path = x /\ convert_to_camel x path = x.
Proof. intros Hfree. now apply convert_mapping_free. Qed.

Lemma convert_keeps_mapping_free_witness :
  convert_keys (JList [JStr "allowFrom"; JInt 1]) ["channels"]
  = JList [JStr "allowFrom"; JInt 1]
  /\ convert_to_camel (JList [JStr "allowFrom"; JInt 1]) ["channels"]
     = JList [JStr "allowFrom"; JInt 1].
Proof.
  apply (convert_keeps_mapping_free (JList [JStr "allowFrom"; JInt 1])).
  reflexivity.
Defined.

(** * Which snake-case keys come back *)

Section RoundTripOnlyIf.
Import PyStr PyStrFacts.

Lemma split_cons_other (c : ascii) (s : string) :
  Ascii.eqb c "_" = false ->
  exists w ws,
    split "_" s = w :: ws /\ split "_" (String c s) = String c w :: ws.
Proof.
  intros Hc. cbn [split]. rewrite Hc.
  pose proof (split_not_nil s) as Hs.
  destruct (split "_" s) as [|w ws]; [contradiction|]. eauto.
Qed.

Lemma split_cons_underscore (s : string) :
  split "_" (String "_" s) = EmptyString :: split "_" s.
Proof. reflexivity. Qed.

Lemma snake_char_cases (c : ascii) :
  islower c || isdigit c = true ->
  Ascii.eqb c "_" = false /\ isupper c = false
  /\ ((islower c = true /\ isdigit c = false)
      \/ (isdigit c = true /\ islower c = false)).
Proof.
  destruct c as [[] [] [] [] [] [] [] []]; vm_compute; intro H;
    try discriminate H;
    (split; [reflexivity|split; [reflexivity|]]);
    (left; split; reflexivity) || (right; split; reflexivity).
Qed.

Lemma not_snake_char_underscore : islower "_" || isdigit "_" = false.
Proof. reflexivity. Qed.

Lemma snake_word_cons (c : ascii) (w : string) :
  snake_word (String c w) = (islower c || isdigit c) && snake_chars w.
Proof. reflexivity. Qed.

Lemma snake_chars_cons (c : ascii) (w : string) :
  snake_chars (String c w) = (islower c || isdigit c) && snake_chars w.
Proof. reflexivity. Qed.

(** Past index 0, with the words of [s] words of snake case: what
    [camel_to_snake] makes of the title-cased text is the text only if the
    words are plain. The three statements are for the text right after an
    underscore, after a letter and after a digit. *)
Lemma titled_back_only_if (s : string) :
  forall i,
    (forallb snake_word (split "_" s) = true ->
     camel_to_snake_from (S i) (titled false s) = String "_" s ->
     forallb plain_word (split "_" s) = true)
    /\ (rest_then_words s = true ->
        camel_to_snake_from (S i) (titled true s) = s ->
        rest_then_plain letters_then_digits s = true)
    /\ (rest_then_words s = true ->
        camel_to_snake_from (S i) (titled false s) = s ->
        rest_then_plain all_digits s = true).
Proof.
  induction s as [|c s IH]; intro i.
  - repeat split; try reflexivity. discriminate.
  - destruct (IH (S i)) as (IHu & IHa & IHd).
    destruct (Ascii.eqb_spec c "_") as [->|Hc%Ascii.eqb_neq].
    + (* an underscore: the word ends here *)
      unfold rest_then_words, rest_then_plain.
      rewrite split_cons_underscore, !titled_cons. cbn [Ascii.eqb Bool.eqb].
      cbn [forallb snake_word snake_chars list_ascii_of_string andb
             letters_then_digits all_digits].
      destruct (IH i) as (IHu' & _ & _).
      repeat split; try discriminate; intros Hw Heq; now apply IHu'.
    + destruct (split_cons_other c s Hc) as (w & ws & Hs & Hcs).
      unfold rest_then_words, rest_then_plain in *.
      rewrite Hcs, !titled_cons, Hc. rewrite Hs in *.
      cbn [forallb]. rewrite snake_word_cons, snake_chars_cons.
      cbn [camel_to_snake_from Nat.ltb Nat.leb]. rewrite !andb_true_r.
      repeat split.
      * (* right after an underscore *)
        intros [[Hchar Hw]%andb_true_iff Hws]%andb_true_iff.
        destruct (snake_char_cases c Hchar) as (_ & Hup & [[Hl Hd]|[Hd Hl]]).
        -- rewrite (isupper_upper _ Hl), (lower_upper _ Hl).
           unfold iscased. rewrite Hl, orb_true_r. intros [= Heq].
           cbn [plain_word]. rewrite Hl. cbn [andb].
           apply IHa; [now rewrite Hw, Hws|exact Heq].
        -- rewrite (upper_fixed _ Hl), Hup. intros [= Heq _].
           rewrite (lower_fixed _ Hup) in Heq. subst c. discriminate.
      * (* after a letter *)
        intros [[Hchar Hw]%andb_true_iff Hws]%andb_true_iff.
        destruct (snake_char_cases c Hchar) as (_ & Hup & [[Hl Hd]|[Hd Hl]]).
        -- rewrite (lower_fixed _ Hup), Hup, (lower_fixed _ Hup).
           unfold iscased. rewrite Hl, orb_true_r. intros [= Heq].
           cbn [letters_then_digits]. rewrite Hl, Hd. cbn [andb orb].
           rewrite orb_false_r.
           apply IHa; [now rewrite Hw, Hws|exact Heq].
        -- rewrite (lower_fixed _ Hup), Hup, (lower_fixed _ Hup).
           rewrite (not_cased_digit _ Hd). intros [= Heq].
           cbn [letters_then_digits]. rewrite Hl, Hd. cbn [andb orb].
           apply IHd; [now rewrite Hw, Hws|exact Heq].
      * (* after a digit *)
        intros [[Hchar Hw]%andb_true_iff Hws]%andb_true_iff.
        destruct (snake_char_cases c Hchar) as (_ & Hup & [[Hl Hd]|[Hd Hl]]).
        -- rewrite (isupper_upper _ Hl). intros [= Heq _].
           subst c. discriminate.
        -- rewrite (upper_fixed _ Hl), Hup, (lower_fixed _ Hup).
           rewrite (not_cased_digit _ Hd). intros [= Heq].
           cbn [all_digits]. rewrite Hd. cbn [andb].
           apply IHd; [now rewrite Hw, Hws|exact Heq].
Qed.

(** In the first word the characters are copied. *)
Lemma first_word_back_only_if (s : string) :
  forall i,
    rest_then_words s = true ->
    camel_to_snake_from (S i) (snake_to_camel s) = s ->
    forallb plain_word (tl (split "_" s)) = true.
Proof.
  induction s as [|c s IH]; intros i; [reflexivity|].
  destruct (Ascii.eqb_spec c "_") as [->|Hc%Ascii.eqb_neq].
  - unfold rest_then_words. rewrite split_cons_underscore, snake_to_camel_cons.
    cbn [Ascii.eqb Bool.eqb tl forallb snake_chars list_ascii_of_string andb].
    intros Hw Heq. now apply (proj1 (titled_back_only_if s i)).
  - destruct (split_cons_other c s Hc) as (w & ws & Hs & Hcs).
    unfold rest_then_words in *. rewrite Hcs, snake_to_camel_cons, Hc.
    rewrite Hs in IH. cbn [tl] in *. rewrite snake_chars_cons.
    intros [[Hchar Hw]%andb_true_iff Hws]%andb_true_iff.
    destruct (snake_char_cases c Hchar) as (_ & Hup & _).
    cbn [camel_to_snake_from Nat.ltb Nat.leb].
    rewrite Hup, (lower_fixed _ Hup). cbn [andb]. intros [= Heq].
    apply (IH (S i)); [now rewrite Hw, Hws|exact Heq].
Qed.

(** A snake-case name that comes back is one of
    [is_round_trip_snake_case]. *)
Lemma round_trip_only_if (name : string) :
  is_snake_case name = true ->
  camel_to_snake (snake_to_camel name) = name ->
  is_round_trip_snake_case name = true.
Proof.
  intros Hsnake Heq. unfold is_round_trip_snake_case. rewrite Hsnake.
  cbn [andb]. destruct name as [|c s]; [discriminate|].
  cbn [is_snake_case] in Hsnake. apply andb_true_iff in Hsnake as [Hl Hwords].
  pose proof (islower_not_underscore _ Hl) as Hc.
  destruct (split_cons_other c s Hc) as (w & ws & Hs & Hcs).
  rewrite Hcs in *. cbn [tl forallb] in *.
  rewrite snake_word_cons in Hwords.
  apply andb_true_iff in Hwords as [[_ Hw]%andb_true_iff Hws].
  unfold camel_to_snake in Heq. rewrite snake_to_camel_cons, Hc in Heq.
  cbn [camel_to_snake_from Nat.ltb Nat.leb] in Heq.
  rewrite andb_false_r in Heq. injection Heq as _ Heq.
  pose proof (first_word_back_only_if s 0) as Hback.
  unfold rest_then_words in Hback. rewrite Hs in Hback. cbn [tl] in Hback.
  apply Hback; [now rewrite Hw, Hws|exact Heq].
Qed.

End RoundTripOnlyIf.

(** C1, as the code has it. A document whose keys are snake-case names
    in which every word after the first starts with a letter and has no
    letter after a digit comes back unchanged from [convert_to_camel]
    followed by [convert_keys], with or without an [env] dictionary below
    [tools]; and among the snake-case names these are the only ones that
    come back from [snake_to_camel] followed by [camel_to_snake]. *)
Theorem convert_round_trip :
  (forall x : json,
      wf_json x = true ->
      all_keys is_round_trip_snake_case x = true ->
      convert_keys (convert_to_camel x []) [] = x)
  /\ (forall name : string,
         is_snake_case name = true ->
         (camel_to_snake (snake_to_camel name) = name
          <-> is_round_trip_snake_case name = true)).
Proof.
  split.
  - intro x. apply convert_round_trip_at.
  - intros name Hsnake. split.
    + now apply round_trip_only_if.
    + apply camel_to_snake_snake_to_camel.
Qed.

Lemma convert_round_trip_witness :
  wf_json config_snake_sample = true
  /\ all_keys is_round_trip_snake_case config_snake_sample = true
  /\ convert_keys (convert_to_camel config_snake_sample []) []
     = config_snake_sample
  /\ is_snake_case "sha_256" = true
  /\ is_round_trip_snake_case "sha_256" = false.
Proof.
  split; [reflexivity|]. split; [reflexivity|]. split.
  - apply (proj1 convert_round_trip config_snake_sample); reflexivity.
  - split; reflexivity.
Defined.

(** * The migrated field in the configuration *)

(** X15. Migration followed by key conversion, as [load_config] does them.
    When the keys of the document are distinct and no key of it other than
    [tools] is converted to [tools], when [tools] is a dictionary whose
    [exec] is a dictionary that has [restrictToWorkspace], and [tools]
    itself has not, then what the converted document has at
    [tools.restrict_to_workspace] is the conversion of the old value: the
    old value itself when it holds no dictionary, as a boolean does. This
    is so whatever other keys [tools] holds. *)
Theorem migrated_field_after_conversion (d t e : list (string * json))
  (v : json) :
  distinct (Dict.keys d) = true ->
  (forall k, In k (Dict.keys d) -> camel_to_snake k = "tools" ->
             k = "tools") ->
  Dict.get d "tools" = Some (JDict t) ->
  Dict.get t "exec" = Some (JDict e) ->
  Dict.get e restrictToWorkspace = Some v ->
  Dict.get t restrictToWorkspace = None ->
  exists data',
    _migrate_config (JDict d) = Ok data'
    /\ lookup_path (convert_keys data' []) ["tools"; "restrict_to_workspace"]
       = Some (convert_keys v ["tools"; "restrict_to_workspace"])
    /\ (mapping_free v = true ->
        lookup_path (convert_keys data' [])
          ["tools"; "restrict_to_workspace"]
        = Some v).
Proof.
  intros Hnd%distinct_NoDup Honly Ht He Hold Hnew. eexists.
  split; [exact (migrate_config_moves _ _ _ _ Ht He Hold Hnew)|].
  split; [now apply migrated_field_converted|].
  intros Hfree. rewrite (migrated_field_converted d t e v); try assumption.
  f_equal. now apply convert_mapping_free.
Qed.

Lemma migrated_field_after_conversion_witness :
  exists data',
    _migrate_config (JDict old_config) = Ok data'
    /\ lookup_path (convert_keys data' []) ["tools"; "restrict_to_workspace"]
       = Some (JBool true).
Proof.
  destruct (migrated_field_after_conversion old_config
              [("exec", JDict [("timeout", JInt 60);
                               ("restrictToWorkspace", JBool true)])]
              [("timeout", JInt 60); ("restrictToWorkspace", JBool true)]
              (JBool true) eq_refl)
    as (data' & Hmig & _ & Hvalue); try reflexivity.
  - intros k [<-|[<-|[]]]; [discriminate|reflexivity].
  - exists data'. split; [exact Hmig|]. exact (Hvalue eq_refl).
Defined.
